(** * AIPdfDoc: the client-side request and streaming layer

    A shallow embedding of the JavaScript of [templates/js/api.js]
    ([ApiClient], [SearchAPI.searchStream], [RequestRetrier],
    [RequestInterceptor], [CacheManager]) and of the two page modules that
    call it ([ChatManager.sendMessage], [FileManager.monitorFileProcessing],
    [FileManager.performDeleteFile] and its siblings), with the properties
    the design document states about them.

    Conventions.
    - A JavaScript string is a [string] holding its UTF-8 bytes.  Every
      string operation used by the source ([split], [startsWith], [slice],
      [includes], [+=]) is applied to needles and offsets that are ASCII or
      whole characters, so the byte view and the UTF-16 view agree.
    - Times and delays are milliseconds in [Z].
    - Calls that leave the embedded code (DOM updates, notifications,
      console output, timers, network calls) are recorded in order in a log.
    - A [Map] is a [gmap]. *)

From stdpp Require Import base list strings pretty gmap.
From Stdlib Require Import ZArith Lia Ascii String.

Local Open Scope Z_scope.
#[local] Set Warnings "-register-all".

(* ===================================================================== *)
(** ** JavaScript strings *)
(* ===================================================================== *)

Module JsString.

(** The one-character strings the source needs and that cannot be typed
    inside a literal. *)
Definition nl_char : ascii := ascii_of_nat 10.
Definition dq_char : ascii := ascii_of_nat 34.
Definition bs_char : ascii := ascii_of_nat 92.
Definition nl : string := String nl_char EmptyString.

(** [js "{'a':1}"] is the text [{"a":1}]: apostrophes stand for double
    quotes, so that JSON texts can be written down readably. *)
Fixpoint js (s : string) : string :=
  match s with
  | EmptyString => EmptyString
  | String c r => String (if Ascii.eqb c "'" then dq_char else c) (js r)
  end.

(** [s.startsWith(p)] *)
Definition startsWith (s p : string) : bool := String.prefix p s.

(** [s.slice(n)] for [0 <= n] *)
Fixpoint slice (n : nat) (s : string) : string :=
  match n, s with
  | O, _ => s
  | S _, EmptyString => EmptyString
  | S m, String _ r => slice m r
  end.

(** [s.includes(p)] *)
Fixpoint includes (s p : string) : bool :=
  String.prefix p s ||
  match s with
  | EmptyString => false
  | String _ r => includes r p
  end.

(** [s.split(sep)] for a one-character separator: the pieces between
    the separators, so a text ending in the separator has a last piece
    that is empty, and the empty text has one piece, the empty one. *)
Fixpoint split (sep : ascii) (s : string) : list string :=
  match s with
  | EmptyString => [EmptyString]
  | String c r =>
      if Ascii.eqb c sep then EmptyString :: split sep r
      else match split sep r with
           | [] => [String c EmptyString]
           | piece :: pieces => String c piece :: pieces
           end
  end.

(** The white space and line terminators of ECMAScript, in UTF-8:
    TAB, LF, VT, FF, CR, SP, U+00A0, U+1680, U+2000 to U+200A, U+2028,
    U+2029, U+202F, U+205F, U+3000 and U+FEFF. *)
Definition bytes (ns : list nat) : list ascii := map ascii_of_nat ns.

Definition white_space : list (list ascii) :=
  map bytes
    [ [9%nat]; [10%nat]; [11%nat]; [12%nat]; [13%nat]; [32%nat];
      [194; 160]%nat; [225; 154; 128]%nat;
      [226; 128; 128]%nat; [226; 128; 129]%nat; [226; 128; 130]%nat;
      [226; 128; 131]%nat; [226; 128; 132]%nat; [226; 128; 133]%nat;
      [226; 128; 134]%nat; [226; 128; 135]%nat; [226; 128; 136]%nat;
      [226; 128; 137]%nat; [226; 128; 138]%nat;
      [226; 128; 168]%nat; [226; 128; 169]%nat; [226; 128; 175]%nat;
      [226; 129; 159]%nat; [227; 128; 128]%nat; [239; 187; 191]%nat ].

Fixpoint starts_with (p s : list ascii) : bool :=
  match p, s with
  | [], _ => true
  | _ :: _, [] => false
  | a :: p', b :: s' => Ascii.eqb a b && starts_with p' s'
  end.

(** Removes the sequences [ws] from the front of [s] for as long as
    one of them is there. *)
Fixpoint strip (fuel : nat) (ws : list (list ascii)) (s : list ascii) : list ascii :=
  match fuel with
  | O => s
  | S fuel' =>
      match List.find (fun p => starts_with p s) ws with
      | Some p => strip fuel' ws (List.skipn (List.length p) s)
      | None => s
      end
  end.

(** [s.trim()]: white space is removed at both ends. *)
Definition trim (s : string) : string :=
  let l := list_ascii_of_string s in
  let n := List.length l in
  let front := strip n white_space l in
  let back := strip n (map (@List.rev ascii) white_space) (List.rev front) in
  string_of_list_ascii (List.rev back).

End JsString.

(* ===================================================================== *)
(** ** JSON.parse *)
(* ===================================================================== *)

Module Json.
Import JsString.

(** A parsed JSON text.  A number keeps its lexeme (nothing below
    computes with numbers); an object keeps its members in source
    order. *)
Inductive json : Type :=
| JNull
| JBool (b : bool)
| JNumber (lexeme : string)
| JString (s : string)
| JArray (items : list json)
| JObject (members : list (string * json)).

(** [o.name]: the last member of that name wins, as when the object is
    built; a value that is not an object, or without the member, gives
    [undefined] (here [None]). *)
Fixpoint lookup_member (name : string) (ms : list (string * json)) : option json :=
  match ms with
  | [] => None
  | (k, v) :: rest =>
      match lookup_member name rest with
      | Some v' => Some v'
      | None => if String.eqb k name then Some v else None
      end
  end.

Definition prop (name : string) (v : json) : option json :=
  match v with
  | JObject ms => lookup_member name ms
  | _ => None
  end.

(** *** Lexical helpers *)

Definition is_ws (c : ascii) : bool :=
  let n := nat_of_ascii c in
  (n =? 32)%nat || (n =? 9)%nat || (n =? 10)%nat || (n =? 13)%nat.

Fixpoint skip_ws (s : string) : string :=
  match s with
  | String c r => if is_ws c then skip_ws r else s
  | EmptyString => EmptyString
  end.

Definition is_digit (c : ascii) : bool :=
  let n := nat_of_ascii c in (48 <=? n)%nat && (n <=? 57)%nat.

Definition hex_val (c : ascii) : option N :=
  let n := N_of_ascii c in
  if (48 <=? n)%N && (n <=? 57)%N then Some (n - 48)%N
  else if (97 <=? n)%N && (n <=? 102)%N then Some (n - 87)%N
  else if (65 <=? n)%N && (n <=? 70)%N then Some (n - 55)%N
  else None.

Definition hex4 (a b c d : ascii) : option N :=
  match hex_val a, hex_val b, hex_val c, hex_val d with
  | Some x, Some y, Some z, Some w => Some (x * 4096 + y * 256 + z * 16 + w)%N
  | _, _, _, _ => None
  end.

(** A piece of string content: a byte of the text, or a code unit
    written as [\uXXXX]. *)
Inductive unit_ : Type :=
| Raw (c : ascii)
| Esc (u : N).

Definition byte_of (n : N) : ascii := ascii_of_N n.

(** UTF-8 of a code point (a lone surrogate is written the same way). *)
Definition utf8 (cp : N) : list ascii :=
  if (cp <? 128)%N then [byte_of cp]
  else if (cp <? 2048)%N then
    [byte_of (192 + cp / 64); byte_of (128 + cp mod 64)]
  else if (cp <? 65536)%N then
    [byte_of (224 + cp / 4096); byte_of (128 + (cp / 64) mod 64);
     byte_of (128 + cp mod 64)]
  else
    [byte_of (240 + cp / 262144); byte_of (128 + (cp / 4096) mod 64);
     byte_of (128 + (cp / 64) mod 64); byte_of (128 + cp mod 64)].

Definition is_high (u : N) : bool := (55296 <=? u)%N && (u <=? 56319)%N.
Definition is_low (u : N) : bool := (56320 <=? u)%N && (u <=? 57343)%N.

Fixpoint encode_units (us : list unit_) : list ascii :=
  match us with
  | [] => []
  | Raw c :: rest => c :: encode_units rest
  | Esc hi :: rest =>
      match rest with
      | Esc lo :: rest' =>
          if is_high hi && is_low lo
          then utf8 (65536 + (hi - 55296) * 1024 + (lo - 56320))%N
                 ++ encode_units rest'
          else utf8 hi ++ encode_units rest
      | _ => utf8 hi ++ encode_units rest
      end
  end.

Definition string_of_units (us : list unit_) : string :=
  string_of_list_ascii (encode_units us).

(** The content of a string literal, after its opening quote, up to and
    including the closing quote. *)
Fixpoint string_body (s : string) (acc : list unit_) : option (string * string) :=
  match s with
  | EmptyString => None
  | String c r =>
      if Ascii.eqb c dq_char then Some (string_of_units (rev acc), r)
      else if Ascii.eqb c bs_char then
        match r with
        | String e r1 =>
            if Ascii.eqb e dq_char then string_body r1 (Raw dq_char :: acc)
            else if Ascii.eqb e bs_char then string_body r1 (Raw bs_char :: acc)
            else if Ascii.eqb e "/" then string_body r1 (Raw "/"%char :: acc)
            else if Ascii.eqb e "b" then string_body r1 (Raw (ascii_of_nat 8) :: acc)
            else if Ascii.eqb e "f" then string_body r1 (Raw (ascii_of_nat 12) :: acc)
            else if Ascii.eqb e "n" then string_body r1 (Raw (ascii_of_nat 10) :: acc)
            else if Ascii.eqb e "r" then string_body r1 (Raw (ascii_of_nat 13) :: acc)
            else if Ascii.eqb e "t" then string_body r1 (Raw (ascii_of_nat 9) :: acc)
            else if Ascii.eqb e "u" then
              match r1 with
              | String h1 (String h2 (String h3 (String h4 r2))) =>
                  match hex4 h1 h2 h3 h4 with
                  | Some u => string_body r2 (Esc u :: acc)
                  | None => None
                  end
              | _ => None
              end
            else None
        | EmptyString => None
        end
      else if (nat_of_ascii c <? 32)%nat then None
      else string_body r (Raw c :: acc)
  end.

Fixpoint digits (s : string) : string * string :=
  match s with
  | String c r =>
      if is_digit c then let '(ds, rest) := digits r in (String c ds, rest)
      else (EmptyString, s)
  | EmptyString => (EmptyString, EmptyString)
  end.

(** A number: an optional minus sign; then a single 0, or a digit from
    1 to 9 followed by any digits; then optionally a point and at least
    one digit; then optionally e or E, an optional sign and at least one
    digit.  The result is the lexeme and the rest of the text. *)
Definition number (s : string) : option (string * string) :=
  let '(sign, s1) :=
    match s with
    | String "-" r => ("-"%string, r)
    | _ => (EmptyString, s)
    end in
  let int_part :=
    match s1 with
    | String "0" r => Some ("0"%string, r)
    | String c _ => if is_digit c then Some (digits s1) else None
    | EmptyString => None
    end in
  match int_part with
  | None => None
  | Some (ip, s2) =>
      let frac :=
        match s2 with
        | String "." r =>
            match digits r with
            | (EmptyString, _) => None
            | (ds, rest) => Some ("." +:+ ds, rest)
            end
        | _ => Some (EmptyString, s2)
        end in
      match frac with
      | None => None
      | Some (fp, s3) =>
          let exp :=
            match s3 with
            | String e r =>
                if Ascii.eqb e "e" || Ascii.eqb e "E" then
                  let '(sg, r') :=
                    match r with
                    | String "+" r1 => ("+"%string, r1)
                    | String "-" r1 => ("-"%string, r1)
                    | _ => (EmptyString, r)
                    end in
                  match digits r' with
                  | (EmptyString, _) => None
                  | (ds, rest) => Some (String e sg +:+ ds, rest)
                  end
                else Some (EmptyString, s3)
            | EmptyString => Some (EmptyString, s3)
            end in
          match exp with
          | None => None
          | Some (ep, s4) => Some (sign +:+ ip +:+ fp +:+ ep, s4)
          end
      end
  end.

(** *** Values

    Recursive descent; [fuel] bounds the depth of the calls.  A call
    either consumes a character or is followed by one that does, so
    twice the length of the text is more than enough. *)
Fixpoint parse_value (fuel : nat) (s : string) {struct fuel} : option (json * string) :=
  match fuel with
  | O => None
  | S fuel' =>
      match s with
      | EmptyString => None
      | String c r =>
          if Ascii.eqb c "{" then
            match skip_ws r with
            | String "}" rest => Some (JObject [], rest)
            | s1 =>
                match parse_members fuel' s1 with
                | Some (ms, rest) => Some (JObject ms, rest)
                | None => None
                end
            end
          else if Ascii.eqb c "[" then
            match skip_ws r with
            | String "]" rest => Some (JArray [], rest)
            | s1 =>
                match parse_elements fuel' s1 with
                | Some (vs, rest) => Some (JArray vs, rest)
                | None => None
                end
            end
          else if Ascii.eqb c dq_char then
            match string_body r [] with
            | Some (str, rest) => Some (JString str, rest)
            | None => None
            end
          else if String.prefix "true" s then Some (JBool true, slice 4 s)
          else if String.prefix "false" s then Some (JBool false, slice 5 s)
          else if String.prefix "null" s then Some (JNull, slice 4 s)
          else
            match number s with
            | Some (lx, rest) => Some (JNumber lx, rest)
            | None => None
            end
      end
  end

(** The values of an array up to its closing bracket, the cursor being
    on the first value. *)
with parse_elements (fuel : nat) (s : string) {struct fuel} : option (list json * string) :=
  match fuel with
  | O => None
  | S fuel' =>
      match parse_value fuel' s with
      | None => None
      | Some (v, s1) =>
          match skip_ws s1 with
          | String "]" rest => Some ([v], rest)
          | String "," s2 =>
              match parse_elements fuel' (skip_ws s2) with
              | Some (vs, rest) => Some (v :: vs, rest)
              | None => None
              end
          | _ => None
          end
      end
  end

(** The members of an object up to its closing brace, the cursor being
    on the first name. *)
with parse_members (fuel : nat) (s : string) {struct fuel}
  : option (list (string * json) * string) :=
  match fuel with
  | O => None
  | S fuel' =>
      match s with
      | String c r =>
          if Ascii.eqb c dq_char then
            match string_body r [] with
            | None => None
            | Some (k, s1) =>
                match skip_ws s1 with
                | String ":" s2 =>
                    match parse_value fuel' (skip_ws s2) with
                    | None => None
                    | Some (v, s3) =>
                        match skip_ws s3 with
                        | String "}" rest => Some ([(k, v)], rest)
                        | String "," s4 =>
                            match parse_members fuel' (skip_ws s4) with
                            | Some (ms, rest) => Some ((k, v) :: ms, rest)
                            | None => None
                            end
                        | _ => None
                        end
                    end
                | _ => None
                end
            end
          else None
      | EmptyString => None
      end
  end.

(** [JSON.parse(text)]: [None] is the thrown [SyntaxError]. *)
Definition parse (text : string) : option json :=
  match parse_value (2 * String.length text + 2) (skip_ws text) with
  | Some (v, rest) =>
      match skip_ws rest with
      | EmptyString => Some v
      | _ => None
      end
  | None => None
  end.

End Json.

(* ===================================================================== *)
(** ** Numbers *)
(* ===================================================================== *)

Module JsNumber.
Import Json.

(** [JSON.parse] makes a Number of a number lexeme, and [String] writes
    a Number in the shortest decimal that is read back as the same
    Number.  Both are followed here on whole numbers, exactly. *)

(** A number lexeme read as a decimal: its sign, all its digits as one
    whole number, and the power of ten that goes with them. *)
Record decimal : Type := Decimal { negative : bool; digits : Z; exp10 : Z }.

(** The digits at the front of [s], added to [acc]: the number read,
    how many digits there were, and the rest. *)
Fixpoint read_digits (s : string) (acc count : Z) : Z * Z * string :=
  match s with
  | String c r =>
      if is_digit c
      then read_digits r (10 * acc + (Z.of_nat (nat_of_ascii c) - 48)) (count + 1)
      else (acc, count, s)
  | EmptyString => (acc, count, s)
  end.

Definition scan (lexeme : string) : decimal :=
  let '(neg, s1) :=
    match lexeme with
    | String "-" r => (true, r)
    | _ => (false, lexeme)
    end in
  let '(whole, _, s2) := read_digits s1 0 0 in
  let '(all, places, s3) :=
    match s2 with
    | String "." r => read_digits r whole 0
    | _ => (whole, 0, s2)
    end in
  let e :=
    match s3 with
    | String c r =>
        if Ascii.eqb c "e" || Ascii.eqb c "E" then
          match r with
          | String "-" r' => - fst (fst (read_digits r' 0 0))
          | String "+" r' => fst (fst (read_digits r' 0 0))
          | _ => fst (fst (read_digits r 0 0))
          end
        else 0
    | EmptyString => 0
    end in
  Decimal neg all (e - places).

(** The magnitude of a Number: zero, [q * 2^p] with [0 < q], or
    infinity. *)
Inductive magnitude : Type :=
| Zero
| Finite (q p : Z)
| Infinite.

(** [num / den] rounded to the nearest whole number, to the even one
    when it is half way. *)
Definition round_half_even (num den : Z) : Z :=
  let q := num / den in
  let twice := 2 * (num mod den) in
  if twice <? den then q
  else if den <? twice then q + 1
  else if Z.even q then q else q + 1.

(** [m * 10^e] as a fraction. *)
Definition fraction (m e : Z) : Z * Z :=
  if 0 <=? e then (m * 10 ^ e, 1) else (m, 10 ^ (- e)).

(** [m * 10^e], for [0 <= m], rounded to the nearest double (IEEE 754
    binary64, ties to even), as [JSON.parse] and [Number] do. *)
Definition to_double (m e : Z) : magnitude :=
  if m <=? 0 then Zero
  else if 400 <? e then Infinite
  else if e + Z.log2 m / 3 + 1 <? -400 then Zero
  else
    let '(num, den) := fraction m e in
    let k0 := Z.log2 num - Z.log2 den in
    let below :=
      if 0 <=? k0 then num <? den * 2 ^ k0 else num * 2 ^ (- k0) <? den in
    let k := if below then k0 - 1 else k0 in
    let p := Z.max k (-1022) - 52 in
    let q :=
      if 0 <=? p then round_half_even num (den * 2 ^ p)
      else round_half_even (num * 2 ^ (- p)) den in
    if q =? 0 then Zero
    else if 1024 <=? Z.log2 q + p then Infinite
    else if q =? 2 ^ 53 then Finite (2 ^ 52) (p + 1)
    else Finite q p.

Definition same (a b : magnitude) : bool :=
  match a, b with
  | Zero, Zero | Infinite, Infinite => true
  | Finite q p, Finite q' p' => (q =? q') && (p =? p')
  | _, _ => false
  end.

(** [q * 2^p] and [s * 10^t] brought to the same denominator. *)
Definition numerators (q p s t : Z) : Z * Z :=
  let two := if 0 <=? p then (2 ^ p, 1) else (1, 2 ^ (- p)) in
  let ten := if 0 <=? t then (10 ^ t, 1) else (1, 10 ^ (- t)) in
  (q * fst two * snd ten, s * fst ten * snd two).

(** [10^x <= q * 2^p] *)
Definition reaches (q p x : Z) : bool :=
  let '(v, d) := numerators q p 1 x in d <=? v.

(** The [e] with [10^e <= q * 2^p < 10^(e+1)]. *)
Definition decimal_exponent (q p : Z) : Z :=
  let guess := (Z.log2 q + p) * 30103 / 100000 in
  if reaches q p (guess + 1) then guess + 1
  else if reaches q p guess then guess
  else guess - 1.

(** The [k]-digit decimals next to [q * 2^p] that are read back as
    the same double, the nearer one first: [(s, t)] stands for
    [s * 10^t]. *)
Definition candidates (q p e k : Z) : list (Z * Z) :=
  let t := e - k + 1 in
  let '(v, unit) := numerators q p 1 t in
  let lower := v / unit in
  let upper := lower + 1 in
  let ok s := (0 <? s) && same (to_double s t) (Finite q p) in
  let below := v - lower * unit in
  let above := upper * unit - v in
  let first_lower :=
    (below <? above) || ((below =? above) && Z.even lower) in
  let l := if ok lower then [(lower, t)] else [] in
  let u := if ok upper then [(upper, t)] else [] in
  if first_lower then l ++ u else u ++ l.

(** The shortest decimal that is read back as [q * 2^p], looked for
    with [k], [k + 1], ... digits. *)
Fixpoint shortest (fuel : nat) (q p e k : Z) : Z * Z :=
  match fuel with
  | O => (q, p)
  | S fuel' =>
      match candidates q p e k with
      | c :: _ => c
      | [] => shortest fuel' q p e (k + 1)
      end
  end.

Fixpoint zeros (n : nat) : string :=
  match n with
  | O => EmptyString
  | S n' => String "0" (zeros n')
  end.

Fixpoint first (n : nat) (s : string) : string :=
  match n, s with
  | S n', String c r => String c (first n' r)
  | _, _ => EmptyString
  end.

Fixpoint after (n : nat) (s : string) : string :=
  match n, s with
  | S n', String _ r => after n' r
  | _, _ => s
  end.

(** [s] without the zeros at its end, and how many there were. *)
Fixpoint strip_zeros (fuel : nat) (s t : Z) : Z * Z :=
  match fuel with
  | O => (s, t)
  | S fuel' =>
      if (s mod 10 =? 0) && (0 <? s) then strip_zeros fuel' (s / 10) (t + 1)
      else (s, t)
  end.

(** [Number::toString] for the digits [s] (none of them a trailing
    zero) and the exponent [t]. *)
Definition write (s t : Z) : string :=
  let ds := pretty s in
  let k := Z.of_nat (String.length ds) in
  let n := t + k in
  if (k <=? n) && (n <=? 21) then ds +:+ zeros (Z.to_nat (n - k))
  else if (0 <? n) && (n <=? 21) then
    first (Z.to_nat n) ds +:+ "." +:+ after (Z.to_nat n) ds
  else if (-6 <? n) && (n <=? 0) then
    "0." +:+ zeros (Z.to_nat (- n)) +:+ ds
  else
    let e := n - 1 in
    let sign := if e <? 0 then "-" else "+" in
    let mant :=
      if k =? 1 then ds
      else first 1 ds +:+ "." +:+ after 1 ds in
    mant +:+ "e" +:+ sign +:+ pretty (Z.abs e).

(** [String(x)] for the Number [x] that the lexeme is parsed to. *)
Definition to_string (lexeme : string) : string :=
  let d := scan lexeme in
  match to_double (digits d) (exp10 d) with
  | Zero => "0"
  | Infinite => if negative d then "-Infinity" else "Infinity"
  | Finite q p =>
      let e := decimal_exponent q p in
      let '(s, t) := shortest 17 q p e 1 in
      let '(s', t') := strip_zeros 20 s t in
      (if negative d then "-" else EmptyString) +:+ write s' t'
  end.

(** Whether the Number the lexeme is parsed to is [0] or [-0]. *)
Definition is_zero (lexeme : string) : bool :=
  let d := scan lexeme in
  same (to_double (digits d) (exp10 d)) Zero.

End JsNumber.

(* ===================================================================== *)
(** ** Errors and HTTP responses *)
(* ===================================================================== *)

Module Http.

(** A thrown [Error]: its [name] and its [message]. *)
Record error : Type := Error { name : string; message : string }.

(** [new Error(msg)] *)
Definition new_Error (msg : string) : error := Error "Error" msg.

(** What [fetch] hands to [searchStream], for a response that has a
    body: the status line, and the body as the chunks [reader.read()]
    yields one after the other; the body ends either cleanly ([done]) or
    with a rejected read.  (A response without a body, as with status
    204, is not among these: there [response.body.getReader()] throws.) *)
Record stream_response : Type := StreamResponse {
  ok : bool;
  status : Z;
  statusText : string;
  chunks : list string;
  read_failure : option error
}.

Inductive fetch_outcome : Type :=
| FetchRejected (e : error)
| FetchResolved (r : stream_response).

(** The text [`HTTP ${status}: ${statusText}`]. *)
Definition http_message (st : Z) (stText : string) : string :=
  "HTTP " +:+ pretty st +:+ ": " +:+ stText.

End Http.

(* ===================================================================== *)
(** ** SearchAPI.searchStream *)
(* ===================================================================== *)

Module SearchAPI.
Import JsString Json Http.

Section Consumer.
(** The world the subscriber acts on. [onMessage data w] is the call
    [onMessage(data)]: the world after it, and whether it threw.
    [console_error] is the [console.error] of the [catch]. *)
Context {W : Type}.
Variable onMessage : json -> W -> W * bool.
Variable console_error : W -> W.

(** The body of [for (const line of lines)]. *)
Definition on_line (line : string) (w : W) : W :=
  if startsWith line "data: " then
    match parse (slice 6 line) with
    | Some data =>
        let '(w', threw) := onMessage data w in
        if threw then console_error w' else w'
    | None => console_error w
    end
  else w.

Fixpoint for_lines (lines : list string) (w : W) : W :=
  match lines with
  | [] => w
  | line :: rest => for_lines rest (on_line line w)
  end.

(** One turn of [while (true)] after a read that was not [done]:
    the chunk is split on its own; nothing of it is kept for the next
    turn. *)
Definition on_chunk (chunk : string) (w : W) : W :=
  for_lines (split nl_char chunk) w.

Fixpoint read_loop (cs : list string) (w : W) : W :=
  match cs with
  | [] => w
  | chunk :: rest => read_loop rest (on_chunk chunk w)
  end.

(** [searchStream(sessionId, query, fileIds, onMessage)] on the
    outcome of its [fetch]: the world afterwards and, when the call
    throws, the error. *)
Definition searchStream (f : fetch_outcome) (w : W) : W * option error :=
  match f with
  | FetchRejected e => (w, Some e)
  | FetchResolved r =>
      if negb (ok r) then
        (w, Some (new_Error (http_message (status r) (statusText r))))
      else (read_loop (chunks r) w, read_failure r)
  end.
End Consumer.

(** The subscriber that only records what it is called with. *)
Definition record_event (data : json) (seen : list json) : list json * bool :=
  (seen ++ [data], false).

(** The arguments of the calls of [onMessage], in order, for a body
    delivered in the given chunks. *)
Definition received (cs : list string) : list json :=
  read_loop record_event id cs [].

(** The events of the protocol as the server writes them. *)
Definition ev_start : json := JObject [("type"%string, JString "start")].
Definition ev_progress (m : string) : json :=
  JObject [("type"%string, JString "progress"); ("message"%string, JString m)].
Definition ev_content (fragment : string) : json :=
  JObject [("type"%string, JString "content"); ("content"%string, JString fragment)].
Definition ev_sources (l : list json) : json :=
  JObject [("type"%string, JString "sources"); ("sources"%string, JArray l)].
Definition ev_done : json := JObject [("type"%string, JString "done")].
Definition ev_error (m : string) : json :=
  JObject [("type"%string, JString "error"); ("message"%string, JString m)].

End SearchAPI.

(* ===================================================================== *)
(** ** ApiClient.request *)
(* ===================================================================== *)

Module ApiClient.
Import JsString Json Http.

(** The result of an [async] call: a value, or a thrown error. *)
Inductive outcome (A : Type) : Type :=
| Return (a : A)
| Throw (e : error).
Arguments Return {A} a.
Arguments Throw {A} e.

(** The response [fetch] resolves with, for [request]: the status line,
    the [content-type] header and the text of the body. *)
Record response : Type := Response {
  ok : bool;
  status : Z;
  statusText : string;
  content_type : option string;
  body : string
}.

(** [fetch] either rejects (the connection failed, or the request was
    aborted by the timer of [request]) or resolves with a response. *)
Inductive fetch_result : Type :=
| Rejected (e : error)
| Resolved (r : response).

(** The rejection of a [fetch] whose [AbortController] was aborted. *)
Definition abort_error : error :=
  Error "AbortError" "The user aborted a request.".

(** What [request] returns: the parsed JSON, or the text. *)
Inductive payload : Type :=
| Parsed (v : json)
| Text (s : string).

(** [String(v)] for a JSON value. *)
Fixpoint join (sep : string) (l : list string) : string :=
  match l with
  | [] => EmptyString
  | [x] => x
  | x :: rest => x +:+ sep +:+ join sep rest
  end.

Fixpoint ToString (v : json) : string :=
  match v with
  | JNull => "null"
  | JBool true => "true"
  | JBool false => "false"
  | JNumber lx => JsNumber.to_string lx
  | JString s => s
  | JArray l =>
      join "," (map (fun x => match x with JNull => EmptyString | _ => ToString x end) l)
  | JObject _ => "[object Object]"
  end.

(** Truthiness of [o.name], [None] being [undefined]. *)
Definition truthy (v : option json) : bool :=
  match v with
  | None | Some JNull | Some (JBool false) => false
  | Some (JBool true) | Some (JArray _) | Some (JObject _) => true
  | Some (JNumber lx) => negb (JsNumber.is_zero lx)
  | Some (JString s) => negb (String.eqb s EmptyString)
  end.

(** The error thrown for a response that is not [ok]:
    [errorData.message || `HTTP ${status}: ${statusText}`], where
    [errorData] is the parsed body, or [{}] when it does not parse. *)
Definition null_member_error (member : string) : error :=
  Error "TypeError"
    ("Cannot read properties of null (reading '" +:+ member +:+ "')").

Definition status_error (r : response) : error :=
  let errorData := default (JObject []) (parse (body r)) in
  match errorData with
  | JNull => null_member_error "message"
  | _ =>
      let m := prop "message" errorData in
      if truthy m
      then new_Error (from_option ToString EmptyString m)
      else new_Error (http_message (status r) (statusText r))
  end.

(** The [SyntaxError] of [response.json()] on a body that is not JSON.
    Its message is the engine's own and may quote the body; a fixed
    text stands for it here. *)
Definition syntax_error : error :=
  Error "SyntaxError" "Unexpected token in JSON".

(** The message of the error [request] throws when its timer fired. *)
Definition timeout_message : string := "请求超时".

(** [request(url, options)] on the result of its [fetch]. *)
Definition request (f : fetch_result) : outcome payload :=
  let caught (e : error) : outcome payload :=
    if String.eqb (name e) "AbortError"
    then Throw (new_Error timeout_message)
    else Throw e in
  match f with
  | Rejected e => caught e
  | Resolved r =>
      if negb (ok r) then caught (status_error r)
      else
        match content_type r with
        | Some ct =>
            if includes ct "application/json" then
              match parse (body r) with
              | Some v => Return (Parsed v)
              | None => caught syntax_error
              end
            else Return (Text (body r))
        | None => Return (Text (body r))
        end
  end.

(** [upload] rejects with these when the transfer fails or times out. *)
Definition upload_network_message : string := "网络错误".

End ApiClient.

(* ===================================================================== *)
(** ** RequestRetrier *)
(* ===================================================================== *)

Module RequestRetrier.
Import JsString Http ApiClient.

Record retrier : Type := Retrier { maxRetries : nat; delay : Z }.

(** [new RequestRetrier()] *)
Definition default_retrier : retrier := Retrier 3 1000.

(** [shouldRetry(error)] *)
Definition shouldRetry (e : error) : bool :=
  includes (message e) "网络" ||
  includes (message e) "timeout" ||
  includes (message e) "500" ||
  includes (message e) "502" ||
  includes (message e) "503" ||
  includes (message e) "504".

(** How [execute] ends. [lastError] is [undefined] ([None]) until an
    attempt has failed. *)
Inductive settled (A : Type) : Type :=
| Fulfilled (a : A)
| RejectedWith (lastError : option error).
Arguments Fulfilled {A} a.
Arguments RejectedWith {A} lastError.

Section Execute.
(** [W] is the world the calls act on. [requestFn i w] is the call
    [await requestFn(...args)] made in iteration [i]; [wait ms w] is
    [await this.wait(ms)]. *)
Context {W A : Type}.
Variable r : retrier.
Variable requestFn : nat -> W -> W * outcome A.
Variable wait : Z -> W -> W.

(** The [for] loop from [i], with [left] iterations before
    [i <= maxRetries] turns false. *)
Fixpoint loop (left i : nat) (lastError : option error) (w : W)
  : W * settled A :=
  match left with
  | O => (w, RejectedWith lastError)
  | S left' =>
      match requestFn i w with
      | (w1, Return a) => (w1, Fulfilled a)
      | (w1, Throw e) =>
          if (i =? maxRetries r)%nat then (w1, RejectedWith (Some e))
          else if shouldRetry e then
            loop left' (S i) (Some e) (wait (delay r * 2 ^ Z.of_nat i) w1)
          else (w1, RejectedWith (Some e))
      end
  end.

(** [execute(requestFn, ...args)] *)
Definition execute (w : W) : W * settled A :=
  loop (S (maxRetries r)) 0 None w.
End Execute.

(** *** The retrier observed from outside

    What [execute] does, in order, when the operation is given by the
    results of its successive calls. *)
Inductive effect : Type :=
| Call (i : nat)          (* the call of [requestFn] in iteration [i] *)
| Wait (ms : Z).          (* a wait of [ms] milliseconds *)

Definition traced {A : Type} (results : nat -> outcome A)
    (i : nat) (log : list effect) : list effect * outcome A :=
  (log ++ [Call i], results i).

Definition traced_wait (ms : Z) (log : list effect) : list effect :=
  log ++ [Wait ms].

Definition run {A : Type} (r : retrier) (results : nat -> outcome A)
  : list effect * settled A :=
  execute r (traced results) traced_wait [].

(** The number of calls of [requestFn] among the effects. *)
Definition calls (effs : list effect) : nat :=
  List.length (omap (fun e => match e with Call i => Some i | Wait _ => None end) effs).

(** The waits among the effects, in order. *)
Definition waits (effs : list effect) : list Z :=
  omap (fun e => match e with Wait ms => Some ms | Call _ => None end) effs.

End RequestRetrier.

(* ===================================================================== *)
(** ** CacheManager *)
(* ===================================================================== *)

Module CacheManager.
Import Json ApiClient.

(** An entry [{ data, expireTime }]. *)
Record item : Type := Item { data : json; expireTime : Z }.

(** [defaultTTL: 5 * 60 * 1000] *)
Definition defaultTTL : Z := 5 * 60 * 1000.

(** [set(key, data, ttl = this.defaultTTL)] at the instant [now];
    an omitted [ttl] is [None]. *)
Definition set (key : string) (d : json) (ttl : option Z) (now : Z)
    (cache : gmap string item) : gmap string item :=
  let expire := now + default defaultTTL ttl in
  <[key := Item d expire]> cache.

(** [get(key)] at the instant [now]: the value returned ([null] is
    [JNull]) and the cache afterwards. *)
Definition get (key : string) (now : Z) (cache : gmap string item)
  : json * gmap string item :=
  match cache !! key with
  | None => (JNull, cache)
  | Some it =>
      if now >? expireTime it then (JNull, delete key cache)
      else (data it, cache)
  end.

(** [delete(key)] *)
Definition delete_ (key : string) (cache : gmap string item) : gmap string item :=
  delete key cache.

(** [clear()] *)
Definition clear (cache : gmap string item) : gmap string item := ∅.

(** [withCache(key, requestFn, ttl)]: looked up at [now]; on a miss
    the request's result [fetched] arrives at [later] and is stored. *)
Definition withCache (key : string) (fetched : outcome json)
    (ttl : option Z) (now later : Z) (cache : gmap string item)
  : outcome json * gmap string item :=
  let '(cached, cache1) := get key now cache in
  if truthy (Some cached) then (Return cached, cache1)
  else
    match fetched with
    | Return d => (Return d, set key d ttl later cache1)
    | Throw e => (Throw e, cache1)
    end.

End CacheManager.

(* ===================================================================== *)
(** ** Promises, as far as RequestInterceptor uses them *)
(* ===================================================================== *)

Module Promise.
Import Json Http ApiClient.

(** The callbacks that get attached to a promise here.  A closure is
    represented by what it does when it runs. *)
Inductive reaction : Type :=
| DeleteFromQueue (key : string)
    (* [() => { this.requestQueue.delete(key); }], attached by [finally] *)
| Deliver (caller : nat).
    (* the continuation of a caller that awaits the promise *)

Inductive state : Type :=
| Pending (reactions : list reaction)   (* in the order they were attached *)
| Settled (o : outcome payload).

(** What can be observed from outside, in order. *)
Inductive event : Type :=
| NetworkCall (key : string)
| Deleted (key : string)
| Delivered (caller : nat) (o : outcome payload).

(** The heap of promises (a promise is its index), the queue of
    promise jobs, the [requestQueue] map of the interceptor, and the
    log. *)
Record world : Type := World {
  promises : list state;
  jobs : list (reaction * outcome payload);
  requestQueue : gmap string nat;
  log : list event
}.

Definition empty_world : world := World [] [] ∅ [].

Definition set_promises (f : list state -> list state) (w : world) : world :=
  World (f (promises w)) (jobs w) (requestQueue w) (log w).
Definition set_jobs (f : list (reaction * outcome payload) -> list (reaction * outcome payload))
    (w : world) : world :=
  World (promises w) (f (jobs w)) (requestQueue w) (log w).
Definition set_requestQueue (f : gmap string nat -> gmap string nat) (w : world) : world :=
  World (promises w) (jobs w) (f (requestQueue w)) (log w).
Definition add_log (e : event) (w : world) : world :=
  World (promises w) (jobs w) (requestQueue w) (log w ++ [e]).

(** A new pending promise. *)
Definition new_promise (w : world) : nat * world :=
  (List.length (promises w), set_promises (fun ps => ps ++ [Pending []]) w).

(** Attaching a reaction ([then], [finally], [await]): it is queued
    behind those attached before; on a promise already settled it
    becomes a job at once. *)
Definition attach (p : nat) (r : reaction) (w : world) : world :=
  match promises w !! p with
  | Some (Pending rs) => set_promises (fun ps => <[p := Pending (rs ++ [r])]> ps) w
  | Some (Settled o) => set_jobs (fun js => js ++ [(r, o)]) w
  | None => w
  end.

(** Settling a pending promise queues one job per reaction, in the
    order of attachment; a settled promise stays as it is. *)
Definition settle (p : nat) (o : outcome payload) (w : world) : world :=
  match promises w !! p with
  | Some (Pending rs) =>
      set_jobs (fun js => js ++ map (fun r => (r, o)) rs)
        (set_promises (fun ps => <[p := Settled o]> ps) w)
  | _ => w
  end.

Definition run_job (w : world) (j : reaction * outcome payload) : world :=
  match j with
  | (DeleteFromQueue key, _) =>
      add_log (Deleted key) (set_requestQueue (fun q => delete key q) w)
  | (Deliver caller, o) => add_log (Delivered caller o) w
  end.

(** Running the queued jobs, first in first out (none of the jobs
    above queues another). *)
Definition drain (w : world) : world :=
  fold_left run_job (jobs w) (set_jobs (fun _ => []) w).

End Promise.

(* ===================================================================== *)
(** ** RequestInterceptor *)
(* ===================================================================== *)

Module RequestInterceptor.
Import Json Http ApiClient Promise.

(** [addRequest(key, promise)] *)
Definition addRequest (key : string) (p : nat) (w : world) : nat * world :=
  let w1 := set_requestQueue (fun q => <[key := p]> q) w in
  let w2 := attach p (DeleteFromQueue key) w1 in
  (p, w2).

(** [cancelDuplicate(key)]: [null] is [None]. *)
Definition cancelDuplicate (key : string) (w : world) : option nat :=
  requestQueue w !! key.

(** [cancelAll()] *)
Definition cancelAll (w : world) : world :=
  set_requestQueue (fun _ => ∅) w.

(** A caller starts a request for [key]: the network call is made and
    its promise is pending.  This is where the promise handed to
    [addRequest] comes from. *)
Definition start_call (key : string) (w : world) : nat * world :=
  new_promise (add_log (NetworkCall key) w).

(** Modelled from the spec: [joinOrStart(key, factory)] of the in-flight
    registry, which the source does not contain (it has [addRequest],
    [cancelDuplicate] and [cancelAll] only, and no caller of them).  If
    an entry exists for the key the caller is attached to its pending
    result; otherwise the operation is started, registered, and the
    caller awaits the promise [addRequest] returns. *)
Definition call_through (key : string) (caller : nat) (w : world) : nat * world :=
  match cancelDuplicate key w with
  | Some p => (p, attach p (Deliver caller) w)
  | None =>
      let '(p, w1) := start_call key w in
      let '(p', w2) := addRequest key p w1 in
      (p', attach p' (Deliver caller) w2)
  end.

(** The network calls made so far. *)
Definition network_calls (w : world) : list string :=
  omap (fun e => match e with NetworkCall k => Some k | _ => None end) (log w).

End RequestInterceptor.

(* ===================================================================== *)
(** ** ChatManager.sendMessage *)
(* ===================================================================== *)

Module ChatManager.
Import JsString Json Http ApiClient.

(** Calls into the page and the console, in the order they are made.
    They are taken to return normally. *)
Inductive effect : Type :=
| NotificationWarning (title msg : string)
| ClearInput                                (* [chatInput.value = ''] *)
| AutoResizeTextarea
| ClearSuggestions
| AddMessageToUI (query : string)           (* the user's message *)
| ShowTypingIndicator
| HideTypingIndicator
| UpdateChatStatus (status : option json)
| UpdateStreamingMessage (content : string)
| FinalizeStreamingMessage (content : string) (sources : option json)
| ShowErrorMessage (msg : string)
| ConsoleError
| OpenStream (sessionId : option json) (query : string) (fileIds : list Z)
    (* the [fetch] of [searchStream] *)
| Waited (ms : Z).
    (* a wait of the retrier between two attempts *)

(** The fields of the manager that [sendMessage] reads or writes, and
    the log. *)
Record manager : Type := Manager {
  currentSessionId : option json;       (* [null] is [None] *)
  isStreaming : bool;
  selectedFiles : list Z;
  ui : list effect
}.

(** [new ChatManager()] as far as those fields go. *)
Definition initial : manager := Manager None false [] [].

Definition emit (es : list effect) (m : manager) : manager :=
  Manager (currentSessionId m) (isStreaming m) (selectedFiles m) (ui m ++ es).

Definition set_isStreaming (b : bool) (m : manager) : manager :=
  Manager (currentSessionId m) b (selectedFiles m) (ui m).

(** The variables [assistantMessage] and [sources] of one call of
    [sendMessage], which its callback closes over. *)
Record locals : Type := Locals {
  assistantMessage : string;
  sources : option json
}.

(** [let assistantMessage = ''; let sources = [];] *)
Definition fresh : locals := Locals EmptyString (Some (JArray [])).

(** The text [x] contributes to [s += x]; [undefined] is [None]. *)
Definition text_of (x : option json) : string :=
  from_option ToString "undefined" x.

Definition status_text (s : string) : option json := Some (JString s).

(** The callback [(data) => { switch (data.type) ... }].  Reading
    [data.type] of [null] throws before anything is done. *)
Definition onMessage (data : json) (w : locals * manager)
  : (locals * manager) * bool :=
  let '(l, m) := w in
  match data with
  | JNull => (w, true)
  | _ =>
      match prop "type" data with
      | Some (JString t) =>
          if String.eqb t "start" then
            ((l, emit [UpdateChatStatus (status_text "开始检索...")] m), false)
          else if String.eqb t "progress" then
            ((l, emit [UpdateChatStatus (prop "message" data)] m), false)
          else if String.eqb t "content" then
            let a := assistantMessage l +:+ text_of (prop "content" data) in
            ((Locals a (sources l), emit [UpdateStreamingMessage a] m), false)
          else if String.eqb t "sources" then
            ((Locals (assistantMessage l) (prop "sources" data), m), false)
          else if String.eqb t "done" then
            ((l, emit [HideTypingIndicator;
                       FinalizeStreamingMessage (assistantMessage l) (sources l);
                       UpdateChatStatus (status_text "准备就绪")] m), false)
          else if String.eqb t "error" then
            ((l, emit [HideTypingIndicator;
                       ShowErrorMessage (text_of (prop "message" data));
                       UpdateChatStatus (status_text "发生错误")] m), false)
          else (w, false)
      | _ => (w, false)
      end
  end.

(** The [console.error] of [searchStream]'s [catch]. *)
Definition console_error (w : locals * manager) : locals * manager :=
  (fst w, emit [ConsoleError] (snd w)).

(** The texts of the busy notification. *)
Definition busy_title : string := "请等待".
Definition busy_message : string := "请等待当前回答完成".

(** How the part of [sendMessage] before its first [await] ends. *)
Inductive entered : Type :=
| Returned                      (* an early [return] *)
| NeedSession (query : string)  (* at [await this.createNewSession()] *)
| Ready (query : string).       (* past the session check *)

(** [sendMessage()] up to the session check. [chatInput] is the value
    of the input element, [None] when the element is missing. *)
Definition sendMessage_enter (chatInput : option string) (m : manager)
  : manager * entered :=
  match chatInput with
  | None => (m, Returned)
  | Some value =>
      let query := trim value in
      if String.eqb query EmptyString then (m, Returned)
      else if isStreaming m then
        (emit [NotificationWarning busy_title busy_message] m, Returned)
      else if negb (truthy (currentSessionId m)) then (m, NeedSession query)
      else (m, Ready query)
  end.

(** From [chatInput.value = ''] to [this.isStreaming = true] and the
    declaration of the two variables. *)
Definition sendMessage_open (query : string) (m : manager) : locals * manager :=
  (fresh,
   set_isStreaming true
     (emit [ClearInput; AutoResizeTextarea; ClearSuggestions;
            AddMessageToUI query; ShowTypingIndicator;
            UpdateChatStatus (status_text "正在思考...")] m)).

(** One call of [SearchAPI.searchStream] with the callback above, as
    the retrier makes it; the arguments are those the exported wrapper
    was called with. *)
Definition stream_attempt (sessionId : option json) (query : string)
    (fileIds : list Z) (f : fetch_outcome)
    (w : locals * manager) : (locals * manager) * outcome unit :=
  let w0 := (fst w, emit [OpenStream sessionId query fileIds] (snd w)) in
  match SearchAPI.searchStream onMessage console_error f w0 with
  | (w1, None) => (w1, Return tt)
  | (w1, Some e) => (w1, Throw e)
  end.

Definition wait (ms : Z) (w : locals * manager) : locals * manager :=
  (fst w, emit [Waited ms] (snd w)).

(** [await API.SearchAPI.searchStream(...)]: the exported function is
    the retrier's wrapper. [attempts i] is what the [fetch] of attempt
    [i] yields. *)
Definition api_searchStream (sessionId : option json) (query : string)
    (fileIds : list Z) (attempts : nat -> fetch_outcome)
    (w : locals * manager) : (locals * manager) * RequestRetrier.settled unit :=
  RequestRetrier.execute RequestRetrier.default_retrier
    (fun i => stream_attempt sessionId query fileIds (attempts i)) wait w.

(** The [catch] and [finally] of [sendMessage]. *)
Definition sendMessage_close (res : RequestRetrier.settled unit) (m : manager) : manager :=
  let m1 :=
    match res with
    | RequestRetrier.Fulfilled _ => m
    | RequestRetrier.RejectedWith (Some e) =>
        emit [ConsoleError; HideTypingIndicator; ShowErrorMessage (message e);
              UpdateChatStatus (status_text "发送失败")] m
    | RequestRetrier.RejectedWith None =>
        emit [ConsoleError; HideTypingIndicator] m
    end in
  set_isStreaming false m1.

Definition sendMessage_stream (query : string) (attempts : nat -> fetch_outcome)
    (m : manager) : manager :=
  let '(w, res) :=
    api_searchStream (currentSessionId m) query (selectedFiles m) attempts
      (sendMessage_open query m) in
  sendMessage_close res (snd w).

Section SendMessage.
(** [this.createNewSession()], which is not examined here. *)
Variable createNewSession : manager -> manager.

(** [sendMessage()] from call to completion, when nothing else runs
    in between. *)
Definition sendMessage (chatInput : option string)
    (attempts : nat -> fetch_outcome) (m : manager) : manager :=
  match sendMessage_enter chatInput m with
  | (m1, Returned) => m1
  | (m1, Ready query) => sendMessage_stream query attempts m1
  | (m1, NeedSession query) =>
      let m2 := createNewSession m1 in
      if negb (truthy (currentSessionId m2)) then m2
      else sendMessage_stream query attempts m2
  end.
End SendMessage.

(** [this.currentSessionId = sessionId], the assignment of
    [switchSession], which [createNewSession] calls with the id of the
    session it has created. *)
Definition set_currentSessionId (sessionId : option json) (m : manager) : manager :=
  Manager sessionId (isStreaming m) (selectedFiles m) (ui m).

(** [sendMessage()] from the point where [await this.createNewSession()]
    gives control back to it, in the state the manager has by then: the
    session is looked at again, [isStreaming] is not. *)
Definition sendMessage_resume (query : string) (attempts : nat -> fetch_outcome)
    (m : manager) : manager :=
  if negb (truthy (currentSessionId m)) then m
  else sendMessage_stream query attempts m.

(** The [content] fragments among events, as they add to the
    transcript, in order. *)
Definition fragment (data : json) : option string :=
  match data with
  | JNull => None
  | _ =>
      match prop "type" data with
      | Some (JString t) =>
          if String.eqb t "content" then Some (text_of (prop "content" data))
          else None
      | _ => None
      end
  end.

Definition fragments (events : list json) : list string := omap fragment events.

(** The callback applied to events one after the other. *)
Fixpoint deliver (events : list json) (w : locals * manager) : locals * manager :=
  match events with
  | [] => w
  | data :: rest => deliver rest (fst (onMessage data w))
  end.

(** The arguments of the calls of [updateStreamingMessage] in a log. *)
Definition shown (es : list effect) : list string :=
  omap (fun e => match e with UpdateStreamingMessage c => Some c | _ => None end) es.

(** The arguments of the calls of [finalizeStreamingMessage] in a log. *)
Definition finalized (es : list effect) : list string :=
  omap (fun e => match e with FinalizeStreamingMessage c _ => Some c | _ => None end) es.

(** The stream requests in a log. *)
Definition opened (es : list effect) : list string :=
  omap (fun e => match e with OpenStream _ q _ => Some q | _ => None end) es.

(** The state in which a call of [sendMessage] that passed the
    checks is suspended in [await reader.read()], after its first
    [fetch] resolved with a good status and the chunks [cs] have been
    read. *)
Definition streaming_after (query : string) (cs : list string) (m : manager)
  : locals * manager :=
  let w := sendMessage_open query m in
  SearchAPI.read_loop onMessage console_error cs
    (fst w, emit [OpenStream (currentSessionId m) query (selectedFiles m)] (snd w)).

(** What a call of [sendMessage] made while another one is streaming
    tells the user: the busy notification when there is a query to
    send, nothing when the input is missing or blank. *)
Definition busy_notice (chatInput : option string) : list effect :=
  match chatInput with
  | None => []
  | Some value =>
      if String.eqb (trim value) EmptyString then []
      else [NotificationWarning busy_title busy_message]
  end.

(** The transcript after each of the fragments [fs], starting from
    [init]. *)
Fixpoint running (init : string) (fs : list string) : list string :=
  match fs with
  | [] => []
  | f :: rest => (init +:+ f) :: running (init +:+ f) rest
  end.

(** The fragments put together, in order. *)
Fixpoint concat_all (fs : list string) : string :=
  match fs with
  | [] => EmptyString
  | f :: rest => f +:+ concat_all rest
  end.

(** [transcribes w w' events]: from [w] to [w'] the transcript has grown
    by the [content] fragments of [events], in order, and the page has
    been shown the whole transcript once for each of them, as it stood
    after that fragment. *)
Definition transcribes (w w' : locals * manager) (events : list json) : Prop :=
  assistantMessage (fst w')
    = assistantMessage (fst w) +:+ concat_all (fragments events) /\
  shown (ui (snd w'))
    = shown (ui (snd w)) ++ running (assistantMessage (fst w)) (fragments events).

End ChatManager.

(* ===================================================================== *)
(** ** FileManager: the mutating operations and the status monitor *)
(* ===================================================================== *)

Module FileManager.
Import JsString Json Http ApiClient.

(** Calls into the page, the console, the timer and the network, in
    the order they are made. *)
Inductive effect : Type :=
| LoadingShow (text : string)
| LoadingHide
| NotificationSuccess (title msg : string)
| NotificationError (title msg : string)
| NotificationWarning (title msg : string)
| ConsoleError
| ModalHide (selector : string)
| ShowElement (selector : string)
| HideElement (selector : string)
| UploadProgress (loaded total : Z)    (* the progress bar is redrawn *)
| UpdateSelectionUI
| LoadFileList                         (* [this.loadFileList()], not awaited *)
| HttpRequest (at_ : Z) (method url : string)
| Waited (ms : Z)
| SetTimeout (ms : Z).

(** The state the operations act on: the selection of the manager,
    the module-level [CacheManager.cache], the clock, the timers set
    and not yet fired (due time and the file they watch), the number of
    status requests sent, and the log. *)
Record world : Type := World {
  selectedFiles : gset Z;
  cache : gmap string CacheManager.item;
  now : Z;
  timers : list (Z * string);
  status_requests : nat;
  log : list effect
}.

Definition emit (es : list effect) (w : world) : world :=
  World (selectedFiles w) (cache w) (now w) (timers w) (status_requests w) (log w ++ es).
Definition set_selectedFiles (s : gset Z) (w : world) : world :=
  World s (cache w) (now w) (timers w) (status_requests w) (log w).
Definition set_now (t : Z) (w : world) : world :=
  World (selectedFiles w) (cache w) t (timers w) (status_requests w) (log w).
Definition set_timers (ts : list (Z * string)) (w : world) : world :=
  World (selectedFiles w) (cache w) (now w) ts (status_requests w) (log w).
Definition set_status_requests (n : nat) (w : world) : world :=
  World (selectedFiles w) (cache w) (now w) (timers w) n (log w).

(** One request and what comes back for it, after [latency]. *)
Record exchange : Type := Exchange { latency : Z; result : fetch_result }.

(** [Utils.CONSTANTS.USER_ID] *)
Definition USER_ID : Z := 1.
Definition baseURL : string := "/api".
Definition user_query : string := "?user_id=" +:+ pretty USER_ID.

(** A call of [apiClient.request]. *)
Definition http (method url : string) (ex : exchange) (w : world)
  : world * outcome payload :=
  let w1 := emit [HttpRequest (now w) method (baseURL +:+ url)] w in
  (set_now (now w1 + latency ex) w1, request (result ex)).

(** [this.wait(ms)] of the retrier. *)
Definition wait (ms : Z) (w : world) : world :=
  set_now (now w + ms) (emit [Waited ms] w).

(** An exported [API.FileAPI] method: the retrier around the request. *)
Definition api (method url : string) (replies : nat -> exchange) (w : world)
  : world * RequestRetrier.settled payload :=
  RequestRetrier.execute RequestRetrier.default_retrier
    (fun i => http method url (replies i)) wait w.

(** Reading [response.name]: it throws on [null]; a text has no such
    member. *)
Definition member (name_ : string) (p : payload) : outcome (option json) :=
  match p with
  | Parsed JNull => Throw (null_member_error name_)
  | Parsed v => Return (prop name_ v)
  | Text _ => Return None
  end.

(** [new Error(x)] for a member [x] that may be [undefined]. *)
Definition error_of (x : option json) : error :=
  new_Error (from_option ToString EmptyString x).

(** The text of [x] in a template literal. *)
Definition text_of (x : option json) : string :=
  from_option ToString "undefined" x.

(** [refreshFileList()] *)
Definition refreshFileList (w : world) : world :=
  emit [UpdateSelectionUI; LoadFileList] (set_selectedFiles ∅ w).

(** The [catch] blocks: [console.error], then a notification with
    [error.message] (reading it off [undefined] throws instead). *)
Definition catch_ (title : string) (thrown : option error) (w : world) : world :=
  match thrown with
  | Some e => emit [ConsoleError; NotificationError title (message e)] w
  | None => emit [ConsoleError] w
  end.

(** The shape shared by the [try] blocks: the response is awaited;
    [response.success] decides between [on_success] and
    [throw new Error(response.message)]. [on_success] may throw too. *)
Definition on_response (res : RequestRetrier.settled payload)
    (on_success : payload -> world -> world * option error)
    (w : world) : world * option (option error) :=
  match res with
  | RequestRetrier.RejectedWith thrown => (w, Some thrown)
  | RequestRetrier.Fulfilled response =>
      match member "success" response with
      | Throw e => (w, Some (Some e))
      | Return s =>
          if truthy s then
            match on_success response w with
            | (w1, None) => (w1, None)
            | (w1, Some e) => (w1, Some (Some e))
            end
          else
            match member "message" response with
            | Throw e => (w, Some (Some e))
            | Return m => (w, Some (Some (error_of m)))
            end
      end
  end.

(** [performDeleteFile(fileId)] *)
Definition performDeleteFile (fileId : Z) (replies : nat -> exchange)
    (w : world) : world :=
  let w1 := emit [LoadingShow "删除文件..."] w in
  let '(w2, res) := api "DELETE" ("/file/delete/" +:+ pretty fileId +:+ user_query) replies w1 in
  let '(w3, thrown) :=
    on_response res
      (fun _ w =>
         let w := emit [NotificationSuccess "删除成功" "文件已成功删除"] w in
         let w := set_selectedFiles (selectedFiles w ∖ {[fileId]}) w in
         (refreshFileList w, None))
      w2 in
  let w4 := match thrown with
            | Some t => catch_ "删除失败" t w3
            | None => w3
            end in
  emit [LoadingHide] w4.

(** [performBatchDelete()] *)
Definition performBatchDelete (replies : nat -> exchange) (w : world) : world :=
  let w1 := emit [LoadingShow "批量删除文件..."] w in
  let fileIds := filter (fun id : Z => (0 < id)%Z) (elements (selectedFiles w1)) in
  match fileIds with
  | [] =>
      emit [NotificationWarning "没有有效的文件" "请选择要删除的文件"; LoadingHide] w1
  | _ =>
      let '(w2, res) := api "POST" "/file/batch/delete" replies w1 in
      let '(w3, thrown) :=
        on_response res
          (fun response w =>
             match member "data" response with
             | Throw e => (w, Some e)
             | Return None | Return (Some JNull) =>
                 (w, Some (Error "TypeError" "Cannot destructure 'response.data'"))
             | Return (Some d) =>
                 let msg := "成功删除 " +:+ text_of (prop "success_count" d) +:+ "/"
                            +:+ text_of (prop "total_count" d) +:+ " 个文件" in
                 let w := emit [NotificationSuccess "批量删除完成" msg] w in
                 let w := emit [UpdateSelectionUI] (set_selectedFiles ∅ w) in
                 (refreshFileList w, None)
             end)
          w2 in
      let w4 := match thrown with
                | Some t => catch_ "批量删除失败" t w3
                | None => w3
                end in
      emit [LoadingHide] w4
  end.

(** [performRename(fileId, newName)] *)
Definition performRename (fileId : Z) (newName : string)
    (replies : nat -> exchange) (w : world) : world :=
  let w1 := emit [LoadingShow "重命名文件..."] w in
  let '(w2, res) := api "PUT" ("/file/rename/" +:+ pretty fileId) replies w1 in
  let '(w3, thrown) :=
    on_response res
      (fun _ w =>
         let w := emit [NotificationSuccess "重命名成功" "文件已成功重命名"] w in
         (refreshFileList w, None))
      w2 in
  let w4 := match thrown with
            | Some t => catch_ "重命名失败" t w3
            | None => w3
            end in
  emit [LoadingHide] w4.

(** *** Upload *)

(** How the [XMLHttpRequest] of [upload] ends. *)
Inductive xhr_result : Type :=
| XhrLoad (status : Z) (statusText responseText : string)
| XhrError
| XhrTimeout.

(** One upload: the [progress] events with [lengthComputable] that
    precede the end, and the end. *)
Record transfer : Type := Transfer {
  progress : list (Z * Z);
  duration : Z;
  xhr : xhr_result
}.

(** The promise of [ApiClient.upload]. *)
Definition upload (x : xhr_result) : outcome payload :=
  match x with
  | XhrLoad st stText text =>
      if (200 <=? st) && (st <? 300) then
        match parse text with
        | Some v => Return (Parsed v)
        | None => Throw (new_Error "响应解析失败")
        end
      else
        match parse text with
        | Some JNull | None => Throw (new_Error (http_message st stText))
        | Some v =>
            let m := prop "message" v in
            if truthy m then Throw (new_Error (from_option ToString EmptyString m))
            else Throw (new_Error ("HTTP " +:+ pretty st))
        end
  | XhrError => Throw (new_Error upload_network_message)
  | XhrTimeout => Throw (new_Error timeout_message)
  end.

Definition upload_attempt (t : transfer) (w : world) : world * outcome payload :=
  let w1 := emit [HttpRequest (now w) "POST" (baseURL +:+ "/file/upload")] w in
  let w2 := emit (map (fun p => UploadProgress (fst p) (snd p)) (progress t)) w1 in
  (set_now (now w2 + duration t) w2, upload (xhr t)).

(** [monitorFileProcessing(fileId)]: the first check is set for two
    seconds later. *)
Definition monitorFileProcessing (fileId : string) (w : world) : world :=
  set_timers (timers w ++ [(now w + 2000, fileId)]) (emit [SetTimeout 2000] w).

(** [uploadFile(file)] *)
Definition uploadFile (file_name : string) (transfers : nat -> transfer)
    (w : world) : world :=
  let w1 := emit [HideElement "#upload-area"; ShowElement "#upload-progress"] w in
  let '(w2, res) :=
    RequestRetrier.execute RequestRetrier.default_retrier
      (fun i => upload_attempt (transfers i)) wait w1 in
  let '(w3, thrown) :=
    on_response res
      (fun response w =>
         let w := emit [NotificationSuccess "上传成功"
                          ("文件 " +:+ file_name +:+ " 上传成功，正在处理中...");
                        ModalHide "#upload-modal"] w in
         let w := refreshFileList w in
         match member "data" response with
         | Throw e => (w, Some e)
         | Return None | Return (Some JNull) => (w, Some (null_member_error "file_id"))
         | Return (Some d) => (monitorFileProcessing (text_of (prop "file_id" d)) w, None)
         end)
      w2 in
  match thrown with
  | Some t =>
      emit [ShowElement "#upload-area"; HideElement "#upload-progress"]
        (catch_ "上传失败" t w3)
  | None => w3
  end.

(** *** The status monitor *)

(** The branches of [checkStatus] on [data.process_status], when it
    is the string [st]: [completed] and [failed] notify and refresh,
    [processing] sets the next check for three seconds later, anything
    else does nothing. *)
Definition on_status (st fileId : string) (w : world) : world :=
  if String.eqb st "completed" then
    refreshFileList
      (emit [NotificationSuccess "处理完成"
               "文件内容分析完成，现在可以进行智能检索了"] w)
  else if String.eqb st "failed" then
    refreshFileList (emit [NotificationError "处理失败" "文件内容分析失败"] w)
  else if String.eqb st "processing" then
    set_timers (timers w ++ [(now w + 3000, fileId)]) (emit [SetTimeout 3000] w)
  else w.

Section Monitor.
(** [server k] is what the [k]-th status request gets back. *)
Variable server : nat -> exchange.

Definition status_url (fileId : string) : string :=
  "/file/status/" +:+ fileId +:+ user_query.

Definition status_attempt (fileId : string) (w : world) : world * outcome payload :=
  let k := status_requests w in
  http "GET" (status_url fileId) (server k) (set_status_requests (S k) w).

(** [API.FileAPI.getFileStatus(fileId)] *)
Definition getFileStatus (fileId : string) (w : world)
  : world * RequestRetrier.settled payload :=
  RequestRetrier.execute RequestRetrier.default_retrier
    (fun _ => status_attempt fileId) wait w.

(** The closure [checkStatus]. *)
Definition checkStatus (fileId : string) (w : world) : world :=
  match getFileStatus fileId w with
  | (w1, RequestRetrier.RejectedWith _) => emit [ConsoleError] w1
  | (w1, RequestRetrier.Fulfilled response) =>
      match member "success" response with
      | Throw _ => emit [ConsoleError] w1
      | Return s =>
          if truthy s then
            match member "data" response with
            | Throw _ | Return None | Return (Some JNull) => emit [ConsoleError] w1
            | Return (Some data) =>
                match prop "process_status" data with
                | Some (JString st) => on_status st fileId w1
                | _ => w1
                end
            end
          else w1
      end
  end.

(** The timer that fires next: the earliest due, the first set among
    equals. *)
Fixpoint next_timer (ts : list (Z * string)) : option ((Z * string) * list (Z * string)) :=
  match ts with
  | [] => None
  | t :: rest =>
      match next_timer rest with
      | Some (t', rest') =>
          if fst t' <? fst t then Some (t', t :: rest') else Some (t, rest)
      | None => Some (t, [])
      end
  end.

(** The timers fire one after the other, each callback running to
    its end, until none is left or [fuel] callbacks have run. *)
Fixpoint run_timers (fuel : nat) (w : world) : world :=
  match fuel with
  | O => w
  | S fuel' =>
      match next_timer (timers w) with
      | None => w
      | Some ((due, fileId), rest) =>
          run_timers fuel'
            (checkStatus fileId (set_now (Z.max (now w) due) (set_timers rest w)))
      end
  end.
End Monitor.

(** The status requests in a log, with the instants they were sent. *)
Definition status_checks (es : list effect) : list Z :=
  omap (fun e => match e with
                 | HttpRequest t "GET" _ => Some t
                 | _ => None
                 end) es.

(** The notifications in a log. *)
Definition is_notification (e : effect) : bool :=
  match e with
  | NotificationSuccess _ _ | NotificationError _ _
  | NotificationWarning _ _ => true
  | _ => false
  end.

Definition notifications (es : list effect) : list effect :=
  List.filter is_notification es.

End FileManager.

(* ===================================================================== *)
(** ** Scenarios of the design document *)
(* ===================================================================== *)

Module Scenario.
Import JsString Json Http ApiClient.

(** The chunks of the framing example: the first line is cut after
    [sta]. *)
Definition framing_chunks : list string :=
  [ js "data: {'type':'sta";
    js "rt'}" +:+ nl;
    js "data: {'type':'content','content':'Hi'}" +:+ nl ].

(** A chunk made of whole lines: it is empty or ends in a newline. *)
Definition whole_lines (chunk : string) : Prop :=
  chunk = EmptyString \/ exists text, chunk = text +:+ nl.

(** The body the chunks add up to. *)
Fixpoint body_of (cs : list string) : string :=
  match cs with
  | [] => EmptyString
  | c :: rest => c +:+ body_of rest
  end.

(** A cached file list that names file 7. *)
Definition list_with_7 : json :=
  JArray [JObject [("id"%string, JNumber "7");
                   ("original_name"%string, JString "a.pdf")]].

(** A successful JSON reply with the given body, after 10 ms. *)
Definition json_reply (text : string) : FileManager.exchange :=
  FileManager.Exchange 10
    (Resolved (Response true 200 "OK" (Some "application/json"%string) text)).

(** The reply of the status route for a given [process_status]. *)
Definition status_reply (st : string) : FileManager.exchange :=
  json_reply (js "{'success':true,'data':{'process_status':'" +:+ st
              +:+ js "','process_progress':50}}").

(** A status reply that [checkStatus] reads as the state [st]: the
    request returns parsed JSON whose [success] is truthy and whose
    [data.process_status] is the string [st]. *)
Definition reports (ex : FileManager.exchange) (st : string) : Prop :=
  exists v d,
    request (FileManager.result ex) = Return (Parsed v) /\
    v <> JNull /\
    truthy (prop "success" v) = true /\
    prop "data" v = Some d /\
    prop "process_status" d = Some (JString st).

End Scenario.

(* ===================================================================== *)
(** ** Plans and callers used to state further properties *)
(* ===================================================================== *)

Module Usage.
Import JsString Json Http ApiClient.

(** What the retrier does when the attempts from [i] on fail [more]
    times with errors it retries before an attempt ends the loop: each
    call but the last is followed by its wait. *)
Fixpoint plan (delay : Z) (i more : nat) : list RequestRetrier.effect :=
  match more with
  | O => [RequestRetrier.Call i]
  | S m =>
      RequestRetrier.Call i :: RequestRetrier.Wait (delay * 2 ^ Z.of_nat i)
        :: plan delay (S i) m
  end.

(** The sum of the waits. *)
Definition total_wait (effs : list RequestRetrier.effect) : Z :=
  foldr Z.add 0 (RequestRetrier.waits effs).

(** The busy notifications in a log. *)
Definition busy_warnings (es : list ChatManager.effect) : list ChatManager.effect :=
  List.filter (fun e => match e with
                        | ChatManager.NotificationWarning _ _ => true
                        | _ => false
                        end) es.

(** A line that [searchStream] passes over: it has no [data: ] prefix,
    or what follows the prefix is not JSON. *)
Definition skipped_line (line : string) : Prop :=
  startsWith line "data: " = false \/ parse (slice 6 line) = None.

(** The lines of a chunk, as [searchStream] cuts them. *)
Definition lines_of (chunk : string) : list string := split nl_char chunk.

(** The events of a list of lines, in order. *)
Definition events_of_lines (lines : list string) : list json :=
  SearchAPI.for_lines SearchAPI.record_event id lines [].

(** The effects the stream callback and the reader's [catch] produce. *)
Definition from_stream (e : ChatManager.effect) : bool :=
  match e with
  | ChatManager.UpdateChatStatus _ | ChatManager.UpdateStreamingMessage _
  | ChatManager.FinalizeStreamingMessage _ _ | ChatManager.HideTypingIndicator
  | ChatManager.ShowErrorMessage _ | ChatManager.ConsoleError => true
  | _ => false
  end.

(** An event whose [type] is [done] or [error]. *)
Definition terminal (data : json) : bool :=
  match data with
  | JObject ms =>
      match lookup_member "type" ms with
      | Some (JString t) => String.eqb t "done" || String.eqb t "error"
      | _ => false
      end
  | _ => false
  end.

(** The effects of a log that take the answer to its end: the typing
    indicator removed, an answer finalized, an error shown. *)
Definition closing (e : ChatManager.effect) : bool :=
  match e with
  | ChatManager.HideTypingIndicator | ChatManager.FinalizeStreamingMessage _ _
  | ChatManager.ShowErrorMessage _ => true
  | _ => false
  end.

(** [streamed w w' events]: from [w] to [w'] the manager changed only
    in that its log grew, by effects of the stream, and none of these
    closes the answer unless one of [events] is terminal. *)
Definition streamed (w w' : ChatManager.locals * ChatManager.manager)
    (events : list json) : Prop :=
  exists es,
    snd w' = ChatManager.emit es (snd w) /\
    forallb from_stream es = true /\
    (forallb (fun d => negb (terminal d)) events = true ->
     List.filter closing es = []).

(** The effects of the network layer: a request, a wait of the
    retrier, a progress event of an upload. *)
Definition network (e : FileManager.effect) : bool :=
  match e with
  | FileManager.HttpRequest _ _ _ | FileManager.Waited _
  | FileManager.UploadProgress _ _ => true
  | _ => false
  end.

(** The number of requests in a log. *)
Definition requests (es : list FileManager.effect) : nat :=
  List.length
    (List.filter (fun e => match e with
                           | FileManager.HttpRequest _ _ _ => true
                           | _ => false
                           end) es).

(** [traffic w w' es]: from [w] to [w'] the log grew by the network
    effects [es], with at least one request, time passed, and the
    selection, the cache and the timers are as they were. *)
Definition traffic (w w' : FileManager.world) (es : list FileManager.effect) : Prop :=
  FileManager.selectedFiles w' = FileManager.selectedFiles w /\
  FileManager.cache w' = FileManager.cache w /\
  FileManager.timers w' = FileManager.timers w /\
  FileManager.log w' = FileManager.log w ++ es /\
  forallb network es = true.

(** The instants of [S n] status checks, the first at [t], when every
    reply but the last says [processing]: each next check is sent 3000
    ms after the reply to the one before. *)
Fixpoint poll_times (server : nat -> FileManager.exchange) (k : nat) (t : Z) (n : nat)
  : list Z :=
  t :: match n with
       | O => []
       | S n' =>
           poll_times server (S k)
             (t + FileManager.latency (server k) + 3000) n'
       end.

(** The notification that ends the monitoring in state [st]. *)
Definition final_notification (st : string) : FileManager.effect :=
  if String.eqb st "completed" then
    FileManager.NotificationSuccess "处理完成"
      "文件内容分析完成，现在可以进行智能检索了"
  else FileManager.NotificationError "处理失败" "文件内容分析失败".

End Usage.

(* ===================================================================== *)
(** ** The file list: pagination and selection *)
(* ===================================================================== *)

Module FileList.
Import JsString.

(** What [renderPagination] writes into the container, piece by piece:
    the button of the previous page, numbered buttons, ellipses, the
    button of the next page.  A button carries the page its [onclick]
    hands to [goToPage]. *)
Inductive item : Type :=
| PrevButton (target : Z) (disabled : bool)
| PageButton (target : Z) (active : bool)
| Ellipsis
| NextButton (target : Z) (disabled : bool).

(** The loop [for (let i = startPage; i <= endPage; i++)]. *)
Fixpoint page_buttons (fuel : nat) (page endPage i : Z) : list item :=
  match fuel with
  | O => []
  | S fuel' =>
      if i <=? endPage
      then PageButton i (i =? page) :: page_buttons fuel' page endPage (i + 1)
      else []
  end.

(** [renderPagination(pagination)] for whole numbers [page] and
    [total_pages]: the new content of the container. *)
Definition renderPagination (page total_pages : Z) : list item :=
  if total_pages <=? 1 then []
  else
    let startPage := Z.max 1 (page - 2) in
    let endPage := Z.min total_pages (page + 2) in
    [PrevButton (page - 1) (page <=? 1)]
    ++ (if 1 <? startPage
        then PageButton 1 false :: (if 2 <? startPage then [Ellipsis] else [])
        else [])
    ++ page_buttons (Z.to_nat (endPage - startPage + 1)) page endPage startPage
    ++ (if endPage <? total_pages
        then (if endPage <? total_pages - 1 then [Ellipsis] else [])
             ++ [PageButton total_pages false]
        else [])
    ++ [NextButton (page + 1) (total_pages <=? page)].

(** The fields of the manager that [goToPage] works on, and the number
    of times the list was loaded. *)
Record pager : Type := Pager {
  currentPage : Z;
  totalPages : Z;
  loads : nat
}.

(** [goToPage(page)] *)
Definition goToPage (page : Z) (p : pager) : pager :=
  if (page <? 1) || (totalPages p <? page) || (page =? currentPage p) then p
  else Pager page (totalPages p) (S (loads p)).

(** [this.searchKeyword && this.searchKeyword.trim()] as a condition. *)
Definition search_mode (searchKeyword : string) : bool :=
  negb (String.eqb searchKeyword EmptyString)
  && negb (String.eqb (trim searchKeyword) EmptyString).

(** [cleanupInvalidSelections(currentFiles)]: the new selection.
    [currentFiles] is given by the [id]s of its files, [None] standing
    for a list that is [null] or [undefined]. *)
Definition cleanupInvalidSelections (currentFiles : option (list Z))
    (searchKeyword : string) (selectedFiles : gset Z) : gset Z :=
  match currentFiles with
  | None | Some [] => ∅
  | Some files =>
      let currentFileIds : gset Z := list_to_set files in
      let selectedFileIds := elements selectedFiles in
      if search_mode searchKeyword then selectedFiles
      else
        foldl (fun (selected : gset Z) fileId =>
                 if decide (fileId ∈ currentFileIds) then selected
                 else selected ∖ {[fileId]})
              selectedFiles selectedFileIds
  end.

(** The pages of the numbered buttons, and those marked active. *)
Definition page_numbers (items : list item) : list Z :=
  omap (fun it => match it with PageButton t _ => Some t | _ => None end) items.

Definition active_pages (items : list item) : list Z :=
  omap (fun it => match it with PageButton t true => Some t | _ => None end) items.

(** [marked last elided items]: going through [items] after page
    [last], each numbered button is the page after the one before it,
    unless an ellipsis stands between them, and then at least one page
    is left out; no two ellipses follow each other. *)
Fixpoint marked (last : Z) (elided : bool) (items : list item) : Prop :=
  match items with
  | [] => elided = false
  | PageButton t _ :: rest =>
      (if elided then last + 1 < t else t = last + 1) /\ marked t false rest
  | Ellipsis :: rest => elided = false /\ marked last true rest
  | _ :: rest => marked last elided rest
  end.

(** What a click on a piece does: [goToPage] with its target, nothing
    for a disabled button or an ellipsis. *)
Definition click (it : item) (p : pager) : pager :=
  match it with
  | PageButton t _ | PrevButton t false | NextButton t false => goToPage t p
  | _ => p
  end.

End FileList.

(* ===================================================================== *)
(** ** Utils.ArrayUtils and Utils.EventUtils *)
(* ===================================================================== *)

Module ArrayUtils.
Import Http ApiClient.

Section Arrays.
Context {A : Type}.

(** The index [array.slice] makes of an argument: counted from the end
    when negative, and kept within the array. *)
Definition clamp (len rel : Z) : Z :=
  if rel <? 0 then Z.max (len + rel) 0 else Z.min rel len.

(** [array.slice(start, end)] for whole numbers. *)
Definition slice (array : list A) (start end_ : Z) : list A :=
  let len := Z.of_nat (List.length array) in
  let k := clamp len start in
  let final := clamp len end_ in
  take (Z.to_nat (final - k)) (drop (Z.to_nat k) array).

(** The loop of [chunk]: [None] when [fuel] turns do not end it. *)
Fixpoint chunk_loop (fuel : nat) (array : list A) (size i : Z)
    (chunks : list (list A)) : option (list (list A)) :=
  match fuel with
  | O => None
  | S fuel' =>
      if i <? Z.of_nat (List.length array)
      then chunk_loop fuel' array size (i + size)
             (chunks ++ [slice array i (i + size)])
      else Some chunks
  end.

(** [chunk(array, size)] for a whole number [size]. *)
Definition chunk (fuel : nat) (array : list A) (size : Z) : option (list (list A)) :=
  chunk_loop fuel array size 0 [].







End Arrays.
End ArrayUtils.

Module EventUtils.




End EventUtils.

(* ===================================================================== *)
(** ** Properties *)
(* ===================================================================== *)

(** *** The primitives on small inputs *)

Example split_trailing_newline :
  JsString.split JsString.nl_char ("a" +:+ JsString.nl +:+ "b" +:+ JsString.nl)
  = ["a"%string; "b"%string; EmptyString].
Proof. reflexivity. Qed.

Example split_empty : JsString.split JsString.nl_char EmptyString = [EmptyString].
Proof. reflexivity. Qed.

Example trim_both_ends : JsString.trim "  how are  you  " = "how are  you"%string.
Proof. reflexivity. Qed.

Example trim_blank : JsString.trim "   " = EmptyString.
Proof. reflexivity. Qed.

Example includes_inside : JsString.includes "HTTP 503: Service Unavailable" "503" = true.
Proof. reflexivity. Qed.

Example parse_event :
  Json.parse (JsString.js "{'type':'content','content':'Hi'}")
  = Some (SearchAPI.ev_content "Hi").
Proof. vm_compute. reflexivity. Qed.

Example parse_nested :
  Json.parse (JsString.js " { 'a' : [1, -2.5e3, true, null, {'b': 'x\ny'}] } ")
  = Some (Json.JObject
            [("a"%string,
              Json.JArray [Json.JNumber "1"; Json.JNumber "-2.5e3"; Json.JBool true;
                           Json.JNull;
                           Json.JObject [("b"%string,
                                          Json.JString ("x" +:+ JsString.nl +:+ "y"))]])]).
Proof. vm_compute. reflexivity. Qed.

Example parse_cut_line : Json.parse (JsString.js "{'type':'sta") = None.
Proof. vm_compute. reflexivity. Qed.

Example parse_trailing_text : Json.parse (JsString.js "{} x") = None.
Proof. vm_compute. reflexivity. Qed.

Example parse_leading_zero : Json.parse "01" = None.
Proof. vm_compute. reflexivity. Qed.

Example last_member_wins :
  Json.prop "type" (Json.JObject [("type"%string, Json.JString "start");
                                  ("type"%string, Json.JString "done")])
  = Some (Json.JString "done").
Proof. reflexivity. Qed.

Section StreamFraming.
Import JsString Json Http SearchAPI Scenario.

Lemma split_nonempty sep s : split sep s <> [].
Proof.
  destruct s as [|c r]; simpl; [discriminate|].
  destruct (Ascii.eqb c sep); [discriminate|].
  destruct (split sep r); discriminate.
Qed.

(** The pieces of a text with a separator in it are the pieces before
    it followed by the pieces after it. *)
Lemma split_app_sep sep a b :
  split sep (a +:+ String sep b) = split sep a ++ split sep b.
Proof.
  induction a as [|c a IH].
  - change (EmptyString +:+ String sep b) with (String sep b).
    simpl. rewrite Ascii.eqb_refl. reflexivity.
  - change (String c a +:+ String sep b) with (String c (a +:+ String sep b)).
    simpl. destruct (Ascii.eqb c sep); rewrite IH; [reflexivity|].
    pose proof (split_nonempty sep a) as Hne.
    destruct (split sep a); [contradiction|reflexivity].
Qed.

Lemma append_nl_assoc a b : (a +:+ nl) +:+ b = a +:+ String nl_char b.
Proof.
  induction a as [|c a IH]; [reflexivity|].
  change (String c ((a +:+ nl) +:+ b) = String c (a +:+ String nl_char b)).
  f_equal. exact IH.
Qed.

Context {W : Type} (onMessage : json -> W -> W * bool) (console_error : W -> W).

Lemma for_lines_app l1 l2 (w : W) :
  for_lines onMessage console_error (l1 ++ l2) w =
  for_lines onMessage console_error l2 (for_lines onMessage console_error l1 w).
Proof. revert w; induction l1 as [|x l1 IH]; intros w; simpl; [reflexivity|apply IH]. Qed.

(** A chunk of whole lines followed by more text is handled like the
    two together. *)
Lemma on_chunk_whole_lines c rest (w : W) :
  whole_lines c ->
  on_chunk onMessage console_error (c +:+ rest) w =
  on_chunk onMessage console_error rest (on_chunk onMessage console_error c w).
Proof.
  intros [->|[text ->]]; [reflexivity|].
  unfold on_chunk. rewrite append_nl_assoc, split_app_sep, for_lines_app.
  f_equal.
  replace (text +:+ nl) with (text +:+ String nl_char EmptyString) by reflexivity.
  rewrite split_app_sep, for_lines_app. reflexivity.
Qed.

Lemma read_loop_whole_lines cs (w : W) :
  Forall whole_lines cs ->
  read_loop onMessage console_error cs w =
  on_chunk onMessage console_error (body_of cs) w.
Proof.
  intros H; revert w; induction H as [|c cs Hc _ IH]; intros w; simpl.
  - reflexivity.
  - rewrite IH, on_chunk_whole_lines by assumption. reflexivity.
Qed.

Lemma read_loop_app cs1 cs2 (w : W) :
  read_loop onMessage console_error (cs1 ++ cs2) w =
  read_loop onMessage console_error cs2 (read_loop onMessage console_error cs1 w).
Proof. revert w; induction cs1 as [|c cs1 IH]; intros w; simpl; [reflexivity|apply IH]. Qed.
End StreamFraming.

(** C1, as stated, fails: for the chunks of the framing example the
    subscriber is not called with [start] and then [content("Hi")]. *)
Lemma C1_split_line_lost :
  SearchAPI.received Scenario.framing_chunks
    <> [SearchAPI.ev_start; SearchAPI.ev_content "Hi"].
Proof. vm_compute. discriminate. Qed.

(** C1, amended: [searchStream] keeps nothing from one chunk to the
    next.  When every chunk is made of whole lines, the subscriber
    receives the events of the body's lines, in order; a line cut by a
    chunk boundary is not put together again, and for the chunks of
    the framing example the subscriber receives [content("Hi")] only. *)
Theorem C1_framing_per_chunk :
  (forall cs : list string,
      Forall Scenario.whole_lines cs ->
      SearchAPI.received cs = SearchAPI.received [Scenario.body_of cs]) /\
  SearchAPI.received Scenario.framing_chunks = [SearchAPI.ev_content "Hi"].
Proof.
  split; [|vm_compute; reflexivity].
  intros cs H. unfold SearchAPI.received.
  rewrite (read_loop_whole_lines _ _ cs [] H). reflexivity.
Qed.

Lemma C1_framing_per_chunk_witness :
  SearchAPI.received
    [JsString.js "data: {'type':'start'}" +:+ JsString.nl;
     JsString.js "data: {'type':'content','content':'Hi'}" +:+ JsString.nl]
  = [SearchAPI.ev_start; SearchAPI.ev_content "Hi"].
Proof.
  rewrite (proj1 C1_framing_per_chunk).
  - vm_compute. reflexivity.
  - constructor; [right; eexists; reflexivity|].
    constructor; [right; eexists; reflexivity|].
    constructor.
Defined.

(* --------------------------------------------------------------------- *)
(** *** The cache *)
(* --------------------------------------------------------------------- *)

(** C2, as stated, fails at the instant of expiry: an entry stored at 0
    with a lifetime of 1000 is still returned, and kept, at 1000. *)
Lemma C2_served_at_expiry :
  let c := CacheManager.set "k" (Json.JString "v") (Some 1000) 0 ∅ in
  1000 >= 0 + 1000 /\
  CacheManager.get "k" 1000 c = (Json.JString "v", c) /\
  CacheManager.get "k" 1000 c <> (Json.JNull, delete "k" c).
Proof.
  cbv zeta. split; [lia|]. split.
  - unfold CacheManager.get, CacheManager.set.
    rewrite lookup_insert_eq. reflexivity.
  - unfold CacheManager.get, CacheManager.set.
    rewrite lookup_insert_eq. simpl. intros H. inversion H.
Qed.

(** C2, amended: for an entry stored under [k] at [storedAt] with
    lifetime [ttl], [get(k)] at [now] returns the stored value and
    leaves the cache as it is when [now <= storedAt + ttl] (the instant
    of expiry included), and returns [null] and deletes the entry when
    [now > storedAt + ttl]. *)
Theorem C2_get_ttl (k : string) (v : Json.json) (storedAt ttl now : Z)
    (cache : gmap string CacheManager.item) :
  let c := CacheManager.set k v (Some ttl) storedAt cache in
  (now <= storedAt + ttl -> CacheManager.get k now c = (v, c)) /\
  (now > storedAt + ttl ->
   CacheManager.get k now c = (Json.JNull, delete k c) /\
   snd (CacheManager.get k now c) !! k = None).
Proof.
  cbv zeta. unfold CacheManager.get, CacheManager.set. simpl.
  rewrite lookup_insert_eq. simpl.
  split; intros H.
  - destruct (Z.gtb_spec now (storedAt + ttl)); [lia|reflexivity].
  - destruct (Z.gtb_spec now (storedAt + ttl)); [|lia].
    split; [reflexivity|]. simpl. apply lookup_delete_eq.
Qed.

Lemma C2_get_ttl_witness :
  CacheManager.get "k" 1000
    (CacheManager.set "k" (Json.JString "v") (Some 1000) 0 ∅)
  = (Json.JString "v", CacheManager.set "k" (Json.JString "v") (Some 1000) 0 ∅)
  /\
  CacheManager.get "k" 1001
    (CacheManager.set "k" (Json.JString "v") (Some 1000) 0 ∅)
  = (Json.JNull, delete "k" (CacheManager.set "k" (Json.JString "v") (Some 1000) 0 ∅)).
Proof.
  split.
  - apply (proj1 (C2_get_ttl "k" (Json.JString "v") 0 1000 1000 ∅)). lia.
  - apply (proj2 (C2_get_ttl "k" (Json.JString "v") 0 1000 1001 ∅)). lia.
Defined.

(* --------------------------------------------------------------------- *)
(** *** The retry policy *)
(* --------------------------------------------------------------------- *)

(** C3: a request that times out is not retried.  When the timer of
    [ApiClient.request] aborts the [fetch], [request] throws the error
    with message [timeout_message], and [shouldRetry] answers [false]
    for it; [upload] gives its own timeout the same message, while its
    network error, whose message has the word [shouldRetry] looks for,
    is retried.  A 503 response is retried when its body carries no
    message of its own, and is not when it does. *)
Theorem C3_timeout_not_retried :
  ApiClient.request (ApiClient.Rejected ApiClient.abort_error)
    = ApiClient.Throw (Http.new_Error ApiClient.timeout_message) /\
  RequestRetrier.shouldRetry (Http.new_Error ApiClient.timeout_message) = false /\
  FileManager.upload FileManager.XhrTimeout
    = ApiClient.Throw (Http.new_Error ApiClient.timeout_message) /\
  RequestRetrier.shouldRetry (Http.new_Error ApiClient.upload_network_message) = true /\
  (exists e,
      ApiClient.request
        (ApiClient.Resolved
           (ApiClient.Response false 503 "Service Unavailable" None EmptyString))
        = ApiClient.Throw e /\
      RequestRetrier.shouldRetry e = true) /\
  (exists e,
      ApiClient.request
        (ApiClient.Resolved
           (ApiClient.Response false 503 "Service Unavailable" None
              (JsString.js "{'success':false,'message':'服务繁忙'}")))
        = ApiClient.Throw e /\
      RequestRetrier.shouldRetry e = false).
Proof.
  repeat split; try (vm_compute; reflexivity).
  - eexists. split; vm_compute; reflexivity.
  - eexists. split; vm_compute; reflexivity.
Qed.

Section Retrier.
Import Http ApiClient RequestRetrier.
Context {A : Type}.

(** One failed attempt that is to be retried: the call, the wait, and
    on to the next iteration. *)
Lemma loop_retry (r : retrier) (results : nat -> outcome A) left i last log e :
  results i = Throw e ->
  i <> maxRetries r ->
  shouldRetry e = true ->
  loop r (traced results) traced_wait (S left) i last log =
  loop r (traced results) traced_wait left (S i) (Some e)
    (log ++ [Call i; Wait (delay r * 2 ^ Z.of_nat i)]).
Proof.
  intros Hres Hi Hretry. simpl. unfold traced at 1. rewrite Hres.
  destruct (Nat.eqb_spec i (maxRetries r)); [contradiction|].
  rewrite Hretry. unfold traced_wait. rewrite <- app_assoc. reflexivity.
Qed.

(** The failed attempt of the last iteration ends the loop with its
    error. *)
Lemma loop_last (r : retrier) (results : nat -> outcome A) left last log e :
  results (maxRetries r) = Throw e ->
  loop r (traced results) traced_wait (S left) (maxRetries r) last log =
  (log ++ [Call (maxRetries r)], RejectedWith (Some e)).
Proof.
  intros Hres. simpl. unfold traced at 1. rewrite Hres.
  rewrite Nat.eqb_refl. reflexivity.
Qed.
End Retrier.

(** When [shouldRetry] accepts each error: with three retries and a
    base delay [base] (the default retrier has base 1000), an operation
    whose attempts all fail with errors that [shouldRetry] accepts is
    called exactly four times, with waits of [base], [2 * base] and
    [4 * base] after the first three failures, and [execute] then fails
    with the error of the fourth attempt itself. *)
Lemma four_tries_on_accepted_errors {A : Type} (base : Z)
    (results : nat -> ApiClient.outcome A) (e0 e1 e2 e3 : Http.error) :
  results 0%nat = ApiClient.Throw e0 ->
  results 1%nat = ApiClient.Throw e1 ->
  results 2%nat = ApiClient.Throw e2 ->
  results 3%nat = ApiClient.Throw e3 ->
  RequestRetrier.shouldRetry e0 = true ->
  RequestRetrier.shouldRetry e1 = true ->
  RequestRetrier.shouldRetry e2 = true ->
  RequestRetrier.shouldRetry e3 = true ->
  RequestRetrier.default_retrier = RequestRetrier.Retrier 3 1000 /\
  RequestRetrier.run (RequestRetrier.Retrier 3 base) results =
    ([RequestRetrier.Call 0; RequestRetrier.Wait base;
      RequestRetrier.Call 1; RequestRetrier.Wait (2 * base);
      RequestRetrier.Call 2; RequestRetrier.Wait (4 * base);
      RequestRetrier.Call 3],
     RequestRetrier.RejectedWith (Some e3)) /\
  RequestRetrier.calls (fst (RequestRetrier.run (RequestRetrier.Retrier 3 base) results)) = 4%nat /\
  RequestRetrier.waits (fst (RequestRetrier.run (RequestRetrier.Retrier 3 base) results))
    = [base * 2 ^ 0; base * 2 ^ 1; base * 2 ^ 2].
Proof.
  intros H0 H1 H2 H3 R0 R1 R2 _.
  assert (Hrun : RequestRetrier.run (RequestRetrier.Retrier 3 base) results =
    ([RequestRetrier.Call 0; RequestRetrier.Wait base;
      RequestRetrier.Call 1; RequestRetrier.Wait (2 * base);
      RequestRetrier.Call 2; RequestRetrier.Wait (4 * base);
      RequestRetrier.Call 3],
     RequestRetrier.RejectedWith (Some e3))).
  { unfold RequestRetrier.run, RequestRetrier.execute.
    cbn [RequestRetrier.maxRetries].
    rewrite (loop_retry _ _ _ 0%nat _ _ e0) by (assumption || discriminate).
    rewrite (loop_retry _ _ _ 1%nat _ _ e1) by (assumption || discriminate).
    rewrite (loop_retry _ _ _ 2%nat _ _ e2) by (assumption || discriminate).
    rewrite (loop_last (RequestRetrier.Retrier 3 base) results _ _ _ e3 H3).
    cbn [RequestRetrier.delay RequestRetrier.maxRetries app].
    replace (base * 2 ^ Z.of_nat 0) with base by (cbn; lia).
    replace (base * 2 ^ Z.of_nat 1) with (2 * base) by (cbn; lia).
    replace (base * 2 ^ Z.of_nat 2) with (4 * base) by (cbn; lia).
    reflexivity. }
  split; [reflexivity|]. split; [exact Hrun|].
  rewrite Hrun. split; [reflexivity|].
  unfold RequestRetrier.waits. cbn [omap list_omap fst].
  replace (base * 2 ^ 0) with base by lia.
  replace (base * 2 ^ 1) with (2 * base) by lia.
  replace (base * 2 ^ 2) with (4 * base) by lia.
  reflexivity.
Qed.

Lemma four_tries_on_bare_503 :
  let unavailable :=
    ApiClient.Resolved
      (ApiClient.Response false 503 "Service Unavailable" None EmptyString) in
  RequestRetrier.run RequestRetrier.default_retrier
    (fun _ : nat => ApiClient.request unavailable)
  = ([RequestRetrier.Call 0; RequestRetrier.Wait 1000;
      RequestRetrier.Call 1; RequestRetrier.Wait 2000;
      RequestRetrier.Call 2; RequestRetrier.Wait 4000;
      RequestRetrier.Call 3],
     RequestRetrier.RejectedWith (Some (Http.new_Error "HTTP 503: Service Unavailable"))).
Proof.
  set (e := Http.new_Error "HTTP 503: Service Unavailable").
  exact (proj1 (proj2 (four_tries_on_accepted_errors 1000
    (fun _ : nat => ApiClient.request
       (ApiClient.Resolved
          (ApiClient.Response false 503 "Service Unavailable" None EmptyString)))
    e e e e
    eq_refl eq_refl eq_refl eq_refl eq_refl eq_refl eq_refl eq_refl))).
Defined.

(** C4: failures that the retry policy is meant to retry, and whose
    message [shouldRetry] does not recognise, are tried once.  An
    operation that is [request] on a [fetch] aborted by its timer fails
    at every attempt with the error of message [timeout_message];
    [execute] with the default retrier calls it once, does not wait, and
    fails with that error.  The same happens when every attempt is a
    [fetch] that the network refused ([Failed to fetch]), and when every
    attempt is answered with a 503 whose body carries a message. *)
Theorem C4_timeout_tried_once :
  let timed_out := fun _ : nat =>
    ApiClient.request (ApiClient.Rejected ApiClient.abort_error) in
  let refused := fun _ : nat =>
    ApiClient.request (ApiClient.Rejected (Http.Error "TypeError" "Failed to fetch")) in
  let busy := fun _ : nat =>
    ApiClient.request
      (ApiClient.Resolved
         (ApiClient.Response false 503 "Service Unavailable"
            (Some "application/json"%string)
            (JsString.js "{'success':false,'message':'服务繁忙'}"))) in
  RequestRetrier.default_retrier = RequestRetrier.Retrier 3 1000 /\
  timed_out 0%nat = ApiClient.Throw (Http.new_Error ApiClient.timeout_message) /\
  RequestRetrier.run RequestRetrier.default_retrier timed_out
    = ([RequestRetrier.Call 0],
       RequestRetrier.RejectedWith (Some (Http.new_Error ApiClient.timeout_message))) /\
  RequestRetrier.calls (fst (RequestRetrier.run RequestRetrier.default_retrier timed_out))
    = 1%nat /\
  RequestRetrier.waits (fst (RequestRetrier.run RequestRetrier.default_retrier timed_out))
    = [] /\
  RequestRetrier.run RequestRetrier.default_retrier refused
    = ([RequestRetrier.Call 0],
       RequestRetrier.RejectedWith (Some (Http.Error "TypeError" "Failed to fetch"))) /\
  RequestRetrier.run RequestRetrier.default_retrier busy
    = ([RequestRetrier.Call 0],
       RequestRetrier.RejectedWith (Some (Http.new_Error "服务繁忙"))).
Proof.
  cbv zeta. repeat split; vm_compute; reflexivity.
Qed.

(* --------------------------------------------------------------------- *)
(** *** The interceptor *)
(* --------------------------------------------------------------------- *)

Section Interceptor.
Import Http ApiClient Promise RequestInterceptor.

Lemma lookup_last_promise (ps : list state) (s : state) :
  (ps ++ [s]) !! List.length ps = Some s.
Proof. apply list_lookup_middle. reflexivity. Qed.

Lemma insert_last_promise (ps : list state) (s s' : state) :
  <[List.length ps := s']> (ps ++ [s]) = ps ++ [s'].
Proof.
  replace (List.length ps) with (List.length ps + 0)%nat by lia.
  rewrite insert_app_r. reflexivity.
Qed.

(** The first call for a key that is not in flight: one network call,
    a new promise with the interceptor's deletion attached first and
    the caller's continuation second. *)
Lemma call_through_fresh key caller ps q lg :
  q !! key = None ->
  call_through key caller (World ps [] q lg) =
  (List.length ps,
   World (ps ++ [Pending [DeleteFromQueue key; Deliver caller]]) []
         (<[key := List.length ps]> q) (lg ++ [NetworkCall key])).
Proof.
  intros Hq. unfold call_through, cancelDuplicate. simpl. rewrite Hq.
  unfold start_call, new_promise, addRequest, attach, set_promises,
    set_requestQueue, add_log. simpl.
  rewrite lookup_last_promise. simpl. rewrite insert_last_promise. simpl.
  rewrite lookup_last_promise. simpl. rewrite insert_last_promise.
  reflexivity.
Qed.

(** A call for a key in flight joins the promise registered for it
    and makes no network call. *)
Lemma call_through_join key caller ps rs q lg :
  call_through key caller
    (World (ps ++ [Pending rs]) [] (<[key := List.length ps]> q) lg) =
  (List.length ps,
   World (ps ++ [Pending (rs ++ [Deliver caller])]) []
         (<[key := List.length ps]> q) lg).
Proof.
  unfold call_through, cancelDuplicate. simpl. rewrite lookup_insert_eq.
  unfold attach, set_promises. simpl.
  rewrite lookup_last_promise. simpl. rewrite insert_last_promise.
  reflexivity.
Qed.
End Interceptor.

(** C5, the case that fails: two callers that each start their request
    and register it.  [addRequest] takes a promise that exists already,
    so each caller has made its network call before the interceptor sees
    it: two calls are made, the second registration replaces the first,
    and each caller receives the outcome of its own request, here a
    value for one and an error for the other. *)
Lemma C5_two_registrations_two_calls :
  let o1 := ApiClient.Return (ApiClient.Text "first") in
  let o2 := ApiClient.Throw (Http.new_Error "second") in
  let started_a := RequestInterceptor.start_call "k" Promise.empty_world in
  let registered_a :=
    RequestInterceptor.addRequest "k" (fst started_a) (snd started_a) in
  let wa := Promise.attach (fst registered_a) (Promise.Deliver 1) (snd registered_a) in
  let started_b := RequestInterceptor.start_call "k" wa in
  let registered_b :=
    RequestInterceptor.addRequest "k" (fst started_b) (snd started_b) in
  let wb := Promise.attach (fst registered_b) (Promise.Deliver 2) (snd registered_b) in
  let settled :=
    Promise.drain
      (Promise.settle (fst started_b) o2
         (Promise.drain (Promise.settle (fst started_a) o1 wb))) in
  RequestInterceptor.network_calls wb = ["k"; "k"]%string /\
  fst registered_a <> fst registered_b /\
  Promise.log settled =
    [Promise.NetworkCall "k"; Promise.NetworkCall "k";
     Promise.Deleted "k"; Promise.Delivered 1 o1;
     Promise.Deleted "k"; Promise.Delivered 2 o2] /\
  o1 <> o2.
Proof.
  cbv zeta. split; [vm_compute; reflexivity|].
  split; [vm_compute; discriminate|].
  split; [vm_compute; reflexivity|discriminate].
Qed.

(** C5: a key [key] is not in flight and no promise job is waiting.
    Caller [a] starts a request, registers its promise with [addRequest]
    and awaits the promise [addRequest] returns.  Before the request
    settles, caller [b] asks [cancelDuplicate]: it is given that same
    promise, and awaits it instead of starting a request.  Then one
    network call has been made.  When the request settles with outcome
    [o], the entry of [key] is deleted first, then [o] is delivered to
    [a], then to [b]; afterwards [cancelDuplicate] answers [null] for
    [key]. *)
Theorem C5_registered_promise_is_shared (w : Promise.world) (key : string)
    (a b : nat) (o : ApiClient.outcome ApiClient.payload) :
  RequestInterceptor.cancelDuplicate key w = None ->
  Promise.jobs w = [] ->
  let started := RequestInterceptor.start_call key w in
  let registered :=
    RequestInterceptor.addRequest key (fst started) (snd started) in
  let awaited := Promise.attach (fst registered) (Promise.Deliver a) (snd registered) in
  let found := RequestInterceptor.cancelDuplicate key awaited in
  let joined := Promise.attach (fst started) (Promise.Deliver b) awaited in
  let settled := Promise.drain (Promise.settle (fst started) o joined) in
  fst registered = fst started /\
  found = Some (fst started) /\
  RequestInterceptor.network_calls joined
    = RequestInterceptor.network_calls w ++ [key] /\
  Promise.log settled =
    Promise.log w ++ [Promise.NetworkCall key; Promise.Deleted key;
                      Promise.Delivered a o; Promise.Delivered b o] /\
  RequestInterceptor.cancelDuplicate key settled = None.
Proof.
  destruct w as [ps js q lg]. unfold RequestInterceptor.cancelDuplicate.
  cbn [Promise.requestQueue Promise.jobs]. intros Hq ->. cbv zeta.
  unfold RequestInterceptor.start_call, Promise.new_promise,
    RequestInterceptor.addRequest, Promise.attach, Promise.set_promises,
    Promise.set_requestQueue, Promise.add_log.
  cbn [fst snd Promise.promises Promise.jobs Promise.requestQueue Promise.log].
  rewrite lookup_last_promise. cbn [app].
  rewrite insert_last_promise.
  cbn [fst snd Promise.promises Promise.jobs Promise.requestQueue Promise.log].
  rewrite lookup_last_promise. cbn [app].
  rewrite insert_last_promise.
  cbn [fst snd Promise.promises Promise.jobs Promise.requestQueue Promise.log].
  rewrite lookup_last_promise. cbn [app].
  rewrite insert_last_promise.
  unfold Promise.settle.
  cbn [fst snd Promise.promises Promise.jobs Promise.requestQueue Promise.log].
  rewrite lookup_last_promise.
  unfold Promise.drain, Promise.set_jobs, Promise.set_promises.
  cbn [fst snd Promise.promises Promise.jobs Promise.requestQueue Promise.log
       map app fold_left Promise.run_job].
  rewrite insert_last_promise.
  unfold Promise.add_log, Promise.set_requestQueue.
  cbn [fst snd Promise.promises Promise.jobs Promise.requestQueue Promise.log].
  split; [reflexivity|]. split; [apply lookup_insert_eq|].
  split; [unfold RequestInterceptor.network_calls;
          cbn [Promise.log]; rewrite omap_app; reflexivity|].
  split; [rewrite <- !app_assoc; reflexivity|apply lookup_delete_eq].
Qed.

Lemma C5_registered_promise_is_shared_witness :
  let o := ApiClient.Return (ApiClient.Text "ok") in
  let started := RequestInterceptor.start_call "k" Promise.empty_world in
  let registered :=
    RequestInterceptor.addRequest "k" (fst started) (snd started) in
  let awaited := Promise.attach (fst registered) (Promise.Deliver 1) (snd registered) in
  let joined := Promise.attach (fst started) (Promise.Deliver 2) awaited in
  RequestInterceptor.cancelDuplicate "k" awaited = Some (fst started) /\
  Promise.log (Promise.drain (Promise.settle (fst started) o joined)) =
    [Promise.NetworkCall "k"; Promise.Deleted "k";
     Promise.Delivered 1 o; Promise.Delivered 2 o].
Proof.
  cbv zeta.
  pose proof (C5_registered_promise_is_shared Promise.empty_world "k" 1 2
                (ApiClient.Return (ApiClient.Text "ok")) eq_refl eq_refl) as H.
  cbv zeta in H. destruct H as (_ & Hfound & _ & Hlog & _).
  split; [exact Hfound|exact Hlog].
Defined.

(* --------------------------------------------------------------------- *)
(** *** Mutations and the cache *)
(* --------------------------------------------------------------------- *)

Section MutationsAndCache.
Import Http ApiClient FileManager.

(** The retrier's loop keeps the cache when the request and the wait
    do. *)
Lemma loop_keeps_cache {A : Type} (r : RequestRetrier.retrier)
    (requestFn : nat -> world -> world * outcome A) (wait_ : Z -> world -> world) :
  (forall i w, cache (fst (requestFn i w)) = cache w) ->
  (forall ms w, cache (wait_ ms w) = cache w) ->
  forall left i last w,
    cache (fst (RequestRetrier.loop r requestFn wait_ left i last w)) = cache w.
Proof.
  intros Hreq Hwait left.
  induction left as [|left IH]; intros i last w; simpl; [reflexivity|].
  specialize (Hreq i w).
  destruct (requestFn i w) as [w1 [a|e]]; simpl in *; [assumption|].
  destruct (i =? RequestRetrier.maxRetries r)%nat; simpl; [assumption|].
  destruct (RequestRetrier.shouldRetry e); simpl; [|assumption].
  rewrite IH, Hwait. assumption.
Qed.

Lemma api_keeps_cache method url replies w :
  cache (fst (api method url replies w)) = cache w.
Proof.
  unfold api, RequestRetrier.execute.
  apply loop_keeps_cache; intros; reflexivity.
Qed.

(** The call of the API in the goal is named, with the fact that it kept
    the cache. *)
Ltac through_api w2 res Hapi :=
  match goal with
  | |- context [FileManager.api ?m ?u ?r ?x] =>
      pose proof (api_keeps_cache m u r x) as Hapi;
      destruct (FileManager.api m u r x) as [w2 res]
  end.

Lemma on_response_keeps_cache res on_success w :
  (forall p w', cache (fst (on_success p w')) = cache w') ->
  cache (fst (on_response res on_success w)) = cache w.
Proof.
  intros Hs. unfold on_response.
  destruct res as [response|thrown]; [|reflexivity].
  destruct (member "success" response) as [s|e]; [|reflexivity].
  destruct (truthy s).
  - specialize (Hs response w).
    destruct (on_success response w) as [w1 [e|]]; exact Hs.
  - destruct (member "message" response); reflexivity.
Qed.

Lemma catch_keeps_cache title thrown w : cache (catch_ title thrown w) = cache w.
Proof. destruct thrown; reflexivity. Qed.

Lemma performDeleteFile_keeps_cache fileId replies w :
  cache (performDeleteFile fileId replies w) = cache w.
Proof.
  unfold performDeleteFile.
  through_api w2 res Hapi.
  match goal with |- context [on_response res ?f w2] =>
    pose proof (on_response_keeps_cache res f w2 ltac:(intros; reflexivity)) as Hres;
    destruct (on_response res f w2) as [w3 thrown] end.
  simpl in *. destruct thrown as [t|]; [rewrite catch_keeps_cache|]; congruence.
Qed.

Lemma performRename_keeps_cache fileId newName replies w :
  cache (performRename fileId newName replies w) = cache w.
Proof.
  unfold performRename.
  through_api w2 res Hapi.
  match goal with |- context [on_response res ?f w2] =>
    pose proof (on_response_keeps_cache res f w2 ltac:(intros; reflexivity)) as Hres;
    destruct (on_response res f w2) as [w3 thrown] end.
  simpl in *. destruct thrown as [t|]; [rewrite catch_keeps_cache|]; congruence.
Qed.

Lemma performBatchDelete_keeps_cache replies w :
  cache (performBatchDelete replies w) = cache w.
Proof.
  unfold performBatchDelete.
  destruct (filter _ _); [reflexivity|].
  through_api w2 res Hapi.
  match goal with |- context [on_response res ?f w2] =>
    assert (Hres : cache (fst (on_response res f w2)) = cache w2);
    [apply on_response_keeps_cache; intros p w';
     destruct (member "data" p) as [[[]|]|]; reflexivity|];
    destruct (on_response res f w2) as [w3 thrown] end.
  simpl in *. destruct thrown as [t|]; [rewrite catch_keeps_cache|]; congruence.
Qed.

Lemma uploadFile_keeps_cache file_name transfers w :
  cache (uploadFile file_name transfers w) = cache w.
Proof.
  unfold uploadFile.
  match goal with |- context [RequestRetrier.execute ?r ?f ?wt ?x] =>
    assert (Hup : cache (fst (RequestRetrier.execute r f wt x)) = cache x);
    [apply loop_keeps_cache; intros; reflexivity|];
    destruct (RequestRetrier.execute r f wt x) as [w2 res] end.
  match goal with |- context [on_response res ?f w2] =>
    assert (Hres : cache (fst (on_response res f w2)) = cache w2);
    [apply on_response_keeps_cache; intros p w';
     destruct (member "data" p) as [[[]|]|]; reflexivity|];
    destruct (on_response res f w2) as [w3 thrown] end.
  simpl in *. destruct thrown as [t|]; simpl; [rewrite catch_keeps_cache|]; congruence.
Qed.
End MutationsAndCache.

(** C6, as stated, fails: a list naming file 7 was cached; file 7 is
    deleted with success; a [get] right afterwards still returns the
    cached list. *)
Lemma C6_stale_list_served :
  let w := FileManager.World {[7]}
             (CacheManager.set "file_list" Scenario.list_with_7 None 0 ∅)
             1000 [] 0 [] in
  let w' := FileManager.performDeleteFile 7
              (fun _ => Scenario.json_reply (JsString.js "{'success':true}")) w in
  FileManager.notifications (FileManager.log w')
    = [FileManager.NotificationSuccess "删除成功" "文件已成功删除"] /\
  fst (CacheManager.get "file_list" (FileManager.now w') (FileManager.cache w'))
    = Scenario.list_with_7 /\
  fst (CacheManager.get "file_list" (FileManager.now w') (FileManager.cache w'))
    <> Json.JNull.
Proof.
  cbv zeta. rewrite performDeleteFile_keeps_cache.
  split; [vm_compute; reflexivity|].
  unfold CacheManager.get, CacheManager.set. cbn [FileManager.cache].
  rewrite lookup_insert_eq.
  split; [vm_compute; reflexivity | vm_compute; discriminate].
Qed.

(** C6, amended: the mutating operations (delete, batch delete, rename,
    upload) do not go through the cache, and they do not invalidate
    anything either: each leaves the cache exactly as it was, so a [get]
    after the mutation returns what it would have returned without it. *)
Theorem C6_mutations_leave_cache (w : FileManager.world) :
  (forall fileId replies,
      FileManager.cache (FileManager.performDeleteFile fileId replies w)
      = FileManager.cache w) /\
  (forall replies,
      FileManager.cache (FileManager.performBatchDelete replies w)
      = FileManager.cache w) /\
  (forall fileId newName replies,
      FileManager.cache (FileManager.performRename fileId newName replies w)
      = FileManager.cache w) /\
  (forall file_name transfers,
      FileManager.cache (FileManager.uploadFile file_name transfers w)
      = FileManager.cache w) /\
  (forall fileId replies key t,
      CacheManager.get key t
        (FileManager.cache (FileManager.performDeleteFile fileId replies w))
      = CacheManager.get key t (FileManager.cache w)).
Proof.
  repeat split; intros.
  - apply performDeleteFile_keeps_cache.
  - apply performBatchDelete_keeps_cache.
  - apply performRename_keeps_cache.
  - apply uploadFile_keeps_cache.
  - rewrite performDeleteFile_keeps_cache. reflexivity.
Qed.

(* --------------------------------------------------------------------- *)
(** *** The chat stream *)
(* --------------------------------------------------------------------- *)

Section ChatStream.
Import JsString Json Http ApiClient SearchAPI ChatManager.

Lemma emit_nil m : emit [] m = m.
Proof. destruct m; unfold emit; simpl. rewrite app_nil_r. reflexivity. Qed.

Lemma emit_emit es1 es2 m : emit es2 (emit es1 m) = emit (es1 ++ es2) m.
Proof. unfold emit; simpl. rewrite app_assoc. reflexivity. Qed.

(** The callback does not look at the manager: it changes the two
    variables and adds to the log. *)
Lemma onMessage_emits data l :
  exists l' es threw, forall m, onMessage data (l, m) = ((l', emit es m), threw).
Proof.
  unfold onMessage.
  assert (Hsame : forall b : bool, exists l' es threw, forall m : manager,
             ((l, m), b) = ((l', emit es m), threw)).
  { intros b. exists l, [], b. intros m. rewrite emit_nil. reflexivity. }
  destruct data; try apply Hsame;
    try (destruct (prop "type" _) as [[]|]; apply Hsame).
  destruct (prop "type" (JObject members)) as [[| | |t| |]|]; try apply Hsame.
  repeat match goal with
         | |- context [if String.eqb t ?x then _ else _] =>
             destruct (String.eqb t x)
         end;
    try apply Hsame;
    try (eexists _, _, _; intros m; reflexivity).
  eexists _, [], _. intros m. rewrite emit_nil. reflexivity.
Qed.

Lemma on_line_emits line l :
  exists l' es, forall m,
    on_line onMessage console_error line (l, m) = (l', emit es m).
Proof.
  unfold on_line. destruct (startsWith line "data: ").
  - destruct (parse (slice 6 line)) as [data|].
    + destruct (onMessage_emits data l) as (l' & es & threw & H).
      destruct threw.
      * exists l', (es ++ [ConsoleError]). intros m. rewrite H.
        unfold console_error. simpl. rewrite emit_emit. reflexivity.
      * exists l', es. intros m. rewrite H. reflexivity.
    + exists l, [ConsoleError]. intros m. reflexivity.
  - exists l, []. intros m. rewrite emit_nil. reflexivity.
Qed.

Lemma for_lines_emits lines l :
  exists l' es, forall m,
    for_lines onMessage console_error lines (l, m) = (l', emit es m).
Proof.
  revert l. induction lines as [|line lines IH]; intros l; simpl.
  - exists l, []. intros m. rewrite emit_nil. reflexivity.
  - destruct (on_line_emits line l) as (l1 & es1 & H1).
    destruct (IH l1) as (l2 & es2 & H2).
    exists l2, (es1 ++ es2). intros m. rewrite H1, H2, emit_emit. reflexivity.
Qed.

(** Reading chunks changes the two variables and adds to the log, and
    what it adds does not depend on the manager or on the log so far. *)
Lemma read_loop_emits cs l :
  exists l' es, forall m,
    read_loop onMessage console_error cs (l, m) = (l', emit es m).
Proof.
  revert l. induction cs as [|c cs IH]; intros l; simpl.
  - exists l, []. intros m. rewrite emit_nil. reflexivity.
  - destruct (for_lines_emits (split nl_char c) l) as (l1 & es1 & H1).
    destruct (IH l1) as (l2 & es2 & H2).
    exists l2, (es1 ++ es2). intros m. unfold on_chunk.
    rewrite H1, H2, emit_emit. reflexivity.
Qed.

(** While the chunks are read the flag stays set. *)
Lemma streaming_after_flag query cs m :
  isStreaming (snd (streaming_after query cs m)) = true.
Proof.
  unfold streaming_after.
  destruct (read_loop_emits cs (fst (sendMessage_open query m))) as (l' & es & H).
  rewrite H. reflexivity.
Qed.

(** [streaming_after] is a state the call really goes through: a
    stream attempt whose body is [cs1 ++ cs2] continues from it with
    [cs2]. *)
Lemma stream_attempt_through query cs1 cs2 st stText failure m :
  stream_attempt (currentSessionId m) query (selectedFiles m)
    (FetchResolved (StreamResponse true st stText (cs1 ++ cs2) failure))
    (sendMessage_open query m)
  = (read_loop onMessage console_error cs2 (streaming_after query cs1 m),
     match failure with None => Return tt | Some e => Throw e end).
Proof.
  unfold stream_attempt, searchStream, streaming_after. simpl.
  rewrite read_loop_app. destruct failure; reflexivity.
Qed.

(** A call made while the flag is set returns at once. *)
Lemma sendMessage_enter_busy chatInput m :
  isStreaming m = true ->
  sendMessage_enter chatInput m = (emit (busy_notice chatInput) m, Returned).
Proof.
  intros Hs. unfold sendMessage_enter, busy_notice.
  destruct chatInput as [value|]; [|rewrite emit_nil; reflexivity].
  destruct (String.eqb (trim value) EmptyString); [rewrite emit_nil; reflexivity|].
  rewrite Hs. reflexivity.
Qed.

Lemma omap_emit {B} (f : effect -> option B) es m :
  omap f (ui (emit es m)) = omap f (ui m) ++ omap f es.
Proof. simpl. apply omap_app. Qed.
End ChatStream.

(** A call that enters while another one is streaming.  A call of
    [sendMessage] has passed its checks and is reading its stream (any
    chunks [cs1] have been read, the body has not ended).  A second call
    of [sendMessage] that is made at that point returns at once: the
    flag is set, so the call only raises the busy notification (when
    there is a query to send), opens no stream and changes neither the
    flag nor the variables of the first call.  The first call then reads
    its further chunks [cs2] exactly as it would have without the second
    call: the same transcript and sources, and the same calls added to
    the log. *)
Lemma entering_call_is_turned_away (m : ChatManager.manager) (query : string)
    (cs1 cs2 : list string) (chatInput : option string) :
  let mid := ChatManager.streaming_after query cs1 m in
  let second := ChatManager.sendMessage_enter chatInput (snd mid) in
  ChatManager.isStreaming (snd mid) = true /\
  snd second = ChatManager.Returned /\
  fst second = ChatManager.emit (ChatManager.busy_notice chatInput) (snd mid) /\
  ChatManager.opened (ChatManager.ui (fst second))
    = ChatManager.opened (ChatManager.ui (snd mid)) /\
  exists l' es,
    SearchAPI.read_loop ChatManager.onMessage ChatManager.console_error cs2 mid
      = (l', ChatManager.emit es (snd mid)) /\
    SearchAPI.read_loop ChatManager.onMessage ChatManager.console_error cs2
        (fst mid, fst second)
      = (l', ChatManager.emit es (fst second)).
Proof.
  cbv zeta.
  pose proof (streaming_after_flag query cs1 m) as Hflag.
  rewrite (sendMessage_enter_busy chatInput _ Hflag). simpl.
  repeat split; try assumption.
  - unfold ChatManager.opened. rewrite omap_app.
    unfold ChatManager.busy_notice.
    destruct chatInput as [value|]; [|apply app_nil_r].
    destruct (String.eqb (JsString.trim value) EmptyString); apply app_nil_r.
  - destruct (read_loop_emits cs2 (fst (ChatManager.streaming_after query cs1 m)))
      as (l' & es & H).
    exists l', es. split; [|apply H].
    rewrite <- H. destruct (ChatManager.streaming_after query cs1 m); reflexivity.
Qed.

Section Transcript.
Import JsString Json Http ApiClient SearchAPI ChatManager.

Lemma append_cons c a b : String c a +:+ b = String c (a +:+ b).
Proof. reflexivity. Qed.

Lemma append_assoc a b c : (a +:+ b) +:+ c = a +:+ (b +:+ c).
Proof.
  induction a as [|x a IH]; [reflexivity|].
  rewrite !append_cons, IH. reflexivity.
Qed.

Lemma append_nil_r a : a +:+ EmptyString = a.
Proof.
  induction a as [|x a IH]; [reflexivity|].
  rewrite append_cons, IH. reflexivity.
Qed.

Lemma concat_all_app fs gs :
  concat_all (fs ++ gs) = concat_all fs +:+ concat_all gs.
Proof.
  induction fs as [|f fs IH]; [reflexivity|].
  cbn [app concat_all]. rewrite IH, append_assoc. reflexivity.
Qed.

Lemma running_app init fs gs :
  running init (fs ++ gs) = running init fs ++ running (init +:+ concat_all fs) gs.
Proof.
  revert init. induction fs as [|f fs IH]; intros init.
  - cbn [app running concat_all]. rewrite append_nil_r. reflexivity.
  - cbn [app running concat_all]. rewrite IH, append_assoc. reflexivity.
Qed.

Lemma shown_emit es m : shown (ui (emit es m)) = shown (ui m) ++ shown es.
Proof. apply omap_emit. Qed.

Lemma transcribes_nil w : transcribes w w [].
Proof.
  unfold transcribes. cbn [fragments omap list_omap concat_all running].
  rewrite append_nil_r, app_nil_r. split; reflexivity.
Qed.

Lemma transcribes_app w1 w2 w3 evs1 evs2 :
  transcribes w1 w2 evs1 -> transcribes w2 w3 evs2 ->
  transcribes w1 w3 (evs1 ++ evs2).
Proof.
  unfold transcribes, fragments. intros [Ha1 Hs1] [Ha2 Hs2].
  rewrite omap_app, concat_all_app, running_app.
  rewrite Ha2, Hs2, Ha1, Hs1, append_assoc, app_assoc. split; reflexivity.
Qed.

(** The console message of a skipped line shows nothing. *)
Lemma transcribes_console_error w w' evs :
  transcribes w w' evs -> transcribes w (console_error w') evs.
Proof.
  unfold transcribes, console_error. intros [Ha Hs].
  cbn [fst snd]. rewrite shown_emit, Ha, Hs.
  cbn [shown omap list_omap]. rewrite app_nil_r. split; reflexivity.
Qed.

(** One event: a [content] event appends its fragment and shows the
    transcript so far; any other event leaves the transcript alone and
    shows nothing of it. *)
Lemma onMessage_transcribes data w :
  transcribes w (fst (onMessage data w)) [data].
Proof.
  destruct w as [l m].
  unfold transcribes, fragments. cbn [omap list_omap].
  unfold onMessage, fragment.
  assert (Hsame : forall b : bool,
    assistantMessage (fst (fst (l, m, b)))
      = assistantMessage (fst (l, m)) +:+ concat_all [] /\
    shown (ui (snd (fst (l, m, b))))
      = shown (ui (snd (l, m))) ++ running (assistantMessage (fst (l, m))) []).
  { intros b. cbn [fst snd concat_all running].
    rewrite append_nil_r, app_nil_r. split; reflexivity. }
  destruct data; try apply Hsame.
  destruct (prop "type" (JObject members)) as [[| | |t| |]|]; try apply Hsame.
  destruct (String.eqb_spec t "content") as [->|Hne].
  - cbn [String.eqb Ascii.eqb Bool.eqb fst snd assistantMessage concat_all running].
    simpl. rewrite append_nil_r. split; [reflexivity|].
    unfold shown. rewrite omap_app. reflexivity.
  - repeat match goal with
           | |- context [if String.eqb t ?x then _ else _] =>
               destruct (String.eqb t x)
           end;
      try apply Hsame;
      cbn [fst snd assistantMessage concat_all running];
      rewrite ?shown_emit; cbn [shown omap list_omap];
      rewrite ?append_nil_r, ?app_nil_r; split; reflexivity.
Qed.

(** Any sequence of events handed to the callback. *)
Lemma deliver_transcribes events w :
  transcribes w (deliver events w) events.
Proof.
  revert w. induction events as [|data events IH]; intros w.
  - apply transcribes_nil.
  - cbn [deliver].
    apply (transcribes_app w _ _ [data] events (onMessage_transcribes data w)).
    apply IH.
Qed.

(** The recording subscriber only adds to what it has seen. *)
Lemma for_lines_record lines seen :
  for_lines record_event id lines seen
    = seen ++ for_lines record_event id lines [].
Proof.
  revert seen. induction lines as [|line lines IH]; intros seen.
  - cbn [for_lines]. rewrite app_nil_r. reflexivity.
  - cbn [for_lines]. rewrite IH, (IH (on_line _ _ _ [])).
    unfold on_line. destruct (startsWith line "data: ").
    + destruct (parse (slice 6 line)) as [data|]; cbn [record_event id].
      * rewrite app_assoc. reflexivity.
      * reflexivity.
    + reflexivity.
Qed.

Lemma read_loop_record cs seen :
  read_loop record_event id cs seen = seen ++ received cs.
Proof.
  unfold received. revert seen. induction cs as [|c cs IH]; intros seen.
  - cbn [read_loop]. rewrite app_nil_r. reflexivity.
  - cbn [read_loop]. rewrite IH, (IH (on_chunk _ _ _ [])).
    unfold on_chunk. rewrite for_lines_record, app_assoc. reflexivity.
Qed.

Lemma on_line_transcribes line w :
  transcribes w (on_line onMessage console_error line w)
    (on_line record_event id line []).
Proof.
  unfold on_line. destruct (startsWith line "data: "); [|apply transcribes_nil].
  destruct (parse (slice 6 line)) as [data|].
  - pose proof (onMessage_transcribes data w) as H.
    destruct (onMessage data w) as [w' threw]. cbn [fst] in H.
    cbn [record_event app]. destruct threw; [apply transcribes_console_error|]; exact H.
  - apply transcribes_console_error, transcribes_nil.
Qed.

Lemma for_lines_transcribes lines w :
  transcribes w (for_lines onMessage console_error lines w)
    (for_lines record_event id lines []).
Proof.
  revert w. induction lines as [|line lines IH]; intros w.
  - apply transcribes_nil.
  - cbn [for_lines]. rewrite for_lines_record.
    exact (transcribes_app _ _ _ _ _ (on_line_transcribes line w) (IH _)).
Qed.

(** The stream as it is read: whatever the chunking, the transcript
    grows by the fragments of the events that were dispatched. *)
Lemma read_loop_transcribes cs w :
  transcribes w (read_loop onMessage console_error cs w) (received cs).
Proof.
  revert w. induction cs as [|c cs IH]; intros w.
  - apply transcribes_nil.
  - unfold received. cbn [read_loop]. rewrite read_loop_record.
    exact (transcribes_app _ _ _ _ _ (for_lines_transcribes _ w) (IH _)).
Qed.
End Transcript.

(** C9, the case that fails: a stream that is run a second time.  The
    exported [searchStream] is the retrier's wrapper and the callback
    keeps its variables from one attempt to the next.  The first attempt
    delivers [start] and [content("A")] and then its read fails with an
    error the retrier accepts; the second attempt delivers exactly
    [start], [content("A")], [content("B")], [done].  The transcript
    handed over at [done] is ["AAB"]. *)
Lemma C9_retried_stream_repeats :
  let line := fun s => JsString.js s +:+ JsString.nl in
  let again :=
    [line "data: {'type':'start'}";
     line "data: {'type':'content','content':'A'}";
     line "data: {'type':'content','content':'B'}";
     line "data: {'type':'done'}"] in
  let attempts := fun i : nat =>
    match i with
    | O => Http.FetchResolved (Http.StreamResponse true 200 "OK"
             [line "data: {'type':'start'}";
              line "data: {'type':'content','content':'A'}"]
             (Some (Http.Error "TypeError" "network timeout")))
    | _ => Http.FetchResolved (Http.StreamResponse true 200 "OK" again None)
    end in
  let m' := ChatManager.sendMessage_stream "question" attempts
              (ChatManager.Manager (Some (Json.JNumber "5")) false [] []) in
  SearchAPI.received again =
    [SearchAPI.ev_start; SearchAPI.ev_content "A"; SearchAPI.ev_content "B";
     SearchAPI.ev_done] /\
  ChatManager.opened (ChatManager.ui m') = ["question"; "question"]%string /\
  ChatManager.shown (ChatManager.ui m') = ["A"; "AA"; "AAB"]%string /\
  ChatManager.finalized (ChatManager.ui m') = ["AAB"%string] /\
  "AAB"%string <> "AB"%string.
Proof.
  cbv zeta. repeat split; try (vm_compute; reflexivity). discriminate.
Qed.

(** C9: for any sequence of events, handed to the callback directly or
    read from a stream in any chunking, the transcript afterwards is
    the transcript held before them followed by their [content]
    fragments put together in order, and each call of
    [updateStreamingMessage] carries the whole transcript as it stood
    after that [content] event.  For [start, content("A"),
    content("B"), done] delivered to a call whose transcript is still
    empty the page is shown ["A"] and then ["AB"], and the transcript
    handed over at [done] is ["AB"]; the same holds when these events
    arrive through [sendMessage] as the lines of the stream of its first
    attempt. *)
Theorem C9_transcript_is_concatenation :
  (forall (events : list Json.json) (w : ChatManager.locals * ChatManager.manager),
      ChatManager.transcribes w (ChatManager.deliver events w) events) /\
  (forall (cs : list string) (w : ChatManager.locals * ChatManager.manager),
      ChatManager.transcribes w
        (SearchAPI.read_loop ChatManager.onMessage ChatManager.console_error cs w)
        (SearchAPI.received cs)) /\
  (forall m : ChatManager.manager,
      let w' := ChatManager.deliver
                  [SearchAPI.ev_start; SearchAPI.ev_content "A";
                   SearchAPI.ev_content "B"; SearchAPI.ev_done]
                  (ChatManager.fresh, m) in
      ChatManager.assistantMessage (fst w') = "AB"%string /\
      ChatManager.ui (snd w') =
        ChatManager.ui m ++
        [ChatManager.UpdateChatStatus (ChatManager.status_text "开始检索...");
         ChatManager.UpdateStreamingMessage "A";
         ChatManager.UpdateStreamingMessage "AB";
         ChatManager.HideTypingIndicator;
         ChatManager.FinalizeStreamingMessage "AB" (Some (Json.JArray []));
         ChatManager.UpdateChatStatus (ChatManager.status_text "准备就绪")]) /\
  (let m := ChatManager.Manager (Some (Json.JNumber "5")) false [] [] in
   let body := [JsString.js "data: {'type':'start'}" +:+ JsString.nl;
                JsString.js "data: {'type':'content','content':'A'}" +:+ JsString.nl
                +:+ JsString.js "data: {'type':'content','content':'B'}" +:+ JsString.nl;
                JsString.js "data: {'type':'done'}" +:+ JsString.nl] in
   let m' := ChatManager.sendMessage id (Some "question"%string)
               (fun _ => Http.FetchResolved (Http.StreamResponse true 200 "OK" body None)) m in
   ChatManager.shown (ChatManager.ui m') = ["A"; "AB"]%string /\
   ChatManager.finalized (ChatManager.ui m') = ["AB"%string]).
Proof.
  split; [intros; apply deliver_transcribes|].
  split; [intros; apply read_loop_transcribes|]. split.
  - intros m. cbv zeta. simpl. unfold ChatManager.emit. simpl.
    split; [reflexivity|]. rewrite <- !app_assoc. reflexivity.
  - vm_compute. split; reflexivity.
Qed.

(* --------------------------------------------------------------------- *)
(** *** The status monitor *)
(* --------------------------------------------------------------------- *)

Section StatusMonitor.
Import JsString Json Http ApiClient FileManager Scenario.
Variable server : nat -> exchange.

(** An attempt that succeeds ends the retrier's loop at once. *)
Lemma loop_success {W A : Type} (r : RequestRetrier.retrier)
    (requestFn : nat -> W -> W * outcome A) (wait_ : Z -> W -> W)
    left i last w w1 a :
  requestFn i w = (w1, Return a) ->
  RequestRetrier.loop r requestFn wait_ (S left) i last w
    = (w1, RequestRetrier.Fulfilled a).
Proof. intros H. cbn [RequestRetrier.loop]. rewrite H. reflexivity. Qed.

(** A status request that is answered at the first attempt. *)
Lemma getFileStatus_answered fileId sel c t ts k lg v :
  request (result (server k)) = Return (Parsed v) ->
  getFileStatus server fileId (World sel c t ts k lg) =
  (World sel c (t + latency (server k)) ts (S k)
     (lg ++ [HttpRequest t "GET" (baseURL +:+ status_url fileId)]),
   RequestRetrier.Fulfilled (Parsed v)).
Proof.
  intros Hreq. unfold getFileStatus, RequestRetrier.execute.
  apply loop_success.
  unfold status_attempt, http, set_status_requests, set_now, emit.
  cbn [status_requests now selectedFiles cache timers log].
  rewrite Hreq. reflexivity.
Qed.

(** What [checkStatus] does with a reply that reports state [st]. *)
Lemma checkStatus_reports st fileId sel c t ts k lg :
  reports (server k) st ->
  checkStatus server fileId (World sel c t ts k lg) =
  on_status st fileId
    (World sel c (t + latency (server k)) ts (S k)
       (lg ++ [HttpRequest t "GET" (baseURL +:+ status_url fileId)])).
Proof.
  intros (v & d & Hreq & Hv & Hs & Hd & Hp).
  unfold checkStatus. rewrite (getFileStatus_answered _ _ _ _ _ _ _ v Hreq).
  unfold member.
  destruct v; try contradiction; rewrite ?Hs; try discriminate Hd.
  rewrite Hd. destruct d; try discriminate Hp.
  rewrite Hp. reflexivity.
Qed.

Lemma on_status_processing fileId sel c t ts k lg :
  on_status "processing" fileId (World sel c t ts k lg) =
  World sel c t (ts ++ [(t + 3000, fileId)]) k (lg ++ [SetTimeout 3000]).
Proof. reflexivity. Qed.

Lemma on_status_completed fileId sel c t ts k lg :
  on_status "completed" fileId (World sel c t ts k lg) =
  World ∅ c t ts k
    ((lg ++ [NotificationSuccess "处理完成"
               "文件内容分析完成，现在可以进行智能检索了"])
        ++ [UpdateSelectionUI; LoadFileList]).
Proof. reflexivity. Qed.

(** One turn of the timer loop when a single timer is set. *)
Lemma run_timers_single fuel due fileId sel c t k lg :
  run_timers server (S fuel) (World sel c t [(due, fileId)] k lg) =
  run_timers server fuel
    (checkStatus server fileId (World sel c (Z.max t due) [] k lg)).
Proof. reflexivity. Qed.

Lemma run_timers_idle fuel sel c t k lg :
  run_timers server fuel (World sel c t [] k lg) = World sel c t [] k lg.
Proof. destruct fuel; reflexivity. Qed.
End StatusMonitor.

(** C8: a job whose status replies are [processing], [processing],
    [processing], [completed].  From a state with no timer set,
    [monitorFileProcessing] sets the first check for 2000 ms later; each
    [processing] reply sets the next check for 3000 ms after the reply;
    the [completed] reply raises the one notification and refreshes the
    list.  In all, four status requests are sent, at the instants
    given, one notification is raised, and no timer is left, however
    long the timer loop is run. *)
Theorem C8_four_checks_one_notification
    (server : nat -> FileManager.exchange) (fileId : string)
    (w : FileManager.world) (extra : nat) :
  FileManager.timers w = [] ->
  let k := FileManager.status_requests w in
  Scenario.reports (server k) "processing" ->
  Scenario.reports (server (S k)) "processing" ->
  Scenario.reports (server (S (S k))) "processing" ->
  Scenario.reports (server (S (S (S k)))) "completed" ->
  let t0 := FileManager.now w + 2000 in
  let t1 := t0 + FileManager.latency (server k) + 3000 in
  let t2 := t1 + FileManager.latency (server (S k)) + 3000 in
  let t3 := t2 + FileManager.latency (server (S (S k))) + 3000 in
  let url := FileManager.baseURL +:+ FileManager.status_url fileId in
  let w' := FileManager.run_timers server (4 + extra)
              (FileManager.monitorFileProcessing fileId w) in
  FileManager.log w' =
    FileManager.log w ++
    [FileManager.SetTimeout 2000;
     FileManager.HttpRequest t0 "GET" url; FileManager.SetTimeout 3000;
     FileManager.HttpRequest t1 "GET" url; FileManager.SetTimeout 3000;
     FileManager.HttpRequest t2 "GET" url; FileManager.SetTimeout 3000;
     FileManager.HttpRequest t3 "GET" url;
     FileManager.NotificationSuccess "处理完成"
       "文件内容分析完成，现在可以进行智能检索了";
     FileManager.UpdateSelectionUI; FileManager.LoadFileList] /\
  FileManager.status_requests w' = (k + 4)%nat /\
  FileManager.status_checks (FileManager.log w')
    = FileManager.status_checks (FileManager.log w) ++ [t0; t1; t2; t3] /\
  FileManager.notifications (FileManager.log w')
    = FileManager.notifications (FileManager.log w) ++
      [FileManager.NotificationSuccess "处理完成"
         "文件内容分析完成，现在可以进行智能检索了"] /\
  FileManager.timers w' = [].
Proof.
  destruct w as [sel c t ts k lg]. cbv zeta.
  cbn [FileManager.timers FileManager.status_requests FileManager.now FileManager.log].
  intros -> H0 H1 H2 H3.
  change (4 + extra)%nat with (S (S (S (S extra)))).
  unfold FileManager.monitorFileProcessing, FileManager.set_timers, FileManager.emit.
  cbn [FileManager.timers FileManager.status_requests FileManager.now
       FileManager.log FileManager.selectedFiles FileManager.cache app Nat.add].
  rewrite run_timers_single, (checkStatus_reports server _ _ _ _ _ _ _ _ H0).
  rewrite on_status_processing. cbn [app].
  rewrite run_timers_single, (checkStatus_reports server _ _ _ _ _ _ _ _ H1).
  rewrite on_status_processing. cbn [app].
  rewrite run_timers_single, (checkStatus_reports server _ _ _ _ _ _ _ _ H2).
  rewrite on_status_processing. cbn [app].
  rewrite run_timers_single, (checkStatus_reports server _ _ _ _ _ _ _ _ H3).
  rewrite on_status_completed, run_timers_idle.
  cbn [FileManager.timers FileManager.status_requests FileManager.now
       FileManager.log FileManager.selectedFiles FileManager.cache app].
  rewrite !Z.max_r by lia.
  rewrite <- !app_assoc. cbn [app].
  repeat split.
  - lia.
  - unfold FileManager.status_checks. rewrite omap_app. reflexivity.
  - unfold FileManager.notifications. rewrite List.filter_app. reflexivity.
Qed.

Lemma status_reply_processing :
  Scenario.reports (Scenario.status_reply "processing") "processing".
Proof.
  eexists _, _. split; [cbv; reflexivity|].
  split; [discriminate|]. split; [reflexivity|]. split; reflexivity.
Defined.

Lemma status_reply_completed :
  Scenario.reports (Scenario.status_reply "completed") "completed".
Proof.
  eexists _, _. split; [cbv; reflexivity|].
  split; [discriminate|]. split; [reflexivity|]. split; reflexivity.
Defined.

Lemma status_reply_pending :
  Scenario.reports (Scenario.status_reply "pending") "pending".
Proof.
  eexists _, _. split; [cbv; reflexivity|].
  split; [discriminate|]. split; [reflexivity|]. split; reflexivity.
Defined.

Lemma C8_four_checks_one_notification_witness :
  let server := fun k : nat =>
    if (k <? 3)%nat then Scenario.status_reply "processing"
    else Scenario.status_reply "completed" in
  let w' := FileManager.run_timers server 4
              (FileManager.monitorFileProcessing "7"
                 (FileManager.World ∅ ∅ 0 [] 0 [])) in
  FileManager.status_checks (FileManager.log w') = [2000; 5010; 8020; 11030] /\
  FileManager.notifications (FileManager.log w')
    = [FileManager.NotificationSuccess "处理完成"
         "文件内容分析完成，现在可以进行智能检索了"] /\
  FileManager.timers w' = [].
Proof.
  cbv zeta.
  pose proof (C8_four_checks_one_notification
    (fun k : nat => if (k <? 3)%nat then Scenario.status_reply "processing"
                    else Scenario.status_reply "completed")
    "7" (FileManager.World ∅ ∅ 0 [] 0 []) 0 eq_refl
    status_reply_processing status_reply_processing status_reply_processing
    status_reply_completed) as H.
  cbv zeta in H. destruct H as (_ & _ & Hc & Hn & Ht).
  split; [exact Hc|]. split; [exact Hn|exact Ht].
Defined.

(** C10: a status check is answered with success and a
    [process_status] that is none of [processing], [completed] and
    [failed] (such as [pending] or [uploaded]).  Then the check sets no
    timer and raises no notification: all it leaves in the log is its
    request, and when no other timer was set the timer loop has nothing
    left to run. *)
Theorem C10_other_status_stops_silently
    (server : nat -> FileManager.exchange) (fileId st : string)
    (w : FileManager.world) :
  Scenario.reports (server (FileManager.status_requests w)) st ->
  st <> "processing"%string -> st <> "completed"%string -> st <> "failed"%string ->
  let w' := FileManager.checkStatus server fileId w in
  FileManager.timers w' = FileManager.timers w /\
  FileManager.log w' =
    FileManager.log w ++
    [FileManager.HttpRequest (FileManager.now w) "GET"
       (FileManager.baseURL +:+ FileManager.status_url fileId)] /\
  FileManager.notifications (FileManager.log w')
    = FileManager.notifications (FileManager.log w) /\
  (FileManager.timers w = [] ->
   forall fuel, FileManager.run_timers server fuel w' = w').
Proof.
  destruct w as [sel c t ts k lg].
  cbn [FileManager.status_requests FileManager.timers FileManager.log FileManager.now].
  intros Hr Hp Hc Hf. cbv zeta.
  rewrite (checkStatus_reports server st fileId sel c t ts k lg Hr).
  unfold FileManager.on_status.
  destruct (String.eqb_spec st "completed"); [contradiction|].
  destruct (String.eqb_spec st "failed"); [contradiction|].
  destruct (String.eqb_spec st "processing"); [contradiction|].
  cbn [FileManager.timers FileManager.log].
  repeat split.
  - unfold FileManager.notifications. rewrite List.filter_app.
    cbn [List.filter FileManager.is_notification]. apply app_nil_r.
  - intros -> fuel. apply run_timers_idle.
Qed.

Lemma C10_other_status_stops_silently_witness :
  let w := FileManager.World ∅ ∅ 0 [] 0 [] in
  let w' := FileManager.run_timers (fun _ => Scenario.status_reply "pending") 5
              (FileManager.monitorFileProcessing "7" w) in
  FileManager.log w' =
    [FileManager.SetTimeout 2000;
     FileManager.HttpRequest 2000 "GET" "/api/file/status/7?user_id=1"] /\
  FileManager.timers w' = [].
Proof.
  cbv zeta.
  pose proof (C10_other_status_stops_silently
    (fun _ => Scenario.status_reply "pending") "7" "pending"
    (FileManager.World ∅ ∅ 2000 [] 0 [FileManager.SetTimeout 2000])
    status_reply_pending ltac:(discriminate) ltac:(discriminate) ltac:(discriminate))
    as H.
  cbv zeta in H. destruct H as (Ht & Hl & _ & Hidle).
  change (FileManager.run_timers (fun _ => Scenario.status_reply "pending") 5
            (FileManager.monitorFileProcessing "7" (FileManager.World ∅ ∅ 0 [] 0 [])))
    with (FileManager.run_timers (fun _ => Scenario.status_reply "pending") 4
            (FileManager.checkStatus (fun _ => Scenario.status_reply "pending") "7"
               (FileManager.World ∅ ∅ 2000 [] 0 [FileManager.SetTimeout 2000]))).
  rewrite (Hidle eq_refl 4%nat). split; [exact Hl | exact Ht].
Defined.

(* ===================================================================== *)
(** ** Further properties *)
(* ===================================================================== *)

(* --------------------------------------------------------------------- *)
(** *** The retrier in general *)
(* --------------------------------------------------------------------- *)

Section RetrierInGeneral.
Import Http ApiClient RequestRetrier Usage.
Context {A : Type}.
Variable r : retrier.
Variable results : nat -> outcome A.

Lemma loop_traced_step left i last log :
  loop r (traced results) traced_wait (S left) i last log =
  match results i with
  | Return a => (log ++ [Call i], Fulfilled a)
  | Throw e =>
      if (i =? maxRetries r)%nat then (log ++ [Call i], RejectedWith (Some e))
      else if shouldRetry e then
        loop r (traced results) traced_wait left (S i) (Some e)
          (traced_wait (delay r * 2 ^ Z.of_nat i) (log ++ [Call i]))
      else (log ++ [Call i], RejectedWith (Some e))
  end.
Proof. cbn [loop]. unfold traced at 1. destruct (results i); reflexivity. Qed.

(** How the loop ends when it is entered at iteration [i] with the
    iterations up to [maxRetries] still to come. *)
Lemma loop_plan left i last log :
  (i + left = S (maxRetries r))%nat -> (0 < left)%nat ->
  exists k : nat,
    (i <= k <= maxRetries r)%nat /\
    fst (loop r (traced results) traced_wait left i last log)
      = log ++ plan (delay r) i (k - i) /\
    (forall j, (i <= j < k)%nat ->
       exists e, results j = Throw e /\ shouldRetry e = true) /\
    snd (loop r (traced results) traced_wait left i last log)
      = match results k with
        | Return a => Fulfilled a
        | Throw e => RejectedWith (Some e)
        end /\
    (forall e, results k = Throw e -> k = maxRetries r \/ shouldRetry e = false).
Proof.
  revert i last log. induction left as [|left IH]; intros i last log Hsum Hpos; [lia|].
  rewrite loop_traced_step.
  destruct (results i) as [a|e] eqn:Hres.
  - exists i. replace (i - i)%nat with 0%nat by lia. cbn [fst snd plan].
    rewrite Hres. split; [lia|]. split; [reflexivity|].
    split; [intros j Hj; lia|]. split; [reflexivity|].
    intros e He. discriminate.
  - destruct (Nat.eqb_spec i (maxRetries r)) as [Heq|Hne].
    + exists i. replace (i - i)%nat with 0%nat by lia. cbn [fst snd plan].
      rewrite Hres. split; [lia|]. split; [reflexivity|].
      split; [intros j Hj; lia|]. split; [reflexivity|].
      intros e' _. left. exact Heq.
    + destruct (shouldRetry e) eqn:Hretry.
      * destruct (IH (S i) (Some e)
                    (traced_wait (delay r * 2 ^ Z.of_nat i) (log ++ [Call i])))
          as (k & Hk & Hfst & Hfail & Hsnd & Hend); [lia|lia|].
        exists k. split; [lia|]. split; [|split; [|split]].
        -- rewrite Hfst. unfold traced_wait.
           replace (k - i)%nat with (S (k - S i)) by lia.
           cbn [plan]. rewrite <- !app_assoc. reflexivity.
        -- intros j Hj. destruct (Nat.eq_dec j i) as [->|Hji].
           ++ exists e. split; assumption.
           ++ apply Hfail. lia.
        -- exact Hsnd.
        -- exact Hend.
      * exists i. replace (i - i)%nat with 0%nat by lia. cbn [fst snd plan].
        rewrite Hres. split; [lia|]. split; [reflexivity|].
        split; [intros j Hj; lia|]. split; [reflexivity|].
        intros e' He'. right. congruence.
Qed.

Lemma waits_plan d i more :
  waits (plan d i more) = map (fun j => d * 2 ^ Z.of_nat j) (seq i more).
Proof.
  revert i. induction more as [|more IH]; intros i; [reflexivity|].
  cbn [plan seq map]. unfold waits in *. cbn [omap list_omap]. rewrite IH. reflexivity.
Qed.

Lemma calls_plan d i more : calls (plan d i more) = S more.
Proof.
  revert i. induction more as [|more IH]; intros i; [reflexivity|].
  cbn [plan]. unfold calls in *. cbn [omap list_omap List.length].
  rewrite IH. reflexivity.
Qed.

Lemma total_wait_plan d i more :
  total_wait (plan d i more) = d * 2 ^ Z.of_nat i * (2 ^ Z.of_nat more - 1).
Proof.
  unfold total_wait. revert i. induction more as [|more IH]; intros i.
  - cbn. lia.
  - cbn [plan]. unfold waits in *. cbn [omap list_omap foldr]. rewrite IH.
    rewrite !Nat2Z.inj_succ, !Z.pow_succ_r by lia. lia.
Qed.
End RetrierInGeneral.

(** X1: whatever the operation does, [execute] calls it [k + 1] times
    for some [k <= maxRetries], waiting [delay * 2^i] after the failed
    call [i] for each [i < k]; every call before the last failed with an
    error that [shouldRetry] accepts; the result is that of the last
    call (its value, or its error unchanged); and a last call that
    failed was the one of iteration [maxRetries] or failed with an error
    that [shouldRetry] refuses. *)
Theorem X1_execute_plan {A : Type} (r : RequestRetrier.retrier)
    (results : nat -> ApiClient.outcome A) :
  exists k : nat,
    (k <= RequestRetrier.maxRetries r)%nat /\
    fst (RequestRetrier.run r results) = Usage.plan (RequestRetrier.delay r) 0 k /\
    RequestRetrier.calls (fst (RequestRetrier.run r results)) = S k /\
    RequestRetrier.waits (fst (RequestRetrier.run r results))
      = map (fun i => RequestRetrier.delay r * 2 ^ Z.of_nat i) (seq 0 k) /\
    (forall i, (i < k)%nat ->
       exists e, results i = ApiClient.Throw e /\ RequestRetrier.shouldRetry e = true) /\
    snd (RequestRetrier.run r results)
      = match results k with
        | ApiClient.Return a => RequestRetrier.Fulfilled a
        | ApiClient.Throw e => RequestRetrier.RejectedWith (Some e)
        end /\
    (forall e, results k = ApiClient.Throw e ->
       k = RequestRetrier.maxRetries r \/ RequestRetrier.shouldRetry e = false).
Proof.
  unfold RequestRetrier.run, RequestRetrier.execute.
  destruct (loop_plan r results (S (RequestRetrier.maxRetries r)) 0 None []
              ltac:(lia) ltac:(lia)) as (k & Hk & Hfst & Hfail & Hsnd & Hend).
  rewrite Nat.sub_0_r in Hfst. cbn [app] in Hfst.
  exists k. split; [lia|]. split; [exact Hfst|]. rewrite Hfst.
  split; [apply calls_plan|]. split; [apply waits_plan|].
  split; [intros i Hi; apply Hfail; lia|]. split; assumption.
Qed.

(** X2: with a delay that is not negative, the time [execute] spends
    waiting is at most [delay * (2^maxRetries - 1)], whatever the
    operation does: 7000 ms for the default retrier. *)
Theorem X2_total_wait_bounded {A : Type} (r : RequestRetrier.retrier)
    (results : nat -> ApiClient.outcome A) :
  0 <= RequestRetrier.delay r ->
  0 <= Usage.total_wait (fst (RequestRetrier.run r results))
    <= RequestRetrier.delay r * (2 ^ Z.of_nat (RequestRetrier.maxRetries r) - 1).
Proof.
  intros Hd.
  destruct (X1_execute_plan r results) as (k & Hk & Hfst & _).
  rewrite Hfst, total_wait_plan. cbn [Z.of_nat]. rewrite Z.pow_0_r, Z.mul_1_r.
  assert (H1 : 1 <= 2 ^ Z.of_nat k) by (apply Z.pow_le_mono_r with (b := 0); lia).
  assert (H2 : 2 ^ Z.of_nat k <= 2 ^ Z.of_nat (RequestRetrier.maxRetries r))
    by (apply Z.pow_le_mono_r; lia).
  split; [apply Z.mul_nonneg_nonneg; lia|].
  apply Z.mul_le_mono_nonneg_l; lia.
Qed.

Lemma X2_total_wait_bounded_witness :
  0 <= Usage.total_wait
         (fst (RequestRetrier.run RequestRetrier.default_retrier
                 (fun _ : nat => @ApiClient.Throw unit (Http.new_Error "HTTP 500"))))
    <= 7000.
Proof.
  exact (X2_total_wait_bounded RequestRetrier.default_retrier
           (fun _ : nat => @ApiClient.Throw unit (Http.new_Error "HTTP 500"))
           ltac:(cbn; lia)).
Defined.

(* --------------------------------------------------------------------- *)
(** *** The stream reader in general *)
(* --------------------------------------------------------------------- *)

Section ReaderInGeneral.
Import JsString Json Http SearchAPI Usage.

Lemma events_of_lines_app l1 l2 :
  events_of_lines (l1 ++ l2) = events_of_lines l1 ++ events_of_lines l2.
Proof.
  unfold events_of_lines. rewrite for_lines_app, for_lines_record. reflexivity.
Qed.

Lemma events_of_skipped line : skipped_line line -> events_of_lines [line] = [].
Proof.
  unfold events_of_lines, skipped_line, for_lines, on_line.
  intros [H|H].
  - rewrite H. reflexivity.
  - destruct (startsWith line "data: "); [rewrite H|]; reflexivity.
Qed.

Lemma received_cons c cs : received (c :: cs) = events_of_lines (lines_of c) ++ received cs.
Proof.
  unfold received at 1. cbn [read_loop]. rewrite read_loop_record. reflexivity.
Qed.
End ReaderInGeneral.

(** X3: [searchStream] reads each chunk by itself: the events of a body
    delivered as the chunks [cs1] followed by the chunks [cs2] are the
    events of [cs1] followed by the events of [cs2], and the events of
    one chunk are those of its lines. *)
Theorem X3_chunks_read_independently (cs1 cs2 : list string) (c : string) :
  SearchAPI.received (cs1 ++ cs2) = SearchAPI.received cs1 ++ SearchAPI.received cs2 /\
  SearchAPI.received [c] = Usage.events_of_lines (Usage.lines_of c).
Proof.
  split.
  - unfold SearchAPI.received. rewrite read_loop_app, read_loop_record. reflexivity.
  - rewrite received_cons. apply app_nil_r.
Qed.

(** X4: a line without the [data: ] prefix, or whose text after the
    prefix is not JSON, is passed over and nothing else is lost: the
    events of the lines around it are dispatched as if it were not
    there. *)
Theorem X4_skipped_line_is_not_fatal (before after : list string) (line : string) :
  Usage.skipped_line line ->
  Usage.events_of_lines (before ++ line :: after)
    = Usage.events_of_lines (before ++ after).
Proof.
  intros H.
  change (line :: after) with ([line] ++ after).
  rewrite !events_of_lines_app, (events_of_skipped line H). reflexivity.
Qed.

Lemma X4_skipped_line_is_not_fatal_witness :
  Usage.events_of_lines
    [JsString.js "data: {'type':'start'}"; JsString.js "data: {'type':";
     JsString.js "data: {'type':'done'}"]
  = [SearchAPI.ev_start; SearchAPI.ev_done].
Proof.
  refine (eq_trans (X4_skipped_line_is_not_fatal
                      [JsString.js "data: {'type':'start'}"]
                      [JsString.js "data: {'type':'done'}"]
                      (JsString.js "data: {'type':") _) _).
  - right. vm_compute. reflexivity.
  - vm_compute. reflexivity.
Defined.

(* --------------------------------------------------------------------- *)
(** *** Server errors and the retrier *)
(* --------------------------------------------------------------------- *)

Section ServerErrors.
Import JsString Json Http ApiClient RequestRetrier.

Lemma prefix_append_r p u t :
  String.prefix p u = true -> String.prefix p (u +:+ t) = true.
Proof.
  revert p. induction u as [|a u IH]; intros p H.
  - destruct p; [|discriminate]. destruct t; reflexivity.
  - destruct p as [|b p]; [reflexivity|].
    rewrite append_cons. cbn [String.prefix] in *.
    destruct (ascii_dec b a); [|discriminate]. apply IH, H.
Qed.

Lemma includes_cons c s p :
  includes (String c s) p = String.prefix p (String c s) || includes s p.
Proof. reflexivity. Qed.

Lemma includes_append_r s t p : includes s p = true -> includes (s +:+ t) p = true.
Proof.
  induction s as [|c s IH]; intros H.
  - change (includes EmptyString p) with (String.prefix p EmptyString || false) in H.
    rewrite orb_false_r in H. destruct p; [|discriminate]. destruct t; reflexivity.
  - rewrite includes_cons in H. rewrite append_cons, includes_cons.
    apply orb_true_iff in H as [H|H]; apply orb_true_iff.
    + left. rewrite <- append_cons. apply prefix_append_r, H.
    + right. apply IH, H.
Qed.
End ServerErrors.

(** X5: a response with status 500, 502, 503 or 504 whose body carries
    no message of its own (it is not JSON, or it is a JSON object without
    a truthy [message]) makes [request] throw an error that [shouldRetry]
    accepts, whatever the status text. *)
Theorem X5_bare_5xx_is_retried (st : Z) (stText : string) (ct : option string)
    (body : string) :
  st = 500 \/ st = 502 \/ st = 503 \/ st = 504 ->
  (Json.parse body = None \/
   exists ms, Json.parse body = Some (Json.JObject ms) /\
              ApiClient.truthy (Json.lookup_member "message" ms) = false) ->
  exists e,
    ApiClient.request (ApiClient.Resolved (ApiClient.Response false st stText ct body))
      = ApiClient.Throw e /\
    Http.message e = Http.http_message st stText /\
    RequestRetrier.shouldRetry e = true.
Proof.
  intros Hst Hbody.
  exists (Http.new_Error (Http.http_message st stText)).
  split; [|split; [reflexivity|]].
  - unfold ApiClient.request, ApiClient.status_error.
    cbn [ApiClient.ok negb ApiClient.body ApiClient.status ApiClient.statusText].
    destruct Hbody as [Hp|(ms & Hp & Hm)]; rewrite Hp; cbn [default from_option id].
    + reflexivity.
    + cbn [Json.prop]. rewrite Hm. reflexivity.
  - unfold RequestRetrier.shouldRetry, Http.http_message. cbn [Http.message Http.new_Error].
    assert (Hinc : forall p, JsString.includes ("HTTP " +:+ pretty st +:+ ": ") p = true ->
              JsString.includes ("HTTP " +:+ pretty st +:+ ": " +:+ stText) p = true).
    { intros p Hp.
      replace ("HTTP " +:+ pretty st +:+ ": " +:+ stText)
        with (("HTTP " +:+ pretty st +:+ ": ") +:+ stText)
        by (rewrite !append_assoc; reflexivity).
      apply includes_append_r, Hp. }
    destruct Hst as [-> | [-> | [-> | ->]]].
    + rewrite (Hinc "500"%string) by (vm_compute; reflexivity).
      rewrite !orb_true_r. reflexivity.
    + rewrite (Hinc "502"%string) by (vm_compute; reflexivity).
      rewrite !orb_true_r. reflexivity.
    + rewrite (Hinc "503"%string) by (vm_compute; reflexivity).
      rewrite !orb_true_r. reflexivity.
    + rewrite (Hinc "504"%string) by (vm_compute; reflexivity).
      rewrite !orb_true_r. reflexivity.
Qed.

Lemma X5_bare_5xx_is_retried_witness :
  exists e,
    ApiClient.request
      (ApiClient.Resolved (ApiClient.Response false 502 "Bad Gateway" None "<html>"))
      = ApiClient.Throw e /\
    Http.message e = "HTTP 502: Bad Gateway"%string /\
    RequestRetrier.shouldRetry e = true.
Proof.
  exact (X5_bare_5xx_is_retried 502 "Bad Gateway" None "<html>"
           (or_intror (or_introl eq_refl)) (or_introl eq_refl)).
Defined.

(* --------------------------------------------------------------------- *)
(** *** The cache in general *)
(* --------------------------------------------------------------------- *)

(** What a lookup returns depends on the entry of its key only. *)
Lemma get_value_of_entry (k : string) (t : Z) (c1 c2 : gmap string CacheManager.item) :
  c1 !! k = c2 !! k ->
  fst (CacheManager.get k t c1) = fst (CacheManager.get k t c2).
Proof.
  intros H. unfold CacheManager.get. rewrite H.
  destruct (c2 !! k) as [it|]; [|reflexivity].
  destruct (t >? CacheManager.expireTime it); reflexivity.
Qed.

(** X6: the keys of the cache are independent, and removal is
    immediate.  Storing, looking up or deleting [k] leaves the entry of
    any other key [k'] as it was, so a lookup of [k'] gives the same
    value before and after; after [delete(k)] or [clear()] a lookup of
    [k] returns [null] at any instant and changes nothing. *)
Theorem X6_cache_keys_independent (k k' : string) (v : Json.json)
    (ttl : option Z) (now t : Z) (c : gmap string CacheManager.item) :
  k <> k' ->
  CacheManager.set k v ttl now c !! k' = c !! k' /\
  snd (CacheManager.get k t c) !! k' = c !! k' /\
  CacheManager.delete_ k c !! k' = c !! k' /\
  fst (CacheManager.get k' t (CacheManager.set k v ttl now c))
    = fst (CacheManager.get k' t c) /\
  fst (CacheManager.get k' t (snd (CacheManager.get k now c)))
    = fst (CacheManager.get k' t c) /\
  CacheManager.get k t (CacheManager.delete_ k c)
    = (Json.JNull, CacheManager.delete_ k c) /\
  CacheManager.get k t (CacheManager.clear c) = (Json.JNull, ∅).
Proof.
  intros Hne.
  assert (Hset : CacheManager.set k v ttl now c !! k' = c !! k')
    by (unfold CacheManager.set; apply lookup_insert_ne, Hne).
  assert (Hget : forall t0, snd (CacheManager.get k t0 c) !! k' = c !! k').
  { intros t0. unfold CacheManager.get. destruct (c !! k) as [it|]; [|reflexivity].
    destruct (t0 >? CacheManager.expireTime it); [|reflexivity].
    apply lookup_delete_ne, Hne. }
  split; [exact Hset|]. split; [apply Hget|].
  split; [unfold CacheManager.delete_; apply lookup_delete_ne, Hne|].
  split; [apply get_value_of_entry, Hset|].
  split; [apply get_value_of_entry, Hget|].
  split.
  - unfold CacheManager.get, CacheManager.delete_. rewrite lookup_delete_eq. reflexivity.
  - unfold CacheManager.get, CacheManager.clear. rewrite lookup_empty. reflexivity.
Qed.

Lemma X6_cache_keys_independent_witness :
  fst (CacheManager.get "b" 5
         (CacheManager.set "a" (Json.JString "x") None 0
            (CacheManager.set "b" (Json.JString "y") None 0 ∅)))
  = fst (CacheManager.get "b" 5 (CacheManager.set "b" (Json.JString "y") None 0 ∅)).
Proof.
  exact (proj1 (proj2 (proj2 (proj2
    (X6_cache_keys_independent "a" "b" (Json.JString "x") None 0 5
       (CacheManager.set "b" (Json.JString "y") None 0 ∅) ltac:(discriminate)))))).
Defined.

(** X7: [withCache].  A cached value that has not expired and is truthy
    is returned as it is, whatever the request would have given, and the
    cache stays as it was.  A cached value that is falsy ([null],
    [false], [0], the empty text) is never served: the request's result
    is returned and stored in its place.  When nothing usable is cached
    and the request fails, the error is passed on and nothing is stored
    for the key. *)
Theorem X7_withCache_hit_falsy_error (key : string) (d : Json.json) (expire : Z)
    (fetched : ApiClient.outcome Json.json) (ttl : option Z) (now later : Z)
    (c : gmap string CacheManager.item) :
  c !! key = Some (CacheManager.Item d expire) -> now <= expire ->
  (ApiClient.truthy (Some d) = true ->
   CacheManager.withCache key fetched ttl now later c = (ApiClient.Return d, c)) /\
  (ApiClient.truthy (Some d) = false ->
   forall d', fetched = ApiClient.Return d' ->
     CacheManager.withCache key fetched ttl now later c
       = (ApiClient.Return d', CacheManager.set key d' ttl later c)) /\
  (forall e c0, c0 !! key = None ->
     CacheManager.withCache key (ApiClient.Throw e) ttl now later c0
       = (ApiClient.Throw e, c0)).
Proof.
  intros Hc Hnow. unfold CacheManager.withCache, CacheManager.get.
  rewrite Hc. cbn [CacheManager.expireTime CacheManager.data].
  destruct (Z.gtb_spec now expire) as [Hgt|_]; [lia|].
  split; [intros Ht; rewrite Ht; reflexivity|].
  split; [intros Hf d' ->; rewrite Hf; reflexivity|].
  intros e c0 H0. rewrite H0. reflexivity.
Qed.

Lemma X7_withCache_hit_falsy_error_witness :
  let c := CacheManager.set "k" (Json.JNumber "0") None 0 ∅ in
  CacheManager.withCache "k" (ApiClient.Return (Json.JNumber "7")) None 10 20 c
  = (ApiClient.Return (Json.JNumber "7"),
     CacheManager.set "k" (Json.JNumber "7") None 20 c).
Proof.
  cbv zeta.
  refine (proj1 (proj2 (X7_withCache_hit_falsy_error "k" (Json.JNumber "0") 300000
            (ApiClient.Return (Json.JNumber "7")) None 10 20
            (CacheManager.set "k" (Json.JNumber "0") None 0 ∅) _ _)) eq_refl _ eq_refl).
  - unfold CacheManager.set. rewrite lookup_insert_eq. reflexivity.
  - lia.
Defined.

(* --------------------------------------------------------------------- *)
(** *** The interceptor in general *)
(* --------------------------------------------------------------------- *)

(** X9: [cancelAll] cancels nothing.  Caller [a] has a request in
    flight for [key]; [cancelAll] is called; caller [b] then calls for the
    same key.  The entry being gone, [b] starts a second network call.
    When the first request settles, [a] still receives its outcome, and
    the deletion attached to the first request removes the entry that now
    belongs to the second: the second request is still pending but no
    longer registered, so a third caller starts a third network call. *)
Theorem X9_cancelAll_cancels_nothing (w : Promise.world) (key : string)
    (a b c : nat) (o : ApiClient.outcome ApiClient.payload) :
  RequestInterceptor.cancelDuplicate key w = None ->
  Promise.jobs w = [] ->
  let first := RequestInterceptor.call_through key a w in
  let second := RequestInterceptor.call_through key b
                  (RequestInterceptor.cancelAll (snd first)) in
  let settled := Promise.drain (Promise.settle (fst first) o (snd second)) in
  let third := RequestInterceptor.call_through key c settled in
  fst second <> fst first /\
  Promise.log (snd second)
    = Promise.log w ++ [Promise.NetworkCall key; Promise.NetworkCall key] /\
  Promise.log settled
    = Promise.log (snd second) ++ [Promise.Deleted key; Promise.Delivered a o] /\
  Promise.promises settled !! fst second
    = Some (Promise.Pending [Promise.DeleteFromQueue key; Promise.Deliver b]) /\
  RequestInterceptor.cancelDuplicate key settled = None /\
  Promise.log (snd third) = Promise.log settled ++ [Promise.NetworkCall key].
Proof.
  destruct w as [ps js q lg]. unfold RequestInterceptor.cancelDuplicate.
  cbn [Promise.requestQueue Promise.jobs Promise.log]. intros Hq ->. cbv zeta.
  rewrite (call_through_fresh key a ps q lg Hq). cbn [fst snd].
  unfold RequestInterceptor.cancelAll, Promise.set_requestQueue.
  cbn [Promise.promises Promise.jobs Promise.requestQueue Promise.log].
  rewrite (call_through_fresh key b _ ∅ _ (lookup_empty key)). cbn [fst snd].
  set (p1 := Promise.Pending [Promise.DeleteFromQueue key; Promise.Deliver a]).
  set (p2 := Promise.Pending [Promise.DeleteFromQueue key; Promise.Deliver b]).
  assert (Hlook1 : ((ps ++ [p1]) ++ [p2]) !! List.length ps = Some p1).
  { rewrite <- app_assoc. apply list_lookup_middle. reflexivity. }
  assert (Hins : <[List.length ps := Promise.Settled o]> ((ps ++ [p1]) ++ [p2])
                 = (ps ++ [Promise.Settled o]) ++ [p2]).
  { rewrite <- !app_assoc.
    replace (List.length ps) with (List.length ps + 0)%nat by lia.
    rewrite insert_app_r. reflexivity. }
  unfold Promise.settle. cbn [Promise.promises]. rewrite Hlook1. subst p1.
  unfold Promise.drain, Promise.set_jobs, Promise.set_promises.
  cbn [Promise.promises Promise.jobs Promise.requestQueue Promise.log app map].
  rewrite Hins. cbn [fold_left Promise.run_job].
  unfold Promise.add_log, Promise.set_requestQueue.
  cbn [Promise.promises Promise.jobs Promise.requestQueue Promise.log].
  rewrite (call_through_fresh key c _ _ _ (lookup_delete_eq _ _)).
  cbn [fst snd Promise.promises Promise.jobs Promise.requestQueue Promise.log].
  split; [rewrite length_app; cbn; lia|].
  split; [rewrite <- !app_assoc; reflexivity|].
  split; [rewrite <- !app_assoc; reflexivity|].
  split.
  - replace (List.length (ps ++ [Promise.Pending
               [Promise.DeleteFromQueue key; Promise.Deliver a]]))
      with (List.length (ps ++ [Promise.Settled o]))
      by (rewrite !length_app; reflexivity).
    apply lookup_last_promise.
  - split; [apply lookup_delete_eq|reflexivity].
Qed.

Lemma X9_cancelAll_cancels_nothing_witness :
  let o := ApiClient.Return (ApiClient.Text "ok") in
  let first := RequestInterceptor.call_through "k" 1 Promise.empty_world in
  let second := RequestInterceptor.call_through "k" 2
                  (RequestInterceptor.cancelAll (snd first)) in
  let settled := Promise.drain (Promise.settle (fst first) o (snd second)) in
  Promise.log settled =
    [Promise.NetworkCall "k"; Promise.NetworkCall "k"; Promise.Deleted "k";
     Promise.Delivered 1 o] /\
  RequestInterceptor.cancelDuplicate "k" settled = None.
Proof.
  cbv zeta.
  pose proof (X9_cancelAll_cancels_nothing Promise.empty_world "k" 1 2 3
                (ApiClient.Return (ApiClient.Text "ok")) eq_refl eq_refl) as H.
  cbv zeta in H. destruct H as (_ & H2 & H3 & _ & H5 & _).
  split; [|exact H5]. rewrite H3, H2. reflexivity.
Defined.

(* --------------------------------------------------------------------- *)
(** *** The chat stream in general *)
(* --------------------------------------------------------------------- *)

Section ReaderRelation.
Import JsString Json Http SearchAPI.
Context {W : Type} (onMessage : json -> W -> W * bool) (console_error : W -> W).

(** A relation between the world before, the world after and the
    events dispatched in between, which holds of no event and composes. *)
Variable R : W -> W -> list json -> Prop.
Hypothesis R_nil : forall w, R w w [].
Hypothesis R_app :
  forall w1 w2 w3 evs1 evs2, R w1 w2 evs1 -> R w2 w3 evs2 -> R w1 w3 (evs1 ++ evs2).
Hypothesis R_onMessage : forall data w, R w (fst (onMessage data w)) [data].
Hypothesis R_console_error : forall w w' evs, R w w' evs -> R w (console_error w') evs.

Lemma on_line_related line w :
  R w (on_line onMessage console_error line w) (on_line record_event id line []).
Proof.
  unfold on_line. destruct (startsWith line "data: "); [|apply R_nil].
  destruct (parse (slice 6 line)) as [data|].
  - pose proof (R_onMessage data w) as H.
    destruct (onMessage data w) as [w' threw]. cbn [fst] in H.
    cbn [record_event app]. destruct threw; [apply R_console_error|]; exact H.
  - apply R_console_error, R_nil.
Qed.

Lemma for_lines_related lines w :
  R w (for_lines onMessage console_error lines w) (for_lines record_event id lines []).
Proof.
  revert w. induction lines as [|line lines IH]; intros w.
  - apply R_nil.
  - cbn [for_lines]. rewrite for_lines_record.
    exact (R_app _ _ _ _ _ (on_line_related line w) (IH _)).
Qed.

(** Such a relation holds of the stream as it is read, for the events
    that were dispatched. *)
Lemma read_loop_related cs w :
  R w (read_loop onMessage console_error cs w) (received cs).
Proof.
  revert w. induction cs as [|c cs IH]; intros w.
  - apply R_nil.
  - unfold received. cbn [read_loop]. rewrite read_loop_record.
    exact (R_app _ _ _ _ _ (for_lines_related _ w) (IH _)).
Qed.
End ReaderRelation.

Section ChatInGeneral.
Import JsString Json Http ApiClient SearchAPI ChatManager Usage.

Lemma streamed_nil w : streamed w w [].
Proof. exists []. rewrite emit_nil. repeat split. Qed.

Lemma streamed_app w1 w2 w3 evs1 evs2 :
  streamed w1 w2 evs1 -> streamed w2 w3 evs2 -> streamed w1 w3 (evs1 ++ evs2).
Proof.
  intros (es1 & H1 & F1 & C1) (es2 & H2 & F2 & C2).
  exists (es1 ++ es2). rewrite H2, H1, emit_emit. split; [reflexivity|].
  split; [rewrite forallb_app, F1, F2; reflexivity|].
  rewrite forallb_app. intros H. apply andb_true_iff in H as [Ha Hb].
  rewrite List.filter_app, (C1 Ha), (C2 Hb). reflexivity.
Qed.

Lemma streamed_console_error w w' evs :
  streamed w w' evs -> streamed w (console_error w') evs.
Proof.
  intros (es & H & F & C). exists (es ++ [ConsoleError]).
  unfold console_error. cbn [snd]. rewrite H, emit_emit.
  split; [reflexivity|]. split; [rewrite forallb_app, F; reflexivity|].
  intros Hn. rewrite List.filter_app, (C Hn). reflexivity.
Qed.

Lemma streamed_onMessage data w : streamed w (fst (onMessage data w)) [data].
Proof.
  destruct w as [l m]. unfold streamed, onMessage.
  assert (Hsame : forall b : bool, exists es,
    snd (fst (l, m, b)) = emit es (snd (l, m)) /\
    forallb from_stream es = true /\
    (forallb (fun d => negb (terminal d)) [data] = true -> List.filter closing es = [])).
  { intros b. exists []. cbn [fst snd]. rewrite emit_nil. repeat split. }
  destruct data; try apply Hsame.
  destruct (prop "type" (JObject members)) as [[| | |t| |]|] eqn:Ht; try apply Hsame.
  cbn [prop] in Ht.
  repeat match goal with
         | |- context [if String.eqb t ?x then _ else _] =>
             destruct (String.eqb t x) eqn:?
         end;
    try apply Hsame;
    try (exists []; cbn [fst snd]; rewrite emit_nil; repeat split; fail);
    try (eexists; cbn [fst snd]; split; [reflexivity|]; split; [reflexivity|];
         intros _; reflexivity).
  - eexists. cbn [fst snd]. split; [reflexivity|]. split; [reflexivity|].
    cbn [forallb terminal]. rewrite Ht.
    match goal with H : String.eqb t "done" = true |- _ => rewrite H end.
    cbn. discriminate.
  - eexists. cbn [fst snd]. split; [reflexivity|]. split; [reflexivity|].
    cbn [forallb terminal]. rewrite Ht.
    match goal with H : String.eqb t "error" = true |- _ => rewrite H end.
    rewrite orb_true_r. cbn. discriminate.
Qed.

Lemma read_loop_streamed cs w :
  streamed w (read_loop onMessage console_error cs w) (received cs).
Proof.
  apply (read_loop_related onMessage console_error streamed).
  - apply streamed_nil.
  - apply streamed_app.
  - apply streamed_onMessage.
  - apply streamed_console_error.
Qed.
End ChatInGeneral.

Section ChatRetries.
Import JsString Json Http ApiClient SearchAPI ChatManager Usage.

(** A failed attempt that is retried: on to the next iteration after
    the wait. *)
Lemma loop_retry_step {W A : Type} (r : RequestRetrier.retrier)
    (requestFn : nat -> W -> W * outcome A) (wait_ : Z -> W -> W)
    left i last w w1 e :
  requestFn i w = (w1, Throw e) ->
  i <> RequestRetrier.maxRetries r ->
  RequestRetrier.shouldRetry e = true ->
  RequestRetrier.loop r requestFn wait_ (S left) i last w
    = RequestRetrier.loop r requestFn wait_ left (S i) (Some e)
        (wait_ (RequestRetrier.delay r * 2 ^ Z.of_nat i) w1).
Proof.
  intros H Hi Hr. cbn [RequestRetrier.loop]. rewrite H.
  destruct (Nat.eqb_spec i (RequestRetrier.maxRetries r)); [contradiction|].
  rewrite Hr. reflexivity.
Qed.

Lemma opened_from_stream es : forallb from_stream es = true -> opened es = [].
Proof.
  induction es as [|e es IH]; [reflexivity|].
  cbn [forallb]. intros H. apply andb_true_iff in H as [He Hes].
  unfold opened in *. cbn [omap list_omap]. rewrite (IH Hes).
  destruct e; try discriminate He; reflexivity.
Qed.

(** One attempt: the stream is opened once, and whatever else is added
    to the log comes from the stream. *)
Lemma stream_attempt_emits sid query fids f w :
  exists es,
    snd (fst (stream_attempt sid query fids f w))
      = emit (OpenStream sid query fids :: es) (snd w) /\
    forallb from_stream es = true.
Proof.
  unfold stream_attempt.
  set (w0 := (fst w, emit [OpenStream sid query fids] (snd w))).
  assert (Hnone : exists es,
            snd w0 = emit (OpenStream sid query fids :: es) (snd w) /\
            forallb from_stream es = true)
    by (exists []; split; reflexivity).
  unfold searchStream. destruct f as [e|resp]; [exact Hnone|].
  destruct (negb (Http.ok resp)); [exact Hnone|].
  destruct (read_loop_streamed (Http.chunks resp) w0) as (es & Hes & Hfrom & _).
  exists es. cbn [fst snd].
  destruct (Http.read_failure resp); cbn [fst snd]; rewrite Hes; subst w0; cbn [snd];
    rewrite emit_emit; split; (reflexivity || exact Hfrom).
Qed.

(** The retrier around the attempts: between one and [left] streams
    are opened, all for the same query, and the manager changes only in
    that its log grows. *)
Lemma api_loop_emits sid query fids attempts left i last w :
  exists es,
    snd (fst (RequestRetrier.loop RequestRetrier.default_retrier
                (fun i => stream_attempt sid query fids (attempts i)) wait
                left i last w))
      = emit es (snd w) /\
    (List.length (opened es) <= left)%nat /\
    ((0 < left)%nat -> (1 <= List.length (opened es))%nat) /\
    Forall (eq query) (opened es).
Proof.
  revert i last w. induction left as [|left IH]; intros i last w.
  - exists []. cbn [RequestRetrier.loop fst snd]. rewrite emit_nil.
    repeat split; cbn; (lia || constructor).
  - cbn [RequestRetrier.loop].
    destruct (stream_attempt_emits sid query fids (attempts i) w) as (es & Hes & Hfrom).
    destruct (stream_attempt sid query fids (attempts i) w) as [w1 [u|e]];
      cbn [fst snd] in Hes.
    + exists (OpenStream sid query fids :: es). cbn [fst snd]. split; [exact Hes|].
      unfold opened. cbn [omap list_omap]. fold (opened es).
      rewrite (opened_from_stream es Hfrom). cbn.
      repeat split; try lia. repeat constructor.
    + assert (Hone : exists es0,
          snd w1 = emit es0 (snd w) /\
          (List.length (opened es0) <= S left)%nat /\
          ((0 < S left)%nat -> (1 <= List.length (opened es0))%nat) /\
          Forall (eq query) (opened es0)).
      { exists (OpenStream sid query fids :: es). split; [exact Hes|].
        unfold opened. cbn [omap list_omap]. fold (opened es).
        rewrite (opened_from_stream es Hfrom). cbn.
        repeat split; try lia. repeat constructor. }
      destruct (i =? RequestRetrier.maxRetries RequestRetrier.default_retrier)%nat;
        [exact Hone|].
      destruct (RequestRetrier.shouldRetry e); [|exact Hone].
      destruct (IH (S i) (Some e)
                  (wait (RequestRetrier.delay RequestRetrier.default_retrier
                         * 2 ^ Z.of_nat i) w1))
        as (es2 & Hes2 & Hle & _ & Hall).
      exists ((OpenStream sid query fids :: es)
              ++ Waited (RequestRetrier.delay RequestRetrier.default_retrier
                         * 2 ^ Z.of_nat i) :: es2).
      rewrite Hes2. unfold wait. cbn [snd]. rewrite Hes, !emit_emit.
      split; [reflexivity|].
      unfold opened in *. rewrite omap_app. cbn [omap list_omap].
      fold (opened es). rewrite (opened_from_stream es Hfrom).
      cbn [app List.length]. repeat split; try lia.
      constructor; [reflexivity|exact Hall].
Qed.
End ChatRetries.

(** X10: a call of [sendMessage] that starts streaming always gives
    the flag back.  Whatever the network does, when the call is over
    [isStreaming] is [false], the session and the selection are as they
    were, and between one and four streams have been requested, all for
    the query that was sent. *)
Theorem X10_stream_flag_released (query : string)
    (attempts : nat -> Http.fetch_outcome) (m : ChatManager.manager) :
  let m' := ChatManager.sendMessage_stream query attempts m in
  ChatManager.isStreaming m' = false /\
  ChatManager.currentSessionId m' = ChatManager.currentSessionId m /\
  ChatManager.selectedFiles m' = ChatManager.selectedFiles m /\
  exists es,
    ChatManager.ui m' = ChatManager.ui m ++ es /\
    (1 <= List.length (ChatManager.opened es) <= 4)%nat /\
    Forall (eq query) (ChatManager.opened es).
Proof.
  cbv zeta. unfold ChatManager.sendMessage_stream, ChatManager.api_searchStream,
    RequestRetrier.execute.
  destruct (api_loop_emits (ChatManager.currentSessionId m) query
              (ChatManager.selectedFiles m) attempts
              (S (RequestRetrier.maxRetries RequestRetrier.default_retrier)) 0 None
              (ChatManager.sendMessage_open query m))
    as (es & Hes & Hle & Hge & Hall).
  destruct (RequestRetrier.loop _ _ _ _ _ _ _) as [w res]. cbn [fst snd] in *.
  unfold ChatManager.sendMessage_close.
  assert (Hclose : exists es', 
    ChatManager.opened es' = [] /\
    match res with
    | RequestRetrier.Fulfilled _ => snd w
    | RequestRetrier.RejectedWith (Some e) =>
        ChatManager.emit
          [ChatManager.ConsoleError; ChatManager.HideTypingIndicator;
           ChatManager.ShowErrorMessage (Http.message e);
           ChatManager.UpdateChatStatus (ChatManager.status_text "发送失败")] (snd w)
    | RequestRetrier.RejectedWith None =>
        ChatManager.emit [ChatManager.ConsoleError; ChatManager.HideTypingIndicator] (snd w)
    end = ChatManager.emit es' (snd w)).
  { destruct res as [u|[e|]]; [exists []|eexists|eexists];
      (split; [|try reflexivity; rewrite emit_nil; reflexivity]); reflexivity. }
  destruct Hclose as (es' & Hop & ->). rewrite Hes.
  cbn [ChatManager.sendMessage_open snd ChatManager.set_isStreaming ChatManager.emit
       ChatManager.isStreaming ChatManager.currentSessionId ChatManager.selectedFiles
       ChatManager.ui].
  repeat split.
  eexists. split; [rewrite <- !app_assoc; reflexivity|].
  unfold ChatManager.opened in *. rewrite !omap_app, Hop, app_nil_r.
  cbn [omap list_omap app]. split; [cbn in Hle; lia|exact Hall].
Qed.

Section ResumedCalls.
Import JsString Json Http ApiClient SearchAPI ChatManager Usage.

Lemma busy_warnings_app es1 es2 :
  busy_warnings (es1 ++ es2) = busy_warnings es1 ++ busy_warnings es2.
Proof. apply List.filter_app. Qed.

Lemma from_stream_quiet es : forallb from_stream es = true -> busy_warnings es = [].
Proof.
  induction es as [|e es IH]; [reflexivity|].
  cbn [forallb]. intros H. apply andb_true_iff in H as [He Hes].
  unfold busy_warnings in *. cbn [List.filter]. rewrite (IH Hes).
  destruct e; try discriminate He; reflexivity.
Qed.

(** The retrier around the stream attempts raises no busy
    notification. *)
Lemma api_loop_quiet sid query fids attempts left i last w :
  exists es,
    snd (fst (RequestRetrier.loop RequestRetrier.default_retrier
                (fun i => stream_attempt sid query fids (attempts i)) wait
                left i last w))
      = emit es (snd w) /\
    busy_warnings es = [].
Proof.
  revert i last w. induction left as [|left IH]; intros i last w.
  - exists []. cbn [RequestRetrier.loop fst snd]. rewrite emit_nil. split; reflexivity.
  - cbn [RequestRetrier.loop].
    destruct (stream_attempt_emits sid query fids (attempts i) w) as (es & Hes & Hfrom).
    assert (Hone : busy_warnings (OpenStream sid query fids :: es) = [])
      by (unfold busy_warnings; cbn [List.filter]; exact (from_stream_quiet es Hfrom)).
    destruct (stream_attempt sid query fids (attempts i) w) as [w1 [u|e]];
      cbn [fst snd] in Hes.
    + eexists. split; [exact Hes|exact Hone].
    + destruct (i =? RequestRetrier.maxRetries RequestRetrier.default_retrier)%nat;
        [eexists; split; [exact Hes|exact Hone]|].
      destruct (RequestRetrier.shouldRetry e); [|eexists; split; [exact Hes|exact Hone]].
      destruct (IH (S i) (Some e)
                  (wait (RequestRetrier.delay RequestRetrier.default_retrier
                         * 2 ^ Z.of_nat i) w1))
        as (es2 & Hes2 & Hquiet).
      exists ((OpenStream sid query fids :: es)
              ++ Waited (RequestRetrier.delay RequestRetrier.default_retrier
                         * 2 ^ Z.of_nat i) :: es2).
      rewrite Hes2. unfold wait. cbn [snd]. rewrite Hes, !emit_emit.
      split; [reflexivity|].
      rewrite busy_warnings_app, Hone.
      unfold busy_warnings in *. cbn [List.filter app]. exact Hquiet.
Qed.

(** The retrier entered: the first thing it does is open the stream. *)
Lemma api_loop_opens sid query fids attempts left i last w :
  exists rest,
    snd (fst (RequestRetrier.loop RequestRetrier.default_retrier
                (fun i => stream_attempt sid query fids (attempts i)) wait
                (S left) i last w))
      = emit (OpenStream sid query fids :: rest) (snd w) /\
    busy_warnings rest = [].
Proof.
  cbn [RequestRetrier.loop].
  destruct (stream_attempt_emits sid query fids (attempts i) w) as (es & Hes & Hfrom).
  pose proof (from_stream_quiet es Hfrom) as Hquiet.
  destruct (stream_attempt sid query fids (attempts i) w) as [w1 [u|e]];
    cbn [fst snd] in Hes.
  - exists es. split; [exact Hes|exact Hquiet].
  - destruct (i =? RequestRetrier.maxRetries RequestRetrier.default_retrier)%nat;
      [exists es; split; [exact Hes|exact Hquiet]|].
    destruct (RequestRetrier.shouldRetry e); [|exists es; split; [exact Hes|exact Hquiet]].
    destruct (api_loop_quiet sid query fids attempts left (S i) (Some e)
                (wait (RequestRetrier.delay RequestRetrier.default_retrier
                       * 2 ^ Z.of_nat i) w1))
      as (es2 & Hes2 & Hquiet2).
    exists (es ++ Waited (RequestRetrier.delay RequestRetrier.default_retrier
                          * 2 ^ Z.of_nat i) :: es2).
    rewrite Hes2. unfold wait. cbn [snd]. rewrite Hes, !emit_emit.
    split; [reflexivity|].
    rewrite busy_warnings_app, Hquiet.
    unfold busy_warnings in *. cbn [List.filter app]. exact Hquiet2.
Qed.

(** The call from [chatInput.value = ''] to its end: what it writes
    first, that it raises no busy notification, and the fields it leaves. *)
Lemma sendMessage_stream_shape query attempts m :
  exists rest,
    sendMessage_stream query attempts m =
    Manager (currentSessionId m) false (selectedFiles m)
      (ui m ++
       [ClearInput; AutoResizeTextarea; ClearSuggestions; AddMessageToUI query;
        ShowTypingIndicator; UpdateChatStatus (status_text "正在思考...");
        OpenStream (currentSessionId m) query (selectedFiles m)] ++ rest) /\
    busy_warnings rest = [].
Proof.
  unfold sendMessage_stream, api_searchStream, RequestRetrier.execute.
  destruct (api_loop_opens (currentSessionId m) query (selectedFiles m) attempts
              (RequestRetrier.maxRetries RequestRetrier.default_retrier) 0 None
              (sendMessage_open query m))
    as (rest & Hes & Hquiet).
  destruct (RequestRetrier.loop _ _ _ _ _ _ _) as [w res]. cbn [fst snd] in *.
  unfold sendMessage_close. rewrite Hes.
  destruct res as [u|[e|]];
    [exists rest|eexists (rest ++ _)|eexists (rest ++ _)];
    unfold sendMessage_open, set_isStreaming, emit;
    cbn [snd isStreaming currentSessionId selectedFiles ui];
    (split; [rewrite <- ?app_assoc; cbn [app]; reflexivity|]);
    rewrite ?busy_warnings_app, ?Hquiet; reflexivity.
Qed.

(** While the chunks are read the session is the one the call was made
    with. *)
Lemma streaming_after_session query cs m :
  currentSessionId (snd (streaming_after query cs m)) = currentSessionId m /\
  selectedFiles (snd (streaming_after query cs m)) = selectedFiles m.
Proof.
  unfold streaming_after.
  destruct (read_loop_emits cs (fst (sendMessage_open query m))) as (l' & es & H).
  rewrite H. split; reflexivity.
Qed.

(** The call that had to create a session is the entry followed by
    the resumption. *)
Lemma sendMessage_through_createNewSession createNewSession chatInput attempts m m1 query :
  sendMessage_enter chatInput m = (m1, NeedSession query) ->
  sendMessage createNewSession chatInput attempts m
  = sendMessage_resume query attempts (createNewSession m1).
Proof. intros H. unfold sendMessage, sendMessage_resume. rewrite H. reflexivity. Qed.
End ResumedCalls.

(** C7: the busy check is made once, before [await
    this.createNewSession()], and not again when the call goes on.  A
    first call is reading its stream on the current session (the flag is
    set; any chunks [cs1] have been read).  A call that was waiting in
    [createNewSession] since before the flag was set is resumed now.  It
    finds a session, so it goes on: it clears the input, shows the
    question and opens a second stream on the same session, and raises no
    busy notification.  When it is over it clears the flag, although the
    first stream has not ended, so that a further call is let in as
    well. *)
Theorem C7_resumed_call_is_not_checked (m : ChatManager.manager)
    (q1 q2 q3 : string) (cs1 : list string) (attempts : nat -> Http.fetch_outcome) :
  ApiClient.truthy (ChatManager.currentSessionId m) = true ->
  String.eqb (JsString.trim q3) EmptyString = false ->
  let first := ChatManager.streaming_after q1 cs1 m in
  let m' := ChatManager.sendMessage_resume q2 attempts (snd first) in
  ChatManager.isStreaming (snd first) = true /\
  ChatManager.currentSessionId (snd first) = ChatManager.currentSessionId m /\
  (exists rest,
      ChatManager.ui m' =
        ChatManager.ui (snd first) ++
        [ChatManager.ClearInput; ChatManager.AutoResizeTextarea;
         ChatManager.ClearSuggestions; ChatManager.AddMessageToUI q2;
         ChatManager.ShowTypingIndicator;
         ChatManager.UpdateChatStatus (ChatManager.status_text "正在思考...");
         ChatManager.OpenStream (ChatManager.currentSessionId m) q2
           (ChatManager.selectedFiles m)] ++ rest /\
      Usage.busy_warnings rest = []) /\
  ChatManager.isStreaming m' = false /\
  ChatManager.sendMessage_enter (Some q3) m' = (m', ChatManager.Ready (JsString.trim q3)).
Proof.
  intros Hsession Hq3. cbv zeta.
  pose proof (streaming_after_flag q1 cs1 m) as Hflag.
  destruct (streaming_after_session q1 cs1 m) as [Hsid Hsel].
  split; [exact Hflag|]. split; [exact Hsid|].
  unfold ChatManager.sendMessage_resume. rewrite Hsid, Hsession. cbn [negb].
  destruct (sendMessage_stream_shape q2 attempts
              (snd (ChatManager.streaming_after q1 cs1 m))) as (rest & -> & Hquiet).
  rewrite Hsid, Hsel.
  cbn [ChatManager.ui ChatManager.isStreaming].
  split; [exists rest; split; [reflexivity|exact Hquiet]|].
  split; [reflexivity|].
  unfold ChatManager.sendMessage_enter. rewrite Hq3.
  cbn [ChatManager.isStreaming ChatManager.currentSessionId].
  rewrite Hsession. reflexivity.
Qed.

Lemma C7_resumed_call_is_not_checked_witness :
  let line := fun s => JsString.js s +:+ JsString.nl in
  let before := ChatManager.initial in
  let entered_a := ChatManager.sendMessage_enter (Some "q"%string) before in
  let entered_b := ChatManager.sendMessage_enter (Some "q"%string) (fst entered_a) in
  let m := ChatManager.set_currentSessionId (Some (Json.JNumber "5")) (fst entered_b) in
  let first := ChatManager.streaming_after "q"
                 [line "data: {'type':'start'}";
                  line "data: {'type':'content','content':'A'}"] m in
  let answer := fun _ : nat =>
    Http.FetchResolved (Http.StreamResponse true 200 "OK"
      [line "data: {'type':'start'}";
       line "data: {'type':'content','content':'B'}";
       line "data: {'type':'done'}"] None) in
  let m' := ChatManager.sendMessage_resume "q" answer (snd first) in
  snd entered_a = ChatManager.NeedSession "q" /\
  snd entered_b = ChatManager.NeedSession "q" /\
  ChatManager.isStreaming (snd first) = true /\
  ChatManager.opened (ChatManager.ui m') = ["q"; "q"]%string /\
  Usage.busy_warnings (ChatManager.ui m') = [] /\
  ChatManager.shown (ChatManager.ui m') = ["A"; "B"]%string /\
  ChatManager.isStreaming m' = false /\
  ChatManager.sendMessage_enter (Some "next"%string) m' = (m', ChatManager.Ready "next").
Proof.
  cbv zeta.
  pose proof (C7_resumed_call_is_not_checked
    (ChatManager.set_currentSessionId (Some (Json.JNumber "5")) ChatManager.initial)
    "q" "q" "next"
    [JsString.js "data: {'type':'start'}" +:+ JsString.nl;
     JsString.js "data: {'type':'content','content':'A'}" +:+ JsString.nl]
    (fun _ : nat =>
       Http.FetchResolved (Http.StreamResponse true 200 "OK"
         [JsString.js "data: {'type':'start'}" +:+ JsString.nl;
          JsString.js "data: {'type':'content','content':'B'}" +:+ JsString.nl;
          JsString.js "data: {'type':'done'}" +:+ JsString.nl] None))
    eq_refl eq_refl) as H.
  cbv zeta in H. destruct H as (Hflag & _ & _ & Hdone & Hnext).
  split; [reflexivity|]. split; [reflexivity|]. split; [exact Hflag|].
  split; [vm_compute; reflexivity|]. split; [vm_compute; reflexivity|].
  split; [vm_compute; reflexivity|]. split; [exact Hdone|exact Hnext].
Defined.

Section ChatOutcomes.
Import JsString Json Http ApiClient SearchAPI ChatManager Usage.

(** Adding effects that show no transcript keeps [transcribes]. *)
Lemma transcribes_emit w es :
  shown es = [] -> transcribes w (fst w, emit es (snd w)) [].
Proof.
  intros H. unfold transcribes. cbn [fst snd fragments omap list_omap concat_all running].
  rewrite shown_emit, H, append_nil_r, !app_nil_r. split; reflexivity.
Qed.

(** A stream attempt on a response with a good status. *)
Lemma stream_attempt_resolved sid query fids st stText cs failure w :
  stream_attempt sid query fids
    (FetchResolved (StreamResponse true st stText cs failure)) w
  = (read_loop onMessage console_error cs
       (fst w, emit [OpenStream sid query fids] (snd w)),
     match failure with None => Return tt | Some e => Throw e end).
Proof.
  unfold stream_attempt, searchStream.
  cbn [Http.ok negb Http.chunks Http.read_failure].
  destruct failure; reflexivity.
Qed.
Lemma close_fulfilled u m :
  sendMessage_close (RequestRetrier.Fulfilled u) m = set_isStreaming false m.
Proof. reflexivity. Qed.

Lemma ui_set_isStreaming b m : ui (set_isStreaming b m) = ui m.
Proof. reflexivity. Qed.
End ChatOutcomes.

(** X11: the retrier runs the whole stream again with the same
    callback, and the transcript is not started afresh.  When the first
    attempt delivers the chunks [cs0] and then fails with an error that
    [shouldRetry] accepts, and the second attempt delivers [cs1] and ends
    well, the call ends well after two stream requests, and the
    transcript shown to the user is made of the fragments of the failed
    attempt followed by those of the second. *)
Theorem X11_retry_repeats_fragments (query : string) (st0 st1 : Z)
    (t0 t1 : string) (cs0 cs1 : list string) (e : Http.error)
    (attempts : nat -> Http.fetch_outcome) (m : ChatManager.manager) :
  attempts 0%nat = Http.FetchResolved (Http.StreamResponse true st0 t0 cs0 (Some e)) ->
  RequestRetrier.shouldRetry e = true ->
  attempts 1%nat = Http.FetchResolved (Http.StreamResponse true st1 t1 cs1 None) ->
  let m' := ChatManager.sendMessage_stream query attempts m in
  ChatManager.shown (ChatManager.ui m')
    = ChatManager.shown (ChatManager.ui m)
      ++ ChatManager.running EmptyString
           (ChatManager.fragments (SearchAPI.received cs0 ++ SearchAPI.received cs1)) /\
  ChatManager.opened (ChatManager.ui m')
    = ChatManager.opened (ChatManager.ui m) ++ [query; query] /\
  ChatManager.isStreaming m' = false.
Proof.
  intros H0 Hretry H1. cbv zeta.
  unfold ChatManager.sendMessage_stream, ChatManager.api_searchStream,
    RequestRetrier.execute.
  cbn [RequestRetrier.maxRetries RequestRetrier.default_retrier].
  set (sid := ChatManager.currentSessionId m).
  set (fids := ChatManager.selectedFiles m).
  set (w := ChatManager.sendMessage_open query m).
  set (w0 := (fst w, ChatManager.emit [ChatManager.OpenStream sid query fids] (snd w))).
  set (w1 := SearchAPI.read_loop ChatManager.onMessage ChatManager.console_error cs0 w0).
  set (w2 := (fst w1,
              ChatManager.emit [ChatManager.OpenStream sid query fids]
                (ChatManager.emit [ChatManager.Waited (1000 * 2 ^ Z.of_nat 0)] (snd w1)))).
  set (w3 := SearchAPI.read_loop ChatManager.onMessage ChatManager.console_error cs1 w2).
  rewrite (loop_retry_step _ _ _ _ 0%nat None w w1 e);
    [| rewrite H0; apply stream_attempt_resolved | discriminate | exact Hretry].
  rewrite (loop_success _ _ _ _ 1%nat (Some e) _ w3 tt);
    [| rewrite H1; apply stream_attempt_resolved].
  cbn [snd]. rewrite close_fulfilled.
  assert (T01 : ChatManager.transcribes w0 w1 (SearchAPI.received cs0))
    by apply read_loop_transcribes.
  assert (T12 : ChatManager.transcribes w1 w2 []).
  { pose proof (transcribes_emit w1
      [ChatManager.Waited (1000 * 2 ^ Z.of_nat 0); ChatManager.OpenStream sid query fids]
      eq_refl) as T.
    unfold w2. rewrite emit_emit. exact T. }
  assert (T23 : ChatManager.transcribes w2 w3 (SearchAPI.received cs1))
    by apply read_loop_transcribes.
  pose proof (transcribes_app _ _ _ _ _ T01 (transcribes_app _ _ _ _ _ T12 T23)) as T.
  cbn [app] in T. destruct T as [_ Tshown].
  destruct (read_loop_streamed cs0 w0) as (es0 & E0 & F0 & _).
  destruct (read_loop_streamed cs1 w2) as (es1 & E1 & F1 & _).
  fold w1 in E0. fold w3 in E1.
  split; [|split].
  - rewrite ui_set_isStreaming, Tshown. unfold w0, w. cbn [fst snd ChatManager.sendMessage_open
      ChatManager.assistantMessage ChatManager.fresh].
    repeat (rewrite shown_emit || rewrite ui_set_isStreaming).
    cbn [ChatManager.shown omap list_omap].
    rewrite !app_nil_r. reflexivity.
  - rewrite ui_set_isStreaming, E1. unfold w2. cbn [snd]. rewrite E0. unfold w0, w.
    cbn [snd ChatManager.sendMessage_open].
    unfold ChatManager.opened.
    repeat (rewrite omap_emit || rewrite ui_set_isStreaming).
    fold (ChatManager.opened es0). fold (ChatManager.opened es1).
    rewrite (opened_from_stream es0 F0), (opened_from_stream es1 F1).
    cbn [omap list_omap]. rewrite !app_nil_r, <- !app_assoc.
    reflexivity.
  - reflexivity.
Qed.

Lemma X11_retry_repeats_fragments_witness :
  let line := fun s => JsString.js s +:+ JsString.nl in
  let attempts := fun i : nat =>
    match i with
    | O => Http.FetchResolved (Http.StreamResponse true 200 "OK"
             [line "data: {'type':'content','content':'A'}"]
             (Some (Http.Error "TypeError" "network timeout")))
    | _ => Http.FetchResolved (Http.StreamResponse true 200 "OK"
             [line "data: {'type':'content','content':'A'}";
              line "data: {'type':'content','content':'B'}"] None)
    end in
  ChatManager.shown
    (ChatManager.ui (ChatManager.sendMessage_stream "q" attempts ChatManager.initial))
  = ["A"; "AA"; "AAB"]%string.
Proof.
  cbv zeta.
  refine (eq_trans (proj1 (X11_retry_repeats_fragments "q" 200 200 "OK" "OK"
            _ _ (Http.Error "TypeError" "network timeout") _ ChatManager.initial
            eq_refl eq_refl eq_refl)) _).
  vm_compute. reflexivity.
Defined.

(** X12: a stream that ends without a [done] or [error] event.  When
    the response is good, the body ends cleanly and no event that was
    dispatched is terminal, the call is over and the flag is given back,
    but the typing indicator that [sendMessage] put up is never taken
    down, no answer is finalized and no error is shown. *)
Theorem X12_stream_without_terminal_event (query : string) (st : Z)
    (stText : string) (cs : list string) (m : ChatManager.manager) :
  forallb (fun d => negb (Usage.terminal d)) (SearchAPI.received cs) = true ->
  let m' := ChatManager.sendMessage_stream query
              (fun _ => Http.FetchResolved (Http.StreamResponse true st stText cs None)) m in
  ChatManager.isStreaming m' = false /\
  exists es,
    ChatManager.ui m' = ChatManager.ui m ++ es /\
    In ChatManager.ShowTypingIndicator es /\
    List.filter Usage.closing es = [].
Proof.
  intros Hnt. cbv zeta.
  unfold ChatManager.sendMessage_stream, ChatManager.api_searchStream,
    RequestRetrier.execute.
  cbn [RequestRetrier.maxRetries RequestRetrier.default_retrier].
  rewrite (loop_success _ _ _ _ 0%nat None _ _ tt (stream_attempt_resolved _ _ _ _ _ _ None _)).
  cbn [snd]. rewrite close_fulfilled.
  match goal with
  | |- context [SearchAPI.read_loop _ _ cs ?w0] =>
      destruct (read_loop_streamed cs w0) as (es & Hes & _ & Hclosing)
  end.
  split; [reflexivity|].
  rewrite ui_set_isStreaming, Hes. cbn [fst snd ChatManager.sendMessage_open ChatManager.emit
    ChatManager.set_isStreaming ChatManager.ui].
  eexists. split; [rewrite <- !app_assoc; reflexivity|].
  split.
  - cbn [app In]. tauto.
  - cbn [app List.filter Usage.closing]. exact (Hclosing Hnt).
Qed.

Lemma X12_stream_without_terminal_event_witness :
  let body := [JsString.js "data: {'type':'start'}" +:+ JsString.nl;
               JsString.js "data: {'type':'content','content':'A'}" +:+ JsString.nl] in
  let m' := ChatManager.sendMessage_stream "q"
              (fun _ => Http.FetchResolved (Http.StreamResponse true 200 "OK" body None))
              ChatManager.initial in
  ChatManager.isStreaming m' = false /\
  List.filter Usage.closing (ChatManager.ui m') = [].
Proof.
  cbv zeta.
  destruct (X12_stream_without_terminal_event "q" 200 "OK"
              [JsString.js "data: {'type':'start'}" +:+ JsString.nl;
               JsString.js "data: {'type':'content','content':'A'}" +:+ JsString.nl]
              ChatManager.initial eq_refl) as [Hflag (es & Hui & _ & Hcl)].
  split; [exact Hflag|]. rewrite Hui. exact Hcl.
Defined.

(* --------------------------------------------------------------------- *)
(** *** The file operations in general *)
(* --------------------------------------------------------------------- *)

Section FileOperations.
Import JsString Json Http ApiClient FileManager Usage.

Lemma requests_app es1 es2 : requests (es1 ++ es2) = (requests es1 + requests es2)%nat.
Proof. unfold requests. rewrite List.filter_app, length_app. reflexivity. Qed.

Lemma traffic_refl w : traffic w w [].
Proof. unfold traffic. rewrite app_nil_r. repeat split. Qed.

Lemma traffic_trans w1 w2 w3 es1 es2 :
  traffic w1 w2 es1 -> traffic w2 w3 es2 -> traffic w1 w3 (es1 ++ es2).
Proof.
  intros (S1 & C1 & T1 & L1 & N1) (S2 & C2 & T2 & L2 & N2).
  unfold traffic. rewrite S2, C2, T2, L2, L1, forallb_app, N1, N2, app_assoc.
  repeat split; assumption.
Qed.

(** The retrier's loop over requests that are pure traffic: between one
    and [left] requests are made, and a loop that was entered never
    fails with an undefined error. *)
Lemma loop_traffic {A : Type} (requestFn : nat -> world -> world * outcome A) :
  (forall i w, exists es,
      traffic w (fst (requestFn i w)) es /\ requests es = 1%nat) ->
  forall left i last w,
  exists es,
    traffic w (fst (RequestRetrier.loop RequestRetrier.default_retrier
                      requestFn wait left i last w)) es /\
    (requests es <= left)%nat /\
    ((0 < left)%nat -> (1 <= requests es)%nat) /\
    ((0 < left)%nat ->
     snd (RequestRetrier.loop RequestRetrier.default_retrier
            requestFn wait left i last w) <> RequestRetrier.RejectedWith None).
Proof.
  intros Hreq left. induction left as [|left IH]; intros i last w.
  - exists []. cbn [RequestRetrier.loop fst snd].
    split; [apply traffic_refl|]. repeat split; cbn; lia.
  - cbn [RequestRetrier.loop].
    destruct (Hreq i w) as (es & Htr & Hone).
    destruct (requestFn i w) as [w1 [a|e]]; cbn [fst snd] in *.
    + exists es. split; [exact Htr|]. repeat split; try lia. discriminate.
    + assert (Hstop : exists es0,
          traffic w w1 es0 /\ (requests es0 <= S left)%nat /\
          ((0 < S left)%nat -> (1 <= requests es0)%nat) /\
          ((0 < S left)%nat ->
           @RequestRetrier.RejectedWith A (Some e) <> RequestRetrier.RejectedWith None)).
      { exists es. split; [exact Htr|]. repeat split; try lia. discriminate. }
      destruct (i =? RequestRetrier.maxRetries RequestRetrier.default_retrier)%nat;
        [exact Hstop|].
      destruct (RequestRetrier.shouldRetry e); [|exact Hstop].
      set (ms := RequestRetrier.delay RequestRetrier.default_retrier * 2 ^ Z.of_nat i).
      destruct (IH (S i) (Some e) (wait ms w1)) as (es2 & Htr2 & Hle & _ & Hnone).
      assert (Hwait : traffic w1 (wait ms w1) [Waited ms])
        by (unfold traffic, wait; repeat split).
      exists (es ++ [Waited ms] ++ es2).
      split; [exact (traffic_trans _ _ _ _ _ Htr (traffic_trans _ _ _ _ _ Hwait Htr2))|].
      rewrite !requests_app. change (requests [Waited ms]) with 0%nat.
      repeat split; try lia.
      intros _.
      destruct left as [|left'].
      * cbn [RequestRetrier.loop snd]. discriminate.
      * apply Hnone. lia.
Qed.

Lemma http_traffic method url ex w :
  traffic w (fst (http method url ex w)) [HttpRequest (now w) method (baseURL +:+ url)]
  /\ requests [HttpRequest (now w) method (baseURL +:+ url)] = 1%nat.
Proof. unfold traffic, http. repeat split. Qed.

(** An exported API method: between one and four requests. *)
Lemma api_traffic method url replies w :
  exists es,
    traffic w (fst (api method url replies w)) es /\
    (1 <= requests es <= 4)%nat /\
    snd (api method url replies w) <> RequestRetrier.RejectedWith None.
Proof.
  unfold api, RequestRetrier.execute.
  destruct (loop_traffic (fun i => http method url (replies i))
              ltac:(intros i w0; eexists; apply http_traffic)
              (S (RequestRetrier.maxRetries RequestRetrier.default_retrier)) 0%nat None w)
    as (es & Htr & Hle & Hge & Hnone).
  exists es. split; [exact Htr|]. split; [cbn in Hle; lia|]. apply Hnone. lia.
Qed.
End FileOperations.

(** X13: [performDeleteFile], whatever the network does.  Between one
    and four requests are sent, the loading overlay is shown first and
    hidden last, and exactly one notification is raised.  On success the
    whole selection is emptied and the list is reloaded; on failure the
    selection is as it was.  The timers are not touched. *)
Theorem X13_delete_outcomes (fileId : Z) (replies : nat -> FileManager.exchange)
    (w : FileManager.world) :
  let w' := FileManager.performDeleteFile fileId replies w in
  exists reqs,
    forallb Usage.network reqs = true /\
    (1 <= Usage.requests reqs <= 4)%nat /\
    FileManager.timers w' = FileManager.timers w /\
    ((FileManager.log w' =
        FileManager.log w ++ [FileManager.LoadingShow "删除文件..."] ++ reqs ++
        [FileManager.NotificationSuccess "删除成功" "文件已成功删除";
         FileManager.UpdateSelectionUI; FileManager.LoadFileList;
         FileManager.LoadingHide] /\
      FileManager.selectedFiles w' = ∅)
     \/
     (exists msg,
        FileManager.log w' =
          FileManager.log w ++ [FileManager.LoadingShow "删除文件..."] ++ reqs ++
          [FileManager.ConsoleError; FileManager.NotificationError "删除失败" msg;
           FileManager.LoadingHide] /\
        FileManager.selectedFiles w' = FileManager.selectedFiles w)).
Proof.
  cbv zeta. unfold FileManager.performDeleteFile.
  match goal with
  | |- context [FileManager.api ?m ?u ?r ?x] =>
      destruct (api_traffic m u r x) as (es & (Hs & Hc & Ht & Hl & Hn) & Hcount & Hnone);
      destruct (FileManager.api m u r x) as [w2 res]
  end.
  cbn [fst snd] in *. exists es. split; [exact Hn|]. split; [exact Hcount|].
  assert (Hfail : forall e,
    FileManager.timers
      (FileManager.emit [FileManager.LoadingHide]
         (FileManager.catch_ "删除失败" (Some e) w2)) = FileManager.timers w /\
    exists msg,
      FileManager.log
        (FileManager.emit [FileManager.LoadingHide]
           (FileManager.catch_ "删除失败" (Some e) w2)) =
      FileManager.log w ++ [FileManager.LoadingShow "删除文件..."] ++ es ++
      [FileManager.ConsoleError; FileManager.NotificationError "删除失败" msg;
       FileManager.LoadingHide] /\
      FileManager.selectedFiles
        (FileManager.emit [FileManager.LoadingHide]
           (FileManager.catch_ "删除失败" (Some e) w2)) = FileManager.selectedFiles w).
  { intros e. cbn [FileManager.catch_ FileManager.emit FileManager.timers
      FileManager.log FileManager.selectedFiles].
    split; [exact Ht|]. exists (Http.message e).
    split; [rewrite Hl; cbn [FileManager.emit FileManager.log];
            rewrite <- !app_assoc; reflexivity | exact Hs]. }
  unfold FileManager.on_response.
  destruct res as [response|[e|]]; [| |contradiction].
  - destruct (FileManager.member "success" response) as [s|e].
    + destruct (ApiClient.truthy s).
      * cbn [FileManager.refreshFileList FileManager.emit FileManager.set_selectedFiles
             FileManager.timers FileManager.log FileManager.selectedFiles].
        split; [exact Ht|]. left. split; [|reflexivity].
        rewrite Hl. cbn [FileManager.emit FileManager.log].
        rewrite <- !app_assoc. reflexivity.
      * destruct (FileManager.member "message" response) as [msg|e];
          destruct (Hfail ltac:(first [exact e | exact (FileManager.error_of msg)]))
            as [Ht' Hex]; (split; [exact Ht'|right; exact Hex]).
    + destruct (Hfail e) as [Ht' Hex]. split; [exact Ht'|right; exact Hex].
  - destruct (Hfail e) as [Ht' Hex]. split; [exact Ht'|right; exact Hex].
Qed.

(* --------------------------------------------------------------------- *)
(** *** The status monitor in general *)
(* --------------------------------------------------------------------- *)

Section MonitorInGeneral.
Import JsString Json Http ApiClient FileManager Scenario Usage.
Variable server : nat -> exchange.

Lemma on_status_final st fileId sel c t ts k lg :
  st = "completed"%string \/ st = "failed"%string ->
  on_status st fileId (World sel c t ts k lg) =
  World ∅ c t ts k
    ((lg ++ [final_notification st]) ++ [UpdateSelectionUI; LoadFileList]).
Proof. intros [-> | ->]; reflexivity. Qed.

Lemma notifications_app es1 es2 :
  notifications (es1 ++ es2) = notifications es1 ++ notifications es2.
Proof. apply List.filter_app. Qed.

Lemma status_checks_app es1 es2 :
  status_checks (es1 ++ es2) = status_checks es1 ++ status_checks es2.
Proof. apply omap_app. Qed.

Lemma is_notification_final st : is_notification (final_notification st) = true.
Proof. unfold final_notification. destruct (String.eqb st "completed"); reflexivity. Qed.

Lemma status_checks_final st : status_checks [final_notification st] = [].
Proof. unfold final_notification. destruct (String.eqb st "completed"); reflexivity. Qed.

Lemma status_checks_get t url : status_checks [HttpRequest t "GET" url] = [t].
Proof. reflexivity. Qed.

Lemma status_checks_timeout ms : status_checks [SetTimeout ms] = [].
Proof. reflexivity. Qed.

Lemma notifications_get t m url : notifications [HttpRequest t m url] = [].
Proof. reflexivity. Qed.

Lemma notifications_timeout ms : notifications [SetTimeout ms] = [].
Proof. reflexivity. Qed.

Lemma notifications_final st : notifications [final_notification st] = [final_notification st].
Proof. unfold final_notification. destruct (String.eqb st "completed"); reflexivity. Qed.

(** The timer loop from a single timer, through [n] replies
    [processing] to a final one. *)
Lemma run_timers_polls (fileId st : string) :
  st = "completed"%string \/ st = "failed"%string ->
  forall n extra due sel c t k lg,
  (forall j, (j < n)%nat -> reports (server (k + j)) "processing") ->
  reports (server (k + n)) st ->
  let w' := run_timers server (S n + extra) (World sel c t [(due, fileId)] k lg) in
  status_checks (log w') = status_checks lg ++ poll_times server k (Z.max t due) n /\
  status_requests w' = (k + S n)%nat /\
  notifications (log w') = notifications lg ++ [final_notification st] /\
  timers w' = [] /\ cache w' = c.
Proof.
  intros Hst n. induction n as [|n IH]; intros extra due sel c t k lg Hproc Hfin; cbv zeta.
  - change (1 + extra)%nat with (S extra).
    rewrite Nat.add_0_r in Hfin.
    rewrite run_timers_single, (checkStatus_reports server _ _ _ _ _ _ _ _ Hfin).
    rewrite (on_status_final _ _ _ _ _ _ _ _ Hst), run_timers_idle.
    cbn [log status_requests timers cache poll_times].
    rewrite !status_checks_app, !notifications_app.
    rewrite status_checks_final, status_checks_get, notifications_get, notifications_final.
    change (status_checks [UpdateSelectionUI; LoadFileList]) with (@nil Z).
    change (notifications [UpdateSelectionUI; LoadFileList]) with (@nil effect).
    rewrite !app_nil_r.
    repeat split. lia.
  - change (S (S n) + extra)%nat with (S (S n + extra)).
    pose proof (Hproc 0%nat ltac:(lia)) as H0. rewrite Nat.add_0_r in H0.
    rewrite run_timers_single, (checkStatus_reports server _ _ _ _ _ _ _ _ H0).
    rewrite on_status_processing. cbn [app].
    specialize (IH extra (Z.max t due + latency (server k) + 3000) sel c
                  (Z.max t due + latency (server k)) (S k)
                  ((lg ++ [HttpRequest (Z.max t due) "GET" (baseURL +:+ status_url fileId)])
                     ++ [SetTimeout 3000])).
    cbv zeta in IH.
    destruct IH as (Hc & Hk & Hn & Ht & Hca).
    + intros j Hj. replace (S k + j)%nat with (k + S j)%nat by lia. apply Hproc. lia.
    + replace (S k + n)%nat with (k + S n)%nat by lia. exact Hfin.
    + rewrite Hc, Hk, Hn, Ht, Hca.
      rewrite !status_checks_app, !notifications_app.
      rewrite status_checks_get, status_checks_timeout, notifications_get,
        notifications_timeout.
      cbn [poll_times].
      rewrite !app_nil_r, <- app_assoc. cbn [app].
      replace (Z.max (Z.max t due + latency (server k))
                 (Z.max t due + latency (server k) + 3000))
        with (Z.max t due + latency (server k) + 3000) by lia.
      repeat split. lia.
Qed.

(** The retrier's loop over requests that all fail is rejected. *)
Lemma loop_all_fail {W A : Type} (r : RequestRetrier.retrier)
    (requestFn : nat -> W -> W * outcome A) (wait_ : Z -> W -> W) :
  (forall i w, exists e, snd (requestFn i w) = Throw e) ->
  forall left i last w,
  exists thrown,
    snd (RequestRetrier.loop r requestFn wait_ left i last w)
    = RequestRetrier.RejectedWith thrown.
Proof.
  intros Hfail left. induction left as [|left IH]; intros i last w.
  - eexists. reflexivity.
  - cbn [RequestRetrier.loop].
    destruct (Hfail i w) as (e & He).
    destruct (requestFn i w) as [w1 res]. cbn [snd] in He. subst res.
    destruct (i =? RequestRetrier.maxRetries r)%nat; [eexists; reflexivity|].
    destruct (RequestRetrier.shouldRetry e); [apply IH|eexists; reflexivity].
Qed.

Lemma status_attempt_traffic fileId w :
  exists es, traffic w (fst (status_attempt server fileId w)) es /\ requests es = 1%nat.
Proof.
  eexists. unfold traffic, status_attempt, http. cbn. repeat split.
Qed.

Lemma getFileStatus_traffic fileId w :
  exists es,
    traffic w (fst (getFileStatus server fileId w)) es /\
    (1 <= requests es <= 4)%nat.
Proof.
  unfold getFileStatus, RequestRetrier.execute.
  destruct (loop_traffic (fun _ => status_attempt server fileId)
              ltac:(intros i w0; apply status_attempt_traffic)
              (S (RequestRetrier.maxRetries RequestRetrier.default_retrier)) 0%nat None w)
    as (es & Htr & Hle & Hge & _).
  exists es. split; [exact Htr|]. cbn in Hle. lia.
Qed.
End MonitorInGeneral.

(** X14: a file that is reported [processing] [n] times and then
    [completed] or [failed].  From a state with no timer set, the
    monitor sends exactly [n + 1] status requests, the first 2000 ms
    after the call and each next one 3000 ms after the reply before it;
    it raises the one notification of the final state, and leaves no
    timer, however long the timer loop is run. *)
Theorem X14_monitor_polls_until_final
    (server : nat -> FileManager.exchange) (fileId st : string)
    (w : FileManager.world) (n extra : nat) :
  FileManager.timers w = [] ->
  st = "completed"%string \/ st = "failed"%string ->
  let k := FileManager.status_requests w in
  (forall j, (j < n)%nat -> Scenario.reports (server (k + j)%nat) "processing") ->
  Scenario.reports (server (k + n)%nat) st ->
  let w' := FileManager.run_timers server (S n + extra)
              (FileManager.monitorFileProcessing fileId w) in
  FileManager.status_checks (FileManager.log w') =
    FileManager.status_checks (FileManager.log w) ++
    Usage.poll_times server k (FileManager.now w + 2000) n /\
  FileManager.status_requests w' = (k + S n)%nat /\
  FileManager.notifications (FileManager.log w') =
    FileManager.notifications (FileManager.log w) ++ [Usage.final_notification st] /\
  FileManager.timers w' = [].
Proof.
  destruct w as [sel c t ts k lg]. cbv zeta.
  cbn [FileManager.timers FileManager.status_requests FileManager.now FileManager.log].
  intros -> Hst Hproc Hfin.
  unfold FileManager.monitorFileProcessing, FileManager.set_timers, FileManager.emit.
  cbn [FileManager.timers FileManager.status_requests FileManager.now
       FileManager.log FileManager.selectedFiles FileManager.cache app].
  destruct (run_timers_polls server fileId st Hst n extra (t + 2000) sel c t k
              (lg ++ [FileManager.SetTimeout 2000]) Hproc Hfin)
    as (Hc & Hk & Hn & Ht & _).
  cbv zeta in Hc, Hk, Hn, Ht.
  rewrite Hc, Hk, Hn, Ht, status_checks_app, notifications_app.
  rewrite status_checks_timeout, notifications_timeout.
  rewrite !app_nil_r. replace (Z.max t (t + 2000)) with (t + 2000) by lia.
  repeat split.
Qed.

Lemma status_reply_failed :
  Scenario.reports (Scenario.status_reply "failed") "failed".
Proof.
  eexists _, _. split; [cbv; reflexivity|].
  split; [discriminate|]. split; [reflexivity|]. split; reflexivity.
Defined.

Lemma X14_monitor_polls_until_final_witness :
  let server := fun k : nat =>
    if (k <? 5)%nat then Scenario.status_reply "processing"
    else Scenario.status_reply "failed" in
  let w' := FileManager.run_timers server 9
              (FileManager.monitorFileProcessing "7"
                 (FileManager.World ∅ ∅ 0 [] 0 [])) in
  FileManager.status_checks (FileManager.log w')
    = [2000; 5010; 8020; 11030; 14040; 17050] /\
  FileManager.notifications (FileManager.log w')
    = [FileManager.NotificationError "处理失败" "文件内容分析失败"] /\
  FileManager.timers w' = [].
Proof.
  cbv zeta.
  assert (Hproc : forall j, (j < 5)%nat ->
    Scenario.reports
      ((fun k : nat => if (k <? 5)%nat then Scenario.status_reply "processing"
                       else Scenario.status_reply "failed") (0 + j)%nat) "processing").
  { intros j Hj.
    do 5 (destruct j as [|j]; [exact status_reply_processing|]). lia. }
  pose proof (X14_monitor_polls_until_final
    (fun k : nat => if (k <? 5)%nat then Scenario.status_reply "processing"
                    else Scenario.status_reply "failed")
    "7" "failed" (FileManager.World ∅ ∅ 0 [] 0 []) 5 3 eq_refl
    (or_intror eq_refl) Hproc status_reply_failed) as H.
  cbv zeta in H. destruct H as (Hc & _ & Hn & Ht).
  split; [exact Hc|]. split; [exact Hn|exact Ht].
Defined.

Section ChecksAndUploads.
Import JsString Json Http ApiClient FileManager Usage.

Lemma network_not_notification es :
  forallb network es = true -> notifications es = [].
Proof.
  induction es as [|e es IH]; [reflexivity|].
  cbn [forallb]. intros H. apply andb_prop in H as [He Hes].
  unfold notifications in *. cbn [List.filter].
  destruct e; try discriminate He; exact (IH Hes).
Qed.

Lemma progress_network ps :
  forallb network (map (fun p : Z * Z => UploadProgress (fst p) (snd p)) ps) = true /\
  requests (map (fun p : Z * Z => UploadProgress (fst p) (snd p)) ps) = 0%nat.
Proof.
  induction ps as [|p ps [IH1 IH2]]; [split; reflexivity|].
  split; [exact IH1 | exact IH2].
Qed.

Lemma upload_attempt_traffic t w :
  exists es, traffic w (fst (upload_attempt t w)) es /\ requests es = 1%nat.
Proof.
  exists ([HttpRequest (now w) "POST" (baseURL +:+ "/file/upload")] ++
          map (fun p : Z * Z => UploadProgress (fst p) (snd p)) (progress t)).
  destruct (progress_network (progress t)) as [Hn Hr].
  split.
  - unfold traffic, upload_attempt. cbn [fst emit set_now selectedFiles cache timers log].
    rewrite <- app_assoc. repeat split. rewrite forallb_app, Hn. reflexivity.
  - rewrite requests_app, Hr. reflexivity.
Qed.

(** The retried upload: between one and four transfers. *)
Lemma upload_traffic transfers w :
  exists es,
    traffic w (fst (RequestRetrier.execute RequestRetrier.default_retrier
                      (fun i => upload_attempt (transfers i)) wait w)) es /\
    (1 <= requests es <= 4)%nat /\
    snd (RequestRetrier.execute RequestRetrier.default_retrier
           (fun i => upload_attempt (transfers i)) wait w)
    <> RequestRetrier.RejectedWith None.
Proof.
  unfold RequestRetrier.execute.
  destruct (loop_traffic (fun i => upload_attempt (transfers i))
              ltac:(intros i w0; apply upload_attempt_traffic)
              (S (RequestRetrier.maxRetries RequestRetrier.default_retrier)) 0%nat None w)
    as (es & Htr & Hle & Hge & Hnone).
  exists es. split; [exact Htr|]. split; [cbn in Hle; lia|]. apply Hnone. lia.
Qed.
End ChecksAndUploads.

(** X15: one status check, whatever the server answers.  It sends
    between one and four requests and then does exactly one of four
    things: nothing; a console error; setting the next check for 3000 ms
    later; or raising the notification of a final state and refreshing
    the list.  It never both notifies and sets a timer, and it sets at
    most one timer. *)
Theorem X15_check_does_one_thing
    (server : nat -> FileManager.exchange) (fileId : string) (w : FileManager.world) :
  let w' := FileManager.checkStatus server fileId w in
  exists reqs tail,
    FileManager.log w' = FileManager.log w ++ reqs ++ tail /\
    forallb Usage.network reqs = true /\
    (1 <= Usage.requests reqs <= 4)%nat /\
    FileManager.cache w' = FileManager.cache w /\
    (((tail = [] \/ tail = [FileManager.ConsoleError]) /\
      FileManager.timers w' = FileManager.timers w /\
      FileManager.selectedFiles w' = FileManager.selectedFiles w)
     \/
     (tail = [FileManager.SetTimeout 3000] /\
      FileManager.timers w' =
        FileManager.timers w ++ [(FileManager.now w' + 3000, fileId)] /\
      FileManager.selectedFiles w' = FileManager.selectedFiles w)
     \/
     (exists st,
        tail = [Usage.final_notification st; FileManager.UpdateSelectionUI;
                FileManager.LoadFileList] /\
        FileManager.timers w' = FileManager.timers w /\
        FileManager.selectedFiles w' = ∅)).
Proof.
  cbv zeta. unfold FileManager.checkStatus.
  destruct (getFileStatus_traffic server fileId w)
    as (es & (Hs & Hc & Ht & Hl & Hn) & Hcount).
  destruct (FileManager.getFileStatus server fileId w) as [w1 res].
  cbn [fst] in *. exists es.
  assert (Hquiet : exists tail,
    FileManager.log w1 = FileManager.log w ++ es ++ tail /\
    forallb Usage.network es = true /\
    (1 <= Usage.requests es <= 4)%nat /\
    FileManager.cache w1 = FileManager.cache w /\
    (((tail = [] \/ tail = [FileManager.ConsoleError]) /\
      FileManager.timers w1 = FileManager.timers w /\
      FileManager.selectedFiles w1 = FileManager.selectedFiles w)
     \/
     (tail = [FileManager.SetTimeout 3000] /\
      FileManager.timers w1 =
        FileManager.timers w ++ [(FileManager.now w1 + 3000, fileId)] /\
      FileManager.selectedFiles w1 = FileManager.selectedFiles w)
     \/
     (exists st,
        tail = [Usage.final_notification st; FileManager.UpdateSelectionUI;
                FileManager.LoadFileList] /\
        FileManager.timers w1 = FileManager.timers w /\
        FileManager.selectedFiles w1 = ∅))).
  { exists []. rewrite app_nil_r. do 4 (split; [assumption|]).
    left. split; [left; reflexivity|]. split; assumption. }
  assert (Herr : exists tail,
    FileManager.log (FileManager.emit [FileManager.ConsoleError] w1)
      = FileManager.log w ++ es ++ tail /\
    forallb Usage.network es = true /\
    (1 <= Usage.requests es <= 4)%nat /\
    FileManager.cache (FileManager.emit [FileManager.ConsoleError] w1)
      = FileManager.cache w /\
    (((tail = [] \/ tail = [FileManager.ConsoleError]) /\
      FileManager.timers (FileManager.emit [FileManager.ConsoleError] w1)
        = FileManager.timers w /\
      FileManager.selectedFiles (FileManager.emit [FileManager.ConsoleError] w1)
        = FileManager.selectedFiles w)
     \/
     (tail = [FileManager.SetTimeout 3000] /\
      FileManager.timers (FileManager.emit [FileManager.ConsoleError] w1) =
        FileManager.timers w ++
        [(FileManager.now (FileManager.emit [FileManager.ConsoleError] w1) + 3000, fileId)] /\
      FileManager.selectedFiles (FileManager.emit [FileManager.ConsoleError] w1)
        = FileManager.selectedFiles w)
     \/
     (exists st,
        tail = [Usage.final_notification st; FileManager.UpdateSelectionUI;
                FileManager.LoadFileList] /\
        FileManager.timers (FileManager.emit [FileManager.ConsoleError] w1)
          = FileManager.timers w /\
        FileManager.selectedFiles (FileManager.emit [FileManager.ConsoleError] w1) = ∅))).
  { exists [FileManager.ConsoleError].
    cbn [FileManager.emit FileManager.log FileManager.cache FileManager.timers
         FileManager.selectedFiles].
    split; [rewrite Hl, <- app_assoc; reflexivity|]. do 3 (split; [assumption|]).
    left. split; [right; reflexivity|]. split; assumption. }
  destruct res as [response|thrown]; [|exact Herr].
  destruct (FileManager.member "success" response) as [s|e]; [|exact Herr].
  destruct (ApiClient.truthy s); [|exact Hquiet].
  destruct (FileManager.member "data" response) as [[d|]|e]; [|exact Herr|exact Herr].
  destruct d; try exact Herr;
    match goal with
    | |- context [Json.prop "process_status" ?d] =>
        destruct (Json.prop "process_status" d) as [[| | |st| |]|]; try exact Hquiet
    end;
    unfold FileManager.on_status;
    (destruct (String.eqb st "completed") eqn:Ecompleted;
     [|destruct (String.eqb st "failed") eqn:Efailed;
       [|destruct (String.eqb st "processing"); [|exact Hquiet]]]);
    cbn [FileManager.refreshFileList FileManager.emit FileManager.set_selectedFiles
         FileManager.set_timers FileManager.log FileManager.cache FileManager.timers
         FileManager.selectedFiles FileManager.now].
  all: try (exists [Usage.final_notification st; FileManager.UpdateSelectionUI;
                    FileManager.LoadFileList];
            split; [unfold Usage.final_notification;
                    rewrite Ecompleted, Hl, <- !app_assoc; reflexivity|];
            do 3 (split; [assumption|]);
            right; right; exists st; split; [reflexivity|]; split; [assumption|reflexivity]).
  all: exists [FileManager.SetTimeout 3000];
       (split; [rewrite Hl, <- !app_assoc; reflexivity|]);
       do 3 (split; [assumption|]);
       right; left; split; [reflexivity|]; split; [rewrite Ht; reflexivity|assumption].
Qed.

(** X16: a status check all of whose requests fail.  After one to four
    requests the error goes to the console and nowhere else: no
    notification is raised and no timer is set, so the monitoring of the
    file ends without the user being told. *)
Theorem X16_failed_check_ends_monitoring_silently
    (server : nat -> FileManager.exchange) (fileId : string) (w : FileManager.world) :
  (forall j, exists e,
      ApiClient.request (FileManager.result (server j)) = ApiClient.Throw e) ->
  let w' := FileManager.checkStatus server fileId w in
  (exists reqs,
     FileManager.log w' = FileManager.log w ++ reqs ++ [FileManager.ConsoleError] /\
     forallb Usage.network reqs = true /\
     (1 <= Usage.requests reqs <= 4)%nat) /\
  FileManager.notifications (FileManager.log w')
    = FileManager.notifications (FileManager.log w) /\
  FileManager.timers w' = FileManager.timers w /\
  (FileManager.timers w = [] ->
   forall fuel, FileManager.run_timers server fuel w' = w').
Proof.
  intros Hfail. cbv zeta. unfold FileManager.checkStatus.
  destruct (getFileStatus_traffic server fileId w)
    as (es & (Hs & Hc & Ht & Hl & Hn) & Hcount).
  destruct (loop_all_fail RequestRetrier.default_retrier
              (fun _ => FileManager.status_attempt server fileId) FileManager.wait
              ltac:(intros i w0; unfold FileManager.status_attempt, FileManager.http;
                    cbn [snd]; apply Hfail)
              (S (RequestRetrier.maxRetries RequestRetrier.default_retrier)) 0%nat None w)
    as (thrown & Hres).
  fold (RequestRetrier.execute RequestRetrier.default_retrier
          (fun _ => FileManager.status_attempt server fileId) FileManager.wait w) in Hres.
  fold (FileManager.getFileStatus server fileId w) in Hres.
  destruct (FileManager.getFileStatus server fileId w) as [w1 res].
  cbn [fst snd] in *. subst res.
  cbn [FileManager.emit FileManager.log FileManager.timers].
  split; [exists es; split; [rewrite Hl, <- app_assoc; reflexivity|split; assumption]|].
  split.
  - rewrite Hl, !notifications_app, (network_not_notification es Hn).
    change (FileManager.notifications [FileManager.ConsoleError])
      with (@nil FileManager.effect).
    rewrite !app_nil_r. reflexivity.
  - split; [exact Ht|].
    intros Hts fuel. destruct fuel as [|fuel]; [reflexivity|].
    cbn [FileManager.run_timers FileManager.timers FileManager.emit].
    rewrite Ht, Hts. reflexivity.
Qed.

Lemma X16_failed_check_ends_monitoring_silently_witness :
  let server := fun _ : nat =>
    FileManager.Exchange 30000 (ApiClient.Rejected ApiClient.abort_error) in
  let w' := FileManager.run_timers server 5
              (FileManager.monitorFileProcessing "7"
                 (FileManager.World ∅ ∅ 0 [] 0 [])) in
  FileManager.notifications (FileManager.log w') = [] /\
  FileManager.timers w' = [].
Proof.
  cbv zeta.
  pose proof (X16_failed_check_ends_monitoring_silently
    (fun _ : nat => FileManager.Exchange 30000 (ApiClient.Rejected ApiClient.abort_error))
    "7" (FileManager.World ∅ ∅ 2000 [] 0 [FileManager.SetTimeout 2000])
    ltac:(intros j; eexists; reflexivity)) as H.
  cbv zeta in H. destruct H as (_ & Hn & Ht & Hidle).
  change (FileManager.run_timers
            (fun _ : nat =>
               FileManager.Exchange 30000 (ApiClient.Rejected ApiClient.abort_error)) 5
            (FileManager.monitorFileProcessing "7" (FileManager.World ∅ ∅ 0 [] 0 [])))
    with (FileManager.run_timers
            (fun _ : nat =>
               FileManager.Exchange 30000 (ApiClient.Rejected ApiClient.abort_error)) 4
            (FileManager.checkStatus
               (fun _ : nat =>
                  FileManager.Exchange 30000 (ApiClient.Rejected ApiClient.abort_error))
               "7" (FileManager.World ∅ ∅ 2000 [] 0 [FileManager.SetTimeout 2000]))).
  rewrite (Hidle eq_refl 4%nat). split; [exact Hn | exact Ht].
Defined.

(** X17: [uploadFile], whatever the transfers do.  The file is sent
    between one and four times.  Either the upload is announced as a
    success, the selection is emptied, the list is reloaded and the
    first status check is set for 2000 ms later; or the error is
    notified under the title of a failed upload, the upload area is
    shown again, and no timer is set.  The second case includes a
    successful response without [data]: then the success notification
    has been raised before the failure one. *)
Theorem X17_upload_outcomes (file_name : string)
    (transfers : nat -> FileManager.transfer) (w : FileManager.world) :
  let w' := FileManager.uploadFile file_name transfers w in
  let announced :=
    [FileManager.NotificationSuccess "上传成功"
       ("文件 " +:+ file_name +:+ " 上传成功，正在处理中...");
     FileManager.ModalHide "#upload-modal";
     FileManager.UpdateSelectionUI; FileManager.LoadFileList] in
  exists reqs,
    forallb Usage.network reqs = true /\
    (1 <= Usage.requests reqs <= 4)%nat /\
    FileManager.cache w' = FileManager.cache w /\
    ((exists fileId,
        FileManager.log w' =
          FileManager.log w ++
          [FileManager.HideElement "#upload-area";
           FileManager.ShowElement "#upload-progress"] ++ reqs ++ announced ++
          [FileManager.SetTimeout 2000] /\
        FileManager.timers w' =
          FileManager.timers w ++ [(FileManager.now w' + 2000, fileId)] /\
        FileManager.selectedFiles w' = ∅)
     \/
     (exists before msg,
        FileManager.log w' =
          FileManager.log w ++
          [FileManager.HideElement "#upload-area";
           FileManager.ShowElement "#upload-progress"] ++ reqs ++ before ++
          [FileManager.ConsoleError; FileManager.NotificationError "上传失败" msg;
           FileManager.ShowElement "#upload-area";
           FileManager.HideElement "#upload-progress"] /\
        FileManager.timers w' = FileManager.timers w /\
        ((before = [] /\ FileManager.selectedFiles w' = FileManager.selectedFiles w) \/
         (before = announced /\ FileManager.selectedFiles w' = ∅)))).
Proof.
  cbv zeta. unfold FileManager.uploadFile.
  match goal with
  | |- context [RequestRetrier.execute ?r ?f ?wt ?x] =>
      destruct (upload_traffic transfers x) as (es & (Hs & Hc & Ht & Hl & Hn) & Hcount & Hnone);
      destruct (RequestRetrier.execute r f wt x) as [w2 res]
  end.
  cbn [fst snd FileManager.emit FileManager.selectedFiles FileManager.cache
       FileManager.timers FileManager.log] in Hs, Hc, Ht, Hl, Hnone.
  exists es. split; [exact Hn|]. split; [exact Hcount|].
  unfold FileManager.on_response.
  destruct res as [response|[e|]]; [| |contradiction].
  - destruct (FileManager.member "success" response) as [s|e].
    + destruct (ApiClient.truthy s).
      * assert (Hlate : forall e : Http.error,
          let w3 := FileManager.refreshFileList
                      (FileManager.emit
                         [FileManager.NotificationSuccess "上传成功"
                            ("文件 " +:+ file_name +:+ " 上传成功，正在处理中...");
                          FileManager.ModalHide "#upload-modal"] w2) in
          let w' := FileManager.emit
                      [FileManager.ShowElement "#upload-area";
                       FileManager.HideElement "#upload-progress"]
                      (FileManager.catch_ "上传失败" (Some e) w3) in
          FileManager.cache w' = FileManager.cache w /\
          exists before msg,
            FileManager.log w' =
              FileManager.log w ++
              [FileManager.HideElement "#upload-area";
               FileManager.ShowElement "#upload-progress"] ++ es ++ before ++
              [FileManager.ConsoleError; FileManager.NotificationError "上传失败" msg;
               FileManager.ShowElement "#upload-area";
               FileManager.HideElement "#upload-progress"] /\
            FileManager.timers w' = FileManager.timers w /\
            ((before = [] /\
              FileManager.selectedFiles w' = FileManager.selectedFiles w) \/
             (before =
                [FileManager.NotificationSuccess "上传成功"
                   ("文件 " +:+ file_name +:+ " 上传成功，正在处理中...");
                 FileManager.ModalHide "#upload-modal";
                 FileManager.UpdateSelectionUI; FileManager.LoadFileList] /\
              FileManager.selectedFiles w' = ∅))).
        { intros e. cbv zeta.
          cbn [FileManager.catch_ FileManager.refreshFileList FileManager.emit
               FileManager.set_selectedFiles FileManager.selectedFiles
               FileManager.cache FileManager.timers FileManager.log].
          split; [exact Hc|].
          exists [FileManager.NotificationSuccess "上传成功"
                    ("文件 " +:+ file_name +:+ " 上传成功，正在处理中...");
                  FileManager.ModalHide "#upload-modal";
                  FileManager.UpdateSelectionUI; FileManager.LoadFileList],
                 (Http.message e).
          split; [rewrite Hl, <- !app_assoc; reflexivity|].
          split; [exact Ht|]. right. split; reflexivity. }
        assert (Hgood : forall fileId : string,
          let w3 := FileManager.monitorFileProcessing fileId
                      (FileManager.refreshFileList
                         (FileManager.emit
                            [FileManager.NotificationSuccess "上传成功"
                               ("文件 " +:+ file_name +:+ " 上传成功，正在处理中...");
                             FileManager.ModalHide "#upload-modal"] w2)) in
          FileManager.cache w3 = FileManager.cache w /\
          exists fileId0,
            FileManager.log w3 =
              FileManager.log w ++
              [FileManager.HideElement "#upload-area";
               FileManager.ShowElement "#upload-progress"] ++ es ++
              [FileManager.NotificationSuccess "上传成功"
                 ("文件 " +:+ file_name +:+ " 上传成功，正在处理中...");
               FileManager.ModalHide "#upload-modal";
               FileManager.UpdateSelectionUI; FileManager.LoadFileList] ++
              [FileManager.SetTimeout 2000] /\
            FileManager.timers w3 =
              FileManager.timers w ++ [(FileManager.now w3 + 2000, fileId0)] /\
            FileManager.selectedFiles w3 = ∅).
        { intros fileId. cbv zeta.
          cbn [FileManager.monitorFileProcessing FileManager.refreshFileList
               FileManager.emit FileManager.set_selectedFiles FileManager.set_timers
               FileManager.selectedFiles FileManager.cache FileManager.timers
               FileManager.log FileManager.now].
          split; [exact Hc|]. exists fileId.
          split; [rewrite Hl, <- !app_assoc; reflexivity|].
          split; [rewrite Ht; reflexivity|reflexivity]. }
        cbv zeta in Hlate, Hgood.
        destruct (FileManager.member "data" response) as [[d|]|e].
        -- destruct d;
             first [ destruct (Hlate (ApiClient.null_member_error "file_id")) as [H1 H2];
                     split; [exact H1|right; exact H2]
                   | match goal with
                     | |- context [FileManager.monitorFileProcessing ?f _] =>
                         destruct (Hgood f) as [H1 H2]; split; [exact H1|left; exact H2]
                     end ].
        -- destruct (Hlate (ApiClient.null_member_error "file_id")) as [H1 H2].
           split; [exact H1|right; exact H2].
        -- destruct (Hlate e) as [H1 H2]. split; [exact H1|right; exact H2].
      * destruct (FileManager.member "message" response) as [msg|e];
          cbn [FileManager.catch_ FileManager.emit FileManager.selectedFiles
               FileManager.cache FileManager.timers FileManager.log];
          (split; [exact Hc|]);
          right; exists []; eexists;
          (split; [rewrite Hl, <- !app_assoc; reflexivity|]);
          (split; [exact Ht|]); left; (split; [reflexivity|exact Hs]).
    + cbn [FileManager.catch_ FileManager.emit FileManager.selectedFiles
           FileManager.cache FileManager.timers FileManager.log].
      split; [exact Hc|].
      right; exists []; eexists.
      split; [rewrite Hl, <- !app_assoc; reflexivity|].
      split; [exact Ht|]. left; split; [reflexivity|exact Hs].
  - cbn [FileManager.catch_ FileManager.emit FileManager.selectedFiles
         FileManager.cache FileManager.timers FileManager.log].
    split; [exact Hc|].
    right; exists []; eexists.
    split; [rewrite Hl, <- !app_assoc; reflexivity|].
    split; [exact Ht|]. left; split; [reflexivity|exact Hs].
Qed.

Section BatchDelete.
Import FileManager Usage.

Lemma filter_none {A : Type} (P : A -> Prop) `{!forall x, Decision (P x)} (l : list A) :
  (forall x, x ∈ l -> ~ P x) -> filter P l = [].
Proof.
  induction l as [|x l IH]; intros Hall; [reflexivity|].
  rewrite filter_cons_False by (apply Hall; left).
  apply IH. intros y Hy. apply Hall. right. exact Hy.
Qed.
End BatchDelete.

(** X18: a batch delete over a selection that holds no positive id
    (an empty selection included) sends no request: it warns that no
    valid file is selected, hides the loading overlay, and leaves the
    selection as it is. *)
Theorem X18_batch_delete_needs_a_positive_id
    (replies : nat -> FileManager.exchange) (w : FileManager.world) :
  (forall id, id ∈ FileManager.selectedFiles w -> id <= 0) ->
  let w' := FileManager.performBatchDelete replies w in
  w' = FileManager.emit
         [FileManager.LoadingShow "批量删除文件...";
          FileManager.NotificationWarning "没有有效的文件" "请选择要删除的文件";
          FileManager.LoadingHide] w /\
  Usage.requests (FileManager.log w') = Usage.requests (FileManager.log w).
Proof.
  intros Hsel. cbv zeta. unfold FileManager.performBatchDelete.
  cbn [FileManager.emit FileManager.selectedFiles].
  rewrite (filter_none (fun id : Z => 0 < id) (elements (FileManager.selectedFiles w))).
  - unfold FileManager.emit.
    cbn [FileManager.selectedFiles FileManager.cache FileManager.now FileManager.timers
         FileManager.status_requests FileManager.log].
    rewrite <- app_assoc. split; [reflexivity|].
    rewrite requests_app. cbn. lia.
  - intros id Hid Hpos. apply elem_of_elements in Hid. specialize (Hsel id Hid). lia.
Qed.

Lemma X18_batch_delete_needs_a_positive_id_witness :
  FileManager.log
    (FileManager.performBatchDelete
       (fun _ => Scenario.json_reply (JsString.js "{'success':true}"))
       (FileManager.World {[0; -3]} ∅ 0 [] 0 [])) =
  [FileManager.LoadingShow "批量删除文件...";
   FileManager.NotificationWarning "没有有效的文件" "请选择要删除的文件";
   FileManager.LoadingHide].
Proof.
  destruct (X18_batch_delete_needs_a_positive_id
    (fun _ => Scenario.json_reply (JsString.js "{'success':true}"))
    (FileManager.World {[0; -3]} ∅ 0 [] 0 [])) as [H _].
  - intros id Hid. cbn [FileManager.selectedFiles] in Hid.
    apply elem_of_union in Hid as [Hid | Hid];
      apply elem_of_singleton in Hid; subst id; lia.
  - cbv zeta in H. rewrite H. reflexivity.
Defined.

(* --------------------------------------------------------------------- *)
(** *** The file list *)
(* --------------------------------------------------------------------- *)

Section Pagination.
Import FileList.

(** A click with a target within the pages lands on the target. *)
Lemma goToPage_lands (t page total : Z) (n : nat) :
  1 <= t <= total ->
  currentPage (goToPage t (Pager page total n)) = t /\
  totalPages (goToPage t (Pager page total n)) = total.
Proof.
  intros Ht. unfold goToPage. cbn [totalPages currentPage].
  destruct (Z.ltb_spec t 1); [lia|].
  destruct (Z.ltb_spec total t); [lia|].
  destruct (Z.eqb_spec t page); [subst; split; reflexivity|split; reflexivity].
Qed.

(** The window around the current page holds one to five pages. *)
Lemma window_bounds (page total : Z) :
  1 <= page <= total ->
  (Z.max 1 (page - 2) = page \/ Z.max 1 (page - 2) = page - 1 \/
   Z.max 1 (page - 2) = page - 2) /\
  (Z.min total (page + 2) = page \/ Z.min total (page + 2) = page + 1 \/
   Z.min total (page + 2) = page + 2).
Proof. lia. Qed.
End Pagination.

Ltac decide_comparisons :=
  repeat match goal with
         | |- context [?a =? ?b] =>
             first [ replace (a =? b) with true by (symmetry; apply Z.eqb_eq; lia)
                   | replace (a =? b) with false by (symmetry; apply Z.eqb_neq; lia) ]
         | |- context [?a <=? ?b] =>
             first [ replace (a <=? b) with true by (symmetry; apply Z.leb_le; lia)
                   | replace (a <=? b) with false by (symmetry; apply Z.leb_gt; lia) ]
         | |- context [?a <? ?b] =>
             first [ replace (a <? b) with true by (symmetry; apply Z.ltb_lt; lia)
                   | replace (a <? b) with false by (symmetry; apply Z.ltb_ge; lia) ]
         end.

(** X19: the pagination of page [page] out of [total_pages], for
    [1 <= page <= total_pages] and more than one page.  The numbered
    buttons start at page 1, end at the last page and go up; two buttons
    in a row are two pages in a row unless an ellipsis stands between
    them, and an ellipsis always stands for at least one page.  Exactly
    one button is marked active, that of the current page, and there are
    at most seven numbered buttons.  A click on any piece leaves the
    current page within the pages: a numbered button leads to its page,
    and the buttons of the previous and the next page are disabled
    exactly at the first and the last page. *)
Theorem X19_pagination_is_well_formed (page total_pages : Z) (n : nat) :
  1 <= page <= total_pages -> 1 < total_pages ->
  let items := FileList.renderPagination page total_pages in
  FileList.marked 0 false items /\
  last (FileList.page_numbers items) = Some total_pages /\
  FileList.active_pages items = [page] /\
  (List.length (FileList.page_numbers items) <= 7)%nat /\
  head items = Some (FileList.PrevButton (page - 1) (page =? 1)) /\
  last items = Some (FileList.NextButton (page + 1) (page =? total_pages)) /\
  Forall (fun it =>
            let p := FileList.click it (FileList.Pager page total_pages n) in
            1 <= FileList.currentPage p <= total_pages /\
            match it with
            | FileList.PageButton t _ => FileList.currentPage p = t
            | _ => True
            end) items.
Proof.
  intros Hpage Htotal. cbv zeta. unfold FileList.renderPagination.
  destruct (window_bounds page total_pages Hpage) as [Hs He].
  replace (total_pages <=? 1) with false by (symmetry; apply Z.leb_gt; lia).
  assert (Hclick : forall t,
    1 <= t <= total_pages ->
    1 <= FileList.currentPage
           (FileList.goToPage t (FileList.Pager page total_pages n)) <= total_pages /\
    FileList.currentPage
      (FileList.goToPage t (FileList.Pager page total_pages n)) = t).
  { intros t Ht. destruct (goToPage_lands t page total_pages n Ht) as [-> _].
    split; [exact Ht|reflexivity]. }
  destruct Hs as [Hs | [Hs | Hs]]; destruct He as [He | [He | He]];
    rewrite Hs, He;
    match goal with
    | |- context [Z.to_nat ?x] =>
        first [ replace (Z.to_nat x) with 1%nat by lia
              | replace (Z.to_nat x) with 2%nat by lia
              | replace (Z.to_nat x) with 3%nat by lia
              | replace (Z.to_nat x) with 4%nat by lia
              | replace (Z.to_nat x) with 5%nat by lia ]
    end;
    cbn [FileList.page_buttons];
    destruct (Z.ltb_spec 1 (Z.max 1 (page - 2)));
    destruct (Z.ltb_spec 2 (Z.max 1 (page - 2)));
    destruct (Z.ltb_spec (Z.min total_pages (page + 2)) total_pages);
    destruct (Z.ltb_spec (Z.min total_pages (page + 2)) (total_pages - 1));
    try lia;
    rewrite ?Hs, ?He in *;
    decide_comparisons;
    cbn [app FileList.marked FileList.page_numbers FileList.active_pages omap
         list_omap last head List.length FileList.click];
    (split; [repeat split; lia|]);
    (split; [f_equal; lia|]);
    (split; [f_equal; lia|]);
    (split; [lia|]);
    (split; [reflexivity|]);
    (split; [reflexivity|]);
    repeat (apply Forall_cons_2;
            [cbn [FileList.click];
             first [ apply Hclick; lia
                   | cbn [FileList.currentPage]; split; [lia|exact I]
                   | destruct (Hclick (page - 1) ltac:(lia)) as [Hc _];
                     split; [exact Hc|exact I]
                   | destruct (Hclick (page + 1) ltac:(lia)) as [Hc _];
                     split; [exact Hc|exact I] ]|]);
    apply Forall_nil_2.
Qed.

Lemma X19_pagination_is_well_formed_witness :
  FileList.renderPagination 5 10 =
    [FileList.PrevButton 4 false;
     FileList.PageButton 1 false; FileList.Ellipsis;
     FileList.PageButton 3 false; FileList.PageButton 4 false;
     FileList.PageButton 5 true;
     FileList.PageButton 6 false; FileList.PageButton 7 false;
     FileList.Ellipsis; FileList.PageButton 10 false;
     FileList.NextButton 6 false] /\
  FileList.active_pages (FileList.renderPagination 5 10) = [5].
Proof.
  split; [reflexivity|].
  exact (proj1 (proj2 (proj2
    (X19_pagination_is_well_formed 5 10 0 ltac:(lia) ltac:(lia))))).
Defined.

Section Selection.
Import FileList.

(** Going through [l] and removing from the selection what is not in
    [ids] keeps what is in [ids] or not in [l]. *)
Lemma foldl_remove (ids : gset Z) (l : list Z) (sel : gset Z) (x : Z) :
  x ∈ foldl (fun (selected : gset Z) fileId =>
               if decide (fileId ∈ ids) then selected else selected ∖ {[fileId]})
            sel l
  <-> x ∈ sel /\ (x ∈ l -> x ∈ ids).
Proof.
  revert sel. induction l as [|a l IH]; intros sel; cbn [foldl].
  - split; [intros H; split; [exact H|intros Hx; inversion Hx]|intros [H _]; exact H].
  - rewrite IH. destruct (decide (a ∈ ids)) as [Ha|Ha].
    + split.
      * intros [Hx Hl]. split; [exact Hx|].
        intros Hin. apply elem_of_cons in Hin as [->|Hin]; [exact Ha|exact (Hl Hin)].
      * intros [Hx Hl]. split; [exact Hx|]. intros Hin. apply Hl. right. exact Hin.
    + split.
      * intros [Hx Hl]. apply elem_of_difference in Hx as [Hx Hne].
        split; [exact Hx|].
        intros Hin. apply elem_of_cons in Hin as [->|Hin]; [|exact (Hl Hin)].
        exfalso. apply Hne. apply elem_of_singleton. reflexivity.
      * intros [Hx Hl]. split.
        -- apply elem_of_difference. split; [exact Hx|].
           intros Heq. apply elem_of_singleton in Heq. subst x.
           apply Ha. apply Hl. left.
        -- intros Hin. apply Hl. right. exact Hin.
Qed.
End Selection.

(** X20: [cleanupInvalidSelections].  With a list that is missing or
    empty the selection is emptied, also in search mode.  With a list
    that holds a file, the selection is kept as it is in search mode,
    and otherwise what is left is exactly the selected files that are in
    the list.  In no case is a file added to the selection. *)
Theorem X20_cleanup_keeps_listed_selection :
  (forall kw sel,
      FileList.cleanupInvalidSelections None kw sel = ∅ /\
      FileList.cleanupInvalidSelections (Some []) kw sel = ∅) /\
  (forall file files kw sel,
      FileList.cleanupInvalidSelections (Some (file :: files)) kw sel =
      if FileList.search_mode kw then sel
      else sel ∩ list_to_set (file :: files)) /\
  (forall currentFiles kw sel,
      FileList.cleanupInvalidSelections currentFiles kw sel ⊆ sel).
Proof.
  assert (Hlisted : forall file files kw sel,
    FileList.cleanupInvalidSelections (Some (file :: files)) kw sel =
    if FileList.search_mode kw then sel else sel ∩ list_to_set (file :: files)).
  { intros file files kw sel. unfold FileList.cleanupInvalidSelections.
    destruct (FileList.search_mode kw); [reflexivity|].
    apply set_eq. intros x. rewrite foldl_remove, elem_of_intersection, elem_of_elements.
    split; [intros [Hx Hl]; split; [exact Hx|exact (Hl Hx)]
           |intros [Hx Hi]; split; [exact Hx|intros _; exact Hi]]. }
  split; [intros; split; reflexivity|]. split; [exact Hlisted|].
  intros [[|file files]|] kw sel.
  - apply empty_subseteq.
  - rewrite Hlisted. destruct (FileList.search_mode kw); [reflexivity|].
    apply intersection_subseteq_l.
  - apply empty_subseteq.
Qed.

(* --------------------------------------------------------------------- *)
(** *** Utils *)
(* --------------------------------------------------------------------- *)

Section Chunks.
Import ArrayUtils.
Context {A : Type}.

(** A slice that starts within the array and has a positive size. *)
Lemma slice_window (array : list A) (k : nat) (size : Z) :
  0 < size -> (k < List.length array)%nat ->
  slice array (Z.of_nat k) (Z.of_nat k + size)
  = take (Z.to_nat size) (drop k array).
Proof.
  intros Hsize Hk. unfold slice, clamp.
  destruct (Z.ltb_spec (Z.of_nat k) 0); [lia|].
  destruct (Z.ltb_spec (Z.of_nat k + size) 0); [lia|].
  replace (Z.to_nat (Z.min (Z.of_nat k) (Z.of_nat (List.length array)))) with k by lia.
  destruct (Z.le_gt_cases (Z.of_nat k + size) (Z.of_nat (List.length array))).
  - f_equal. lia.
  - rewrite !take_ge; [reflexivity| |]; rewrite length_drop; lia.
Qed.

Lemma chunk_loop_positive (array : list A) (size : Z) :
  0 < size ->
  forall fuel k chunks,
  (List.length array - k < fuel)%nat ->
  exists rest,
    chunk_loop fuel array size (Z.of_nat k) chunks = Some (chunks ++ rest) /\
    List.concat rest = drop k array /\
    Forall (fun c => (0 < List.length c <= Z.to_nat size)%nat) rest /\
    Forall (fun c => List.length c = Z.to_nat size) (removelast rest).
Proof.
  intros Hsize fuel. induction fuel as [|fuel IH]; intros k chunks Hfuel; [lia|].
  cbn [chunk_loop].
  destruct (Z.ltb_spec (Z.of_nat k) (Z.of_nat (List.length array))) as [Hk|Hk].
  - rewrite slice_window by lia.
    replace (Z.of_nat k + size) with (Z.of_nat (k + Z.to_nat size)) by lia.
    destruct (IH (k + Z.to_nat size)%nat
                (chunks ++ [take (Z.to_nat size) (drop k array)]) ltac:(lia))
      as (rest & Hloop & Hcat & Hall & Hfull).
    exists (take (Z.to_nat size) (drop k array) :: rest).
    assert (Hlen : List.length (take (Z.to_nat size) (drop k array))
                   = Nat.min (Z.to_nat size) (List.length array - k))
      by (rewrite length_take, length_drop; reflexivity).
    split; [rewrite Hloop, <- app_assoc; reflexivity|].
    split; [cbn [List.concat]; rewrite Hcat, <- drop_drop; apply take_drop|].
    split; [apply Forall_cons_2; [lia|exact Hall]|].
    destruct rest as [|c rest]; [apply Forall_nil_2|].
    change (removelast (take (Z.to_nat size) (drop k array) :: c :: rest))
      with (take (Z.to_nat size) (drop k array) :: removelast (c :: rest)).
    apply Forall_cons_2; [|exact Hfull].
    apply Forall_cons_1 in Hall as [Hc _].
    assert (Hmore : (0 < List.length (drop (k + Z.to_nat size) array))%nat).
    { rewrite <- Hcat. cbn [List.concat]. rewrite length_app. lia. }
    rewrite length_drop in Hmore. lia.
  - exists []. rewrite app_nil_r. split; [reflexivity|].
    split; [cbn [List.concat]; symmetry; apply drop_ge; lia|].
    split; apply Forall_nil_2.
Qed.

Lemma chunk_loop_stuck (array : list A) (size : Z) :
  size <= 0 -> array <> [] ->
  forall fuel i chunks, i <= 0 -> chunk_loop fuel array size i chunks = None.
Proof.
  intros Hsize Harray fuel. induction fuel as [|fuel IH]; intros i chunks Hi;
    [reflexivity|].
  cbn [chunk_loop].
  destruct (Z.ltb_spec i (Z.of_nat (List.length array))) as [Hlt|Hge].
  - apply IH. lia.
  - destruct array; [contradiction|]. cbn [List.length] in Hge. lia.
Qed.
End Chunks.

(** X21: [chunk] with a positive size returns, and its chunks put
    together are the array: nothing is lost, repeated or reordered.  No
    chunk is empty, none is longer than [size], and every chunk but the
    last has exactly [size] elements. *)
Theorem X21_chunk_partitions {A : Type} (array : list A) (size : Z) (fuel : nat) :
  0 < size -> (List.length array < fuel)%nat ->
  exists chunks,
    ArrayUtils.chunk fuel array size = Some chunks /\
    List.concat chunks = array /\
    Forall (fun c => (0 < List.length c <= Z.to_nat size)%nat) chunks /\
    Forall (fun c => List.length c = Z.to_nat size) (removelast chunks).
Proof.
  intros Hsize Hfuel.
  destruct (chunk_loop_positive array size Hsize fuel 0%nat [] ltac:(lia))
    as (rest & Hloop & Hcat & Hall & Hfull).
  exists rest. split; [exact Hloop|]. split; [exact Hcat|]. split; assumption.
Qed.

Lemma X21_chunk_partitions_witness :
  ArrayUtils.chunk 6 [1; 2; 3; 4; 5] 2 = Some [[1; 2]; [3; 4]; [5]] /\
  exists chunks,
    ArrayUtils.chunk 6 [1; 2; 3; 4; 5] 2 = Some chunks /\
    List.concat chunks = [1; 2; 3; 4; 5].
Proof.
  split; [reflexivity|].
  destruct (X21_chunk_partitions [1; 2; 3; 4; 5] 2 6 ltac:(lia) ltac:(cbn; lia))
    as (chunks & Hc & Hcat & _).
  exists chunks. split; [exact Hc|exact Hcat].
Defined.

(** X22: [chunk] with a size of zero or less never returns on an
    array that is not empty: the index does not get past the start, so
    the loop goes on adding chunks for as long as it is run. *)
Theorem X22_chunk_never_returns {A : Type} (array : list A) (size : Z) :
  size <= 0 -> array <> [] ->
  forall fuel, ArrayUtils.chunk fuel array size = None.
Proof.
  intros Hsize Harray fuel.
  apply chunk_loop_stuck; [exact Hsize|exact Harray|lia].
Qed.

Lemma X22_chunk_never_returns_witness :
  ArrayUtils.chunk 1000 [1; 2; 3] 0 = None.
Proof.
  exact (X22_chunk_never_returns [1; 2; 3] 0 ltac:(lia) ltac:(discriminate) 1000%nat).
Defined.

Section Groups.
Import Http ApiClient ArrayUtils.
Context {A : Type}.
Variable key_of : A -> string.



End Groups.


Section Throttle.
Import EventUtils.

End Throttle.


